(** * Asteroids: the OBJ model loader ([model.py])

    A shallow embedding of [ObjModel], [_Material] and [AsteroidModel]:
    the two line-oriented parsers ([_parse_model], [_parsemat]), the
    display-list renderer ([render]) and the in-place vertex perturbation of
    [AsteroidModel.__init__], followed by the properties of the loader.

    Conventions of the embedding.
    - A Python exception is a value of [exn]; a computation that may raise
      is a [result].  Only the class of the exception is kept.
    - A file object is the list of its lines, each line as the iteration
      [for line in f] yields it (the trailing newline, when there is one,
      is part of the line).
    - [float(...)], [open(...)], [random.uniform(...)] and the iteration
      order of a Python 2 dictionary are not code of this repository: they
      are parameters of the model.
    - A numpy array held in [self.vertices] is shared with every polygon
      that refers to it, and [AsteroidModel] updates it in place.  A point
      of a polygon is therefore kept as a reference into the two tables
      (the position of the array in the table), not as a copy. *)

From Stdlib Require Import ZArith Ascii String List Bool Lia.
From Stdlib Require Import Floats.
From stdpp Require Import base option list strings gmap.

Local Open Scope string_scope.
Local Open Scope list_scope.

(** ** Exceptions and results *)

Inductive exn : Type :=
| ValueError
| IndexError
| KeyError
| TypeError
| AssertionError
| IOError
| RuntimeError
| NotImplementedError.

Inductive result (A : Type) : Type :=
| Ok (a : A)
| Raise (e : exn).
Arguments Ok {A} a.
Arguments Raise {A} e.

#[global] Instance result_ret : MRet result := fun A a => Ok a.
#[global] Instance result_bind : MBind result := fun A B k r =>
  match r with
  | Ok a => k a
  | Raise e => Raise e
  end.

#[global] Instance result_fmap : FMap result := fun A B f r =>
  match r with
  | Ok a => Ok (f a)
  | Raise e => Raise e
  end.

Definition of_option {A : Type} (e : exn) (o : option A) : result A :=
  match o with
  | Some a => Ok a
  | None => Raise e
  end.

Definition is_ok {A : Type} (r : result A) : bool :=
  match r with Ok _ => true | Raise _ => false end.

(** [for x in xs: body], the body threading a state and possibly raising. *)
Fixpoint for_each {A S : Type} (body : S -> A -> result S) (xs : list A) (s : S)
  : result S :=
  match xs with
  | [] => Ok s
  | x :: xs' => s' ← body s x; for_each body xs' s'
  end.

(** [[f(x) for x in xs]] where [f] may raise. *)
Fixpoint map_result {A B : Type} (f : A -> result B) (xs : list A)
  : result (list B) :=
  match xs with
  | [] => Ok []
  | x :: xs' => y ← f x; ys ← map_result f xs'; Ok (y :: ys)
  end.

(** ** Python strings *)

Module PyStr.

(** The characters [str.strip] and [str.split] treat as blank: space and
    the five control characters [\t \n \v \f \r]. *)
Definition is_space (c : ascii) : bool :=
  let n := N_of_ascii c in
  ((9 <=? n)%N && (n <=? 13)%N) || (n =? 32)%N.

Fixpoint lstrip (s : string) : string :=
  match s with
  | EmptyString => EmptyString
  | String c s' => if is_space c then lstrip s' else s
  end.

Fixpoint rstrip (s : string) : string :=
  match s with
  | EmptyString => EmptyString
  | String c s' =>
      match rstrip s' with
      | EmptyString => if is_space c then EmptyString else String c EmptyString
      | r => String c r
      end
  end.

(** [s.strip()] *)
Definition strip (s : string) : string := rstrip (lstrip s).

(** [s.split()]: the maximal runs of non-blank characters. *)
Fixpoint split (s : string) : list string :=
  match s with
  | EmptyString => []
  | String c s' =>
      if is_space c then split s'
      else match s' with
           | EmptyString => [String c EmptyString]
           | String c' _ =>
               if is_space c' then String c EmptyString :: split s'
               else match split s' with
                    | t :: ts => String c t :: ts
                    | [] => [String c EmptyString]
                    end
           end
  end.

(** The first run of non-blank characters of [s] and what follows it. *)
Fixpoint span_word (s : string) : string * string :=
  match s with
  | EmptyString => (EmptyString, EmptyString)
  | String c s' =>
      if is_space c then (EmptyString, s)
      else let '(w, r) := span_word s' in (String c w, r)
  end.

(** [s.split(None, 1)]: the first word, then the rest of the line from its
    first non-blank character on (trailing blanks kept), when there is one. *)
Definition split1 (s : string) : list string :=
  match lstrip s with
  | EmptyString => []
  | s1 =>
      let '(w, r) := span_word s1 in
      match lstrip r with
      | EmptyString => [w]
      | r' => [w; r']
      end
  end.

(** [s.split(sep)] for a one-character separator. *)
Fixpoint split_on (sep : ascii) (s : string) : list string :=
  match s with
  | EmptyString => [EmptyString]
  | String c s' =>
      if Ascii.eqb c sep then EmptyString :: split_on sep s'
      else match split_on sep s' with
           | t :: ts => String c t :: ts
           | [] => [String c EmptyString]
           end
  end.

Definition digit_of (c : ascii) : option Z :=
  let n := N_of_ascii c in
  if ((48 <=? n)%N && (n <=? 57)%N) then Some (Z.of_N n - 48)%Z else None.

Fixpoint digits (acc : Z) (s : string) : option Z :=
  match s with
  | EmptyString => Some acc
  | String c s' =>
      match digit_of c with
      | Some d => digits (10 * acc + d)%Z s'
      | None => None
      end
  end.

Definition unsigned (s : string) : option Z :=
  match s with
  | EmptyString => None
  | _ => digits 0%Z s
  end.

(** [int(s)] on a string without blanks: an optional sign and one or more
    decimal digits; anything else raises [ValueError]. *)
Definition int (s : string) : result Z :=
  of_option ValueError
    match s with
    | String "-" s' => Z.opp <$> unsigned s'
    | String "+" s' => unsigned s'
    | _ => unsigned s
    end.

(** [s[i]] for [0 <= i]. *)
Definition index (s : string) (i : nat) : result ascii :=
  of_option IndexError (String.get i s).

End PyStr.

(** ** Python lists *)

Module PyList.

(** The position that [l[i]] reads, with Python's negative indices. *)
Definition resolve {A : Type} (l : list A) (i : Z) : result nat :=
  let n := Z.of_nat (length l) in
  if (0 <=? i)%Z && (i <? n)%Z then Ok (Z.to_nat i)
  else if (- n <=? i)%Z && (i <? 0)%Z then Ok (Z.to_nat (n + i))
  else Raise IndexError.

End PyList.

(** ** The data of a model *)

(** A Python number: the default colours of a material are tuples of the
    integer [0], the parsed ones are lists of floats. *)
Inductive num : Type :=
| PyInt (z : Z)
| PyFloat (x : float).

(** A colour as the code holds it: a sequence of numbers, of length 4 once
    it is part of a material. *)
Definition color : Type := list num.

(** A [numpy.array] of three [float64]. *)
Definition vec3 : Type := (float * float * float)%type.

(** [array *= k] for a Python float [k]. *)
Definition scale (v : vec3) (k : float) : vec3 :=
  let '(x, y, z) := v in ((x * k)%float, (y * k)%float, (z * k)%float).

(** An instance of [_Material].  The class defines neither [__eq__] nor
    [__hash__]: as a dictionary key an instance is compared by identity,
    which [mat_id], the rank of its allocation, stands for. *)
Record _Material : Type := Build_Material {
  mat_id : nat;
  ambient : color;
  diffuse : color;
  specular : color;
  emission : color
}.

(** [_Material.__init__]: the four assertions, in order. *)
Definition _Material_init (id : nat) (a d s e : color) : result _Material :=
  if negb (length a =? 4)%nat then Raise AssertionError
  else if negb (length d =? 4)%nat then Raise AssertionError
  else if negb (length s =? 4)%nat then Raise AssertionError
  else if negb (length e =? 4)%nat then Raise AssertionError
  else Ok (Build_Material id a d s e).

(** [_Material] called on the unpacked list [mat] (the call with a star). *)
Definition _Material_star (id : nat) (mat : list color) : result _Material :=
  match mat with
  | [a; d; s; e] => _Material_init id a d s e
  | [a; d; s] => _Material_init id a d s [PyInt 0; PyInt 0; PyInt 0; PyInt 0]
  | [a; d] =>
      _Material_init id a d [PyInt 0; PyInt 0; PyInt 0; PyInt 0]
                            [PyInt 0; PyInt 0; PyInt 0; PyInt 0]
  | _ => Raise TypeError
  end.

(** A key of [self.polys]: a material, or [None] before any [usemtl]. *)
Definition matkey : Type := option _Material.

Definition same_key (k1 k2 : matkey) : bool :=
  match k1, k2 with
  | None, None => true
  | Some m1, Some m2 => (mat_id m1 =? mat_id m2)%nat
  | _, _ => false
  end.

(** A point of a polygon: the positions in [self.vertices] and
    [self.normals] of the two arrays it shares with the tables. *)
Definition point : Type := (nat * nat)%type.
Definition face : Type := list point.

(** A value of [self.polys]: [(triangles, quadralaterals, polygons)]. *)
Definition polygons : Type := (list face * list face * list face)%type.

(** [polygons[i].append(points)] *)
Definition bucket_append (b : polygons) (i : nat) (points : face) : result polygons :=
  let '(triangles, quads, polys) := b in
  match i with
  | 0 => Ok (triangles ++ [points], quads, polys)
  | 1 => Ok (triangles, quads ++ [points], polys)
  | 2 => Ok (triangles, quads, polys ++ [points])
  | _ => Raise IndexError
  end.

(** [self.polys[key][i].append(points)] on the [defaultdict]: the entries are
    kept in the order in which their keys were first used, and a key that
    is not there yet gets [([],[],[])] first. *)
Fixpoint polys_append (d : list (matkey * polygons)) (key : matkey) (i : nat)
    (points : face) : result (list (matkey * polygons)) :=
  match d with
  | [] => b ← bucket_append ([], [], []) i points; Ok [(key, b)]
  | (k, b) :: d' =>
      if same_key k key then b' ← bucket_append b i points; Ok ((k, b') :: d')
      else d'' ← polys_append d' key i points; Ok ((k, b) :: d'')
  end.

(** The [i] of [_parse_model], from [len(points)]. *)
Definition arity_index (n : nat) : nat :=
  if (n =? 3)%nat then 0 else if (n =? 4)%nat then 1 else 2.

(** The fields of an [ObjModel] that the parsers fill, with the counter of
    the [_Material] instances allocated so far. *)
Record ObjModel : Type := Build_ObjModel {
  vertices : list (option vec3);
  normals : list (option vec3);
  mats : gmap string _Material;
  polys : list (matkey * polygons);
  allocated : nat
}.

(** What a reference of a polygon points to. *)
Definition deref (table : list (option vec3)) (k : nat) : option vec3 :=
  mjoin (table !! k).

(** ** The parsers *)

Section Loader.

(** [float(s)]: [None] when Python raises [ValueError]. *)
Variable py_float : string -> option float.

(** [open(name, 'r')]: the lines of the file, [None] when it cannot be
    opened. *)
Variable fs : string -> option (list string).

(** [float(s)] *)
Definition to_float (s : string) : result float :=
  of_option ValueError (py_float s).

Definition open (name : string) : result (list string) :=
  of_option IOError (fs name).

(** [if matname:] *)
Definition truthy (matname : option string) : bool :=
  match matname with
  | None | Some EmptyString => false
  | Some _ => true
  end.

(** The dictionary [m] of [_parsemat]. *)
Definition m (c : ascii) : result nat :=
  if Ascii.eqb c "a" then Ok 0
  else if Ascii.eqb c "d" then Ok 1
  else if Ascii.eqb c "s" then Ok 2
  else if Ascii.eqb c "e" then Ok 3
  else Raise KeyError.

(** The two [if] on [len(color)] of a colour record. *)
Definition expand (color : list num) : list num :=
  if (length color =? 1)%nat then (color ++ color ++ color) ++ [PyFloat 0]
  else if (length color =? 3)%nat then color ++ [PyFloat 0]
  else color.

(** [mat[i] = color]: [mat] is [None] until the first [newmtl]. *)
Definition setitem (mat : option (list color)) (i : nat) (c : color)
  : result (option (list color)) :=
  match mat with
  | None => Raise TypeError
  | Some l => if (i <? length l)%nat then Ok (Some (<[i:=c]> l)) else Raise IndexError
  end.

(** The variables of the loop of [_parsemat]: the registry [self.mats] with
    the allocation counter, [matname] and [mat]. *)
Record matstate : Type := Build_matstate {
  ms_mats : gmap string _Material;
  ms_allocated : nat;
  matname : option string;
  mat : option (list color)
}.

(** [if matname: self.mats[matname] = _Material(...)] *)
Definition save (st : matstate) : result matstate :=
  if truthy (matname st) then
    match matname st, mat st with
    | Some name, Some l =>
        x ← _Material_star (ms_allocated st) l;
        Ok (Build_matstate (<[name:=x]> (ms_mats st)) (S (ms_allocated st))
              (matname st) (mat st))
    | _, _ => Raise TypeError
    end
  else Ok st.

Definition is_color_keyword (w : string) : bool :=
  String.eqb w "Ka" || String.eqb w "Kd" || String.eqb w "Ks" || String.eqb w "Ke".

(** One turn of the loop of [_parsemat]. *)
Definition parsemat_line (st : matstate) (line : string) : result matstate :=
  match PyStr.split (PyStr.strip line) with
  | [] => Ok st
  | keyword :: _ =>
      if String.eqb keyword "newmtl" then
        st1 ← save st;
        name ← of_option IndexError (PyStr.split line !! 1);
        Ok (Build_matstate (ms_mats st1) (ms_allocated st1) (Some name)
              (Some (replicate 4 [PyInt 0; PyInt 0; PyInt 0; PyInt 0])))
      else if is_color_keyword keyword then
        color ← map_result (fun x => PyFloat <$> to_float x) (tail (PyStr.split line));
        c ← PyStr.index line 1;
        i ← m c;
        mat' ← setitem (mat st) i (expand color);
        Ok (Build_matstate (ms_mats st) (ms_allocated st) (matname st) mat')
      else Ok st
  end.

(** The body of [_parsemat] once the file is open. *)
Definition parsemat_lines (mats : gmap string _Material) (allocated : nat)
    (lines : list string) : result (gmap string _Material * nat) :=
  st ← for_each parsemat_line lines (Build_matstate mats allocated None None);
  st' ← save st;
  Ok (ms_mats st', ms_allocated st').

Definition _parsemat (mats : gmap string _Material) (allocated : nat)
    (matfilename : string) : result (gmap string _Material * nat) :=
  f ← open matfilename;
  parsemat_lines mats allocated f.

(** The variables of the loop of [_parse_model]: the fields of [self] and
    [currentmat]. *)
Record parsestate : Type := Build_parsestate {
  self : ObjModel;
  currentmat : matkey
}.

(** [self.vertices = [None]], [self.normals = [None]], [self.mats = {}],
    [self.polys = defaultdict(...)], [currentmat = None]. *)
Definition parse_start : parsestate :=
  Build_parsestate (Build_ObjModel [None] [None] ∅ [] 0) None.

(** [_, p1, p2, p3 = line.split()] and the array of the three floats. *)
Definition parse_vec3 (line : string) : result vec3 :=
  match PyStr.split line with
  | [_; p1; p2; p3] =>
      x ← to_float p1; y ← to_float p2; z ← to_float p3; Ok (x, y, z)
  | _ => Raise ValueError
  end.

(** One turn of the loop over [face_components]. *)
Definition face_point (o : ObjModel) (component : string) : result point :=
  match PyStr.split_on "/" component with
  | [point; texture; normal] =>
      i ← PyStr.int point;
      vertex ← PyList.resolve (vertices o) i;
      j ← PyStr.int normal;
      normalv ← PyList.resolve (normals o) j;
      Ok (vertex, normalv)
  | _ => Raise ValueError
  end.

(** [line.split(None, 1)[1].split()] *)
Definition face_components (line : string) : result (list string) :=
  rest ← of_option IndexError (PyStr.split1 line !! 1);
  Ok (PyStr.split rest).

(** The [for filename in lineparts[1:]] of a [mtllib] record. *)
Definition parse_mtllib (o : ObjModel) (filenames : list string) : result ObjModel :=
  r ← for_each (fun (r : gmap string _Material * nat) filename =>
                  _parsemat r.1 r.2 filename)
        filenames (mats o, allocated o);
  Ok (Build_ObjModel (vertices o) (normals o) r.1 (polys o) r.2).

(** One turn of the loop of [_parse_model]. *)
Definition parse_line (st : parsestate) (line : string) : result parsestate :=
  let o := self st in
  if String.eqb (PyStr.strip line) "" then Ok st
  else
    match PyStr.split (PyStr.strip line) with
    | [] => Raise IndexError
    | keyword :: filenames =>
        if String.eqb keyword "v" then
          v ← parse_vec3 line;
          Ok (Build_parsestate
                (Build_ObjModel (vertices o ++ [Some v]) (normals o) (mats o)
                   (polys o) (allocated o))
                (currentmat st))
        else if String.eqb keyword "vn" then
          v ← parse_vec3 line;
          Ok (Build_parsestate
                (Build_ObjModel (vertices o) (normals o ++ [Some v]) (mats o)
                   (polys o) (allocated o))
                (currentmat st))
        else if String.eqb keyword "mtllib" then
          o' ← parse_mtllib o filenames;
          Ok (Build_parsestate o' (currentmat st))
        else if String.eqb keyword "usemtl" then
          name ← of_option IndexError (PyStr.split line !! 1);
          x ← of_option KeyError (mats o !! name);
          Ok (Build_parsestate o (Some x))
        else if String.eqb keyword "f" then
          components ← face_components line;
          points ← map_result (face_point o) components;
          d ← polys_append (polys o) (currentmat st)
                (arity_index (length points)) points;
          Ok (Build_parsestate
                (Build_ObjModel (vertices o) (normals o) (mats o) d (allocated o))
                (currentmat st))
        else Ok st
    end.

(** [_parse_model] on an open file. *)
Definition parse_lines (lines : list string) : result ObjModel :=
  st ← for_each parse_line lines parse_start;
  Ok (self st).

(** [_parse_model(name)] for a file name. *)
Definition _parse_model (name : string) : result ObjModel :=
  fileobj ← open name;
  parse_lines fileobj.

End Loader.

(** ** The rendering backend *)

(** The OpenGL constants the module names, the two of the commented-out
    lines of [_Material.activate] included. *)
Inductive GLenum : Type :=
| GL_FRONT
| GL_AMBIENT
| GL_DIFFUSE
| GL_SPECULAR
| GL_EMISSION
| GL_TRIANGLES
| GL_QUADS
| GL_POLYGON
| GL_COMPILE.

(** A call to the backend, with its arguments. *)
Inductive glcall : Type :=
| glMaterialfv (face pname : GLenum) (params : color)
| glBegin (mode : GLenum)
| glEnd
| glNormal3dv (v : option vec3)
| glVertex3dv (v : option vec3)
| glGenLists (range : Z)
| glNewList (list : Z) (mode : GLenum)
| glEndList
| glCallList (list : Z).

(** A run of drawing code: the calls it made, in order, and the exception
    that stopped it, if one did. *)
Record run : Type := Build_run {
  calls : list glcall;
  raised : option exn
}.

Definition emit (cs : list glcall) : run := Build_run cs None.
Definition throw (e : exn) : run := Build_run [] (Some e).

(** [r1] and then, unless it raised, [r2]. *)
Definition andthen (r1 r2 : run) : run :=
  match raised r1 with
  | None => Build_run (calls r1 ++ calls r2) (raised r2)
  | Some _ => r1
  end.

(** [for x in xs: body(x)] *)
Fixpoint for_run {A : Type} (body : A -> run) (xs : list A) : run :=
  match xs with
  | [] => emit []
  | x :: xs' => andthen (body x) (for_run body xs')
  end.

(** [_Material.activate] *)
Definition activate (t : _Material) : run :=
  emit [glMaterialfv GL_FRONT GL_AMBIENT (ambient t);
        glMaterialfv GL_FRONT GL_DIFFUSE (diffuse t)].

Section Render.

(** [dict.iteritems()] of Python 2: the entries of the dictionary, in the
    order of its hash table.  The keys are hashed by their addresses, so
    the order is a parameter; all that is known of it is that every entry
    comes once. *)
Variable iteritems : list (matkey * polygons) -> list (matkey * polygons).

Variable o : ObjModel.

Definition normal_vertex (p : point) : list glcall :=
  let '(pt, n) := p in
  [glNormal3dv (deref (normals o) n); glVertex3dv (deref (vertices o) pt)].

(** The body of [for (pt1,n1),(pt2,n2),(pt3,n3) in triangles]; unpacking a
    polygon of another length raises [ValueError]. *)
Definition render_triangle (f : face) : run :=
  match f with
  | [p1; p2; p3] => emit (normal_vertex p1 ++ normal_vertex p2 ++ normal_vertex p3)
  | _ => throw ValueError
  end.

Definition render_quad (f : face) : run :=
  match f with
  | [p1; p2; p3; p4] =>
      emit (normal_vertex p1 ++ normal_vertex p2 ++ normal_vertex p3
              ++ normal_vertex p4)
  | _ => throw ValueError
  end.

Definition render_polygon (p : face) : run :=
  andthen (emit [glBegin GL_POLYGON])
    (andthen (for_run (fun pt_n => emit (normal_vertex pt_n)) p) (emit [glEnd])).

(** The body of the loop of [render], for one entry of [self.polys]. *)
Definition render_entry (entry : matkey * polygons) : run :=
  let '(texture, (triangles, quads, polys)) := entry in
  andthen
    match texture with
    | Some t => activate t
    | None => emit []
    end
    (andthen
       match triangles with
       | [] => emit []
       | _ =>
           andthen (emit [glBegin GL_TRIANGLES])
             (andthen (for_run render_triangle triangles) (emit [glEnd]))
       end
       (andthen
          match quads with
          | [] => emit []
          | _ =>
              andthen (emit [glBegin GL_QUADS])
                (andthen (for_run render_quad quads) (emit [glEnd]))
          end
          (for_run render_polygon polys))).

(** [ObjModel.render] *)
Definition render : run :=
  for_run render_entry (iteritems (polys o)).

(** [Model._create_displaylist]; [renderlist] is what [glGenLists(1)]
    answers. *)
Definition _create_displaylist (renderlist : Z) : run :=
  andthen (emit [glGenLists 1])
    (if (renderlist =? 0)%Z then throw RuntimeError
     else andthen (emit [glNewList renderlist GL_COMPILE])
            (andthen render (emit [glEndList]))).

End Render.

(** [Model.draw] *)
Definition draw (renderlist : Z) : run := emit [glCallList renderlist].

(** ** The randomized asteroid *)

Section Asteroid.

Variable py_float : string -> option float.
Variable fs : string -> option (list string).

(** [random.uniform(0.7, 1.3)] as a function of the state of the generator. *)
Variable Rng : Type.
Variable uniform : Rng -> float * Rng.

(** [vertex *= k]; [None] has no such operation. *)
Definition imul (vertex : option vec3) (k : float) : result (option vec3) :=
  match vertex with
  | Some v => Ok (Some (scale v k))
  | None => Raise TypeError
  end.

(** [for vertex in vs: vertex *= random.uniform(0.7,1.3)]: the arrays as
    the loop leaves them, and the generator. *)
Fixpoint perturb (vs : list (option vec3)) (g : Rng)
  : result (list (option vec3) * Rng) :=
  match vs with
  | [] => Ok ([], g)
  | vertex :: vs' =>
      let '(k, g') := uniform g in
      v ← imul vertex k;
      r ← perturb vs' g';
      Ok (v :: r.1, r.2)
  end.

(** The loop of [AsteroidModel.__init__] on [self.vertices[1:]].  The slice
    holds the arrays of the table itself: they are the ones updated. *)
Definition perturb_model (o : ObjModel) (g : Rng) : result (ObjModel * Rng) :=
  r ← perturb (drop 1 (vertices o)) g;
  Ok (Build_ObjModel (take 1 (vertices o) ++ r.1) (normals o) (mats o)
        (polys o) (allocated o), r.2).

(** [AsteroidModel.__init__] up to the display list: the model it leaves in
    [self]. *)
Definition AsteroidModel_init (g : Rng) : result (ObjModel * Rng) :=
  o ← _parse_model py_float fs "asteroid.obj";
  perturb_model o g.

End Asteroid.

(** ** A reading of plain decimals

    On a decimal [d.ddd] of at most 15 digits, [float] answers the quotient
    of the integer of its digits by the power of ten: both are binary64
    numbers, and the quotient is rounded once.  This reading of such tokens
    is used to run the model on examples. *)

Definition decimal_digits (s : string) : option (Z * nat) :=
  match PyStr.split_on "." s with
  | [i] => n ← PyStr.unsigned i; Some (n, 0)
  | [i; f] =>
      n ← PyStr.unsigned (i ++ f);
      match i, f with
      | EmptyString, EmptyString => None
      | _, _ => Some (n, String.length f)
      end
  | _ => None
  end.

Definition decimal_unsigned (s : string) : option float :=
  '(n, k) ← decimal_digits s;
  if (n <? 10 ^ 15)%Z && (k <=? 15)%nat then
    Some (PrimFloat.of_uint63 (Uint63.of_Z n)
          / PrimFloat.of_uint63 (Uint63.of_Z (10 ^ Z.of_nat k)))%float
  else None.

Definition decimal_float (s : string) : option float :=
  match s with
  | String "-" s' => PrimFloat.opp <$> decimal_unsigned s'
  | String "+" s' => decimal_unsigned s'
  | _ => decimal_unsigned s
  end.

(** ** Vocabulary of the statements *)

(** The keyword of a record: [lineparts[0]], when the line has a word. *)
Definition keyword_of (line : string) : option string :=
  head (PyStr.split (PyStr.strip line)).

(** The character of the line at position 0 is blank. *)
Definition leading_blank (line : string) : bool :=
  match line with
  | String c _ => PyStr.is_space c
  | EmptyString => false
  end.

(** The channel a colour keyword names: ambient, diffuse, specular,
    emission, in the order of the arguments of [_Material]. *)
Definition keyword_channel (keyword : string) : option nat :=
  if String.eqb keyword "Ka" then Some 0
  else if String.eqb keyword "Kd" then Some 1
  else if String.eqb keyword "Ks" then Some 2
  else if String.eqb keyword "Ke" then Some 3
  else None.

(** The entry of [self.polys] under a key. *)
Fixpoint lookup_polys (d : list (matkey * polygons)) (key : matkey) : option polygons :=
  match d with
  | [] => None
  | (k, b) :: d' => if same_key k key then Some b else lookup_polys d' key
  end.

(** The keys of [self.polys], in the order of their first use. *)
Definition keys (d : list (matkey * polygons)) : list matkey := d.*1.

(** The values [texture] takes in the loop of [render], in order. *)
Definition visit_order (iteritems : list (matkey * polygons) -> list (matkey * polygons))
    (o : ObjModel) : list matkey :=
  (iteritems (polys o)).*1.

(** No two keys of the list are the same object. *)
Fixpoint distinct_keys (ks : list matkey) : Prop :=
  match ks with
  | [] => True
  | k :: ks' => Forall (fun k' => same_key k k' = false) ks' /\ distinct_keys ks'
  end.

(** A table as [_parse_model] builds it: the placeholder [None] at
    position 0, then arrays only. *)
Definition table_ok (t : list (option vec3)) : Prop :=
  exists vs : list vec3, t = None :: (Some <$> vs).

(** The first [n] answers of the generator. *)
Fixpoint draws {Rng : Type} (uniform : Rng -> float * Rng) (g : Rng) (n : nat)
  : list float :=
  match n with
  | 0 => []
  | S n' => (uniform g).1 :: draws uniform (uniform g).2 n'
  end.

(** The generator after [n] answers. *)
Fixpoint after_draws {Rng : Type} (uniform : Rng -> float * Rng) (g : Rng) (n : nat)
  : Rng :=
  match n with
  | 0 => g
  | S n' => after_draws uniform (uniform g).2 n'
  end.

Definition is_glMaterialfv (c : glcall) : bool :=
  match c with
  | glMaterialfv _ _ _ => true
  | _ => false
  end.

(** The calls that activating the material of a key makes. *)
Definition activation (key : matkey) : list glcall :=
  match key with
  | Some t => calls (activate t)
  | None => []
  end.

(** The two buckets that [render] unpacks hold polygons of the length it
    expects. *)
Definition buckets_ok (b : polygons) : Prop :=
  Forall (fun f : face => length f = 3) b.1.1 /\
  Forall (fun f : face => length f = 4) b.1.2.

(** What every model that [_parse_model] builds satisfies. *)
Definition model_ok (o : ObjModel) : Prop :=
  table_ok (vertices o) /\ table_ok (normals o) /\
  distinct_keys (keys (polys o)) /\ Forall buckets_ok (polys o).*2.

(** The calls to [glMaterialfv] among the calls of a run, in order. *)
Definition material_calls (cs : list glcall) : list glcall :=
  List.filter is_glMaterialfv cs.

(** A call that, when it sets a material, sets the ambient or the diffuse
    colour of the front faces. *)
Definition ambient_or_diffuse (c : glcall) : Prop :=
  match c with
  | glMaterialfv f p _ => f = GL_FRONT /\ (p = GL_AMBIENT \/ p = GL_DIFFUSE)
  | _ => True
  end.

(** A run that ends without an exception and sets no material. *)
Definition quiet (r : run) : Prop :=
  raised r = None /\ material_calls (calls r) = [].

(** The record is a face. *)
Definition is_face (line : string) : bool :=
  match keyword_of line with
  | Some w => String.eqb w "f"
  | None => false
  end.

(** The keys in the order of their first use: [k] joins the end unless it
    is there already. *)
Definition add_key (ks : list matkey) (k : matkey) : list matkey :=
  if existsb (fun k' => same_key k' k) ks then ks else ks ++ [k].

(** ** The constructors

    What a constructor leaves: the calls it made to the backend, and the
    object, or the exception that ended it. *)

Section Constructors.

Variable py_float : string -> option float.
Variable fs : string -> option (list string).
Variable iteritems : list (matkey * polygons) -> list (matkey * polygons).

(** [self._create_displaylist()] as the last statement of a constructor. *)
Definition compile (o : ObjModel) (renderlist : Z) : list glcall * result ObjModel :=
  let r := _create_displaylist iteritems o renderlist in
  (calls r, match raised r with None => Ok o | Some e => Raise e end).

(** [ObjModel.__init__] on a file name. *)
Definition ObjModel_init (fileobj : string) (renderlist : Z)
  : list glcall * result ObjModel :=
  match _parse_model py_float fs fileobj with
  | Ok o => compile o renderlist
  | Raise e => ([], Raise e)
  end.

Variable Rng : Type.
Variable uniform : Rng -> float * Rng.

(** The whole of [AsteroidModel.__init__]: the model and the generator it
    leaves. *)
Definition AsteroidModel_new (g : Rng) (renderlist : Z)
  : list glcall * result (ObjModel * Rng) :=
  match AsteroidModel_init py_float fs Rng uniform g with
  | Ok (o, g') =>
      let '(cs, r) := compile o renderlist in (cs, (fun o' => (o', g')) <$> r)
  | Raise e => ([], Raise e)
  end.

End Constructors.

(** ** The ship ([ship.py])

    The methods of [Ship] that move the ship and gate its controls:
    [_update_normal], [_update_bezier], [thrust], [turn] and [fly_in].
    The modules [asteroids], [bezier] and [bullets] are not part of the
    sources: the constants [WIDTH], [HEIGHT] and [distance] (numbers of the
    window, taken as [float64]) and the class [bezier.Quadratic] (its
    constructor, its method [B], which answers a new array at each call,
    and its field [tmax], a number of frames) are parameters.  [update], [direction], [fly_out] and [draw] go through
    them, or through matrices of floats, and are left out. *)

Section Ship.

Variable WIDTH HEIGHT distance : float.

(** A point of a curve, as [p0], [p1] and [p2] of [fly_in]: a position and
    the two angles theta and phi. *)
Definition point5 : Type := (float * float * float * float * float)%type.

Variable Bezier : Type.
Variable Quadratic : point5 -> point5 -> point5 -> Z -> Bezier.
Variable B : Bezier -> Z -> point5.
Variable tmax : Bezier -> Z.

(** A value that a caller hands to [thrust] or [turn]. *)
Variable value : Type.

(** The fields of a [Ship] that these methods read or write. *)
Record Ship : Type := Build_Ship {
  pos : vec3;
  theta : num;
  phi : num;
  rot : num;
  speed : vec3;
  _state : Z;
  _trusting : value;
  _turning : value;
  _t : Z;
  _bezier : Bezier
}.

(** [Ship.WRAPDIST] *)
Definition WRAPDIST : float := 20.

(** The two tests on one coordinate in [_update_normal]; [hi] is [WIDTH +
    self.WRAPDIST] or [HEIGHT + self.WRAPDIST]. *)
Definition wrap (hi x : float) : float :=
  if (hi <? x)%float then (- WRAPDIST)%float
  else if (x <? - WRAPDIST)%float then hi
  else x.

(** [Ship._update_normal] *)
Definition _update_normal (s : Ship) : Ship :=
  let '(x, y, z) := pos s in
  let '(vx, vy, vz) := speed s in
  Build_Ship
    (wrap (WIDTH + WRAPDIST) (x + vx), wrap (HEIGHT + WRAPDIST) (y + vy), z + vz)%float
    (theta s) (phi s) (rot s) (speed s) (_state s) (_trusting s) (_turning s)
    (_t s) (_bezier s).

(** [self.rot += 2] *)
Definition add_two (r : num) : num :=
  match r with
  | PyInt z => PyInt (z + 2)
  | PyFloat x => PyFloat (x + 2)
  end.

(** [Ship._update_bezier] *)
Definition _update_bezier (s : Ship) : Ship :=
  let t := (_t s + 1)%Z in
  let '(x, y, z, th, ph) := B (_bezier s) t in
  Build_Ship (x, y, z) (PyFloat th) (PyFloat ph) (add_two (rot s)) (speed s)
    (if (tmax (_bezier s) <=? t)%Z then 1%Z else _state s)
    (_trusting s) (_turning s) t (_bezier s).

(** [self._state not in (0, 1)] *)
Definition controls_off (s : Ship) : bool :=
  negb ((_state s =? 0)%Z || (_state s =? 1)%Z).

(** [Ship.thrust] *)
Definition thrust (s : Ship) (on : value) : Ship :=
  if controls_off s then s
  else Build_Ship (pos s) (theta s) (phi s) (rot s) (speed s) (_state s)
         on (_turning s) (_t s) (_bezier s).

(** [Ship.turn] *)
Definition turn (s : Ship) (dir : value) : Ship :=
  if controls_off s then s
  else Build_Ship (pos s) (theta s) (phi s) (rot s) (speed s) (_state s)
         (_trusting s) dir (_t s) (_bezier s).

(** [Ship.fly_in]; [0.6], [1.1] and [0.3] are the floats that Python reads
    from these literals. *)
Definition fly_in (s : Ship) : Ship :=
  let p0 : point5 :=
    (WIDTH * 0x1.3333333333333p-1, HEIGHT / 2, distance * 0x1.199999999999ap+0,
     90, -90)%float in
  let p1 : point5 :=
    (WIDTH * 0x1.3333333333333p-1, HEIGHT / 2, distance * 0x1.3333333333333p-2,
     90, -80)%float in
  let p2 : point5 := (WIDTH / 2, HEIGHT / 2, 0, 90, 0)%float in
  let '(x, y, z, th, ph) := p0 in
  Build_Ship (x, y, z) (PyFloat th) (PyFloat ph) (rot s) (speed s) 2
    (_trusting s) (_turning s) 0 (Quadratic p0 p1 p2 100).

(** [k] calls of [_update_bezier] in a row. *)
Definition frames (k : nat) (s : Ship) : Ship := Nat.iter k _update_bezier s.

End Ship.

Arguments Build_Ship {Bezier value}.
Arguments pos {Bezier value} s.
Arguments theta {Bezier value} s.
Arguments phi {Bezier value} s.
Arguments rot {Bezier value} s.
Arguments speed {Bezier value} s.
Arguments _state {Bezier value} s.
Arguments _trusting {Bezier value} s.
Arguments _turning {Bezier value} s.
Arguments _t {Bezier value} s.
Arguments _bezier {Bezier value} s.
Arguments _update_normal WIDTH HEIGHT {Bezier value} s.
Arguments _update_bezier {Bezier} B tmax {value} s.
Arguments controls_off {Bezier value} s.
Arguments thrust {Bezier value} s on.
Arguments turn {Bezier value} s dir.
Arguments fly_in WIDTH HEIGHT distance {Bezier} Quadratic {value} s.
Arguments frames {Bezier} B tmax {value} k s.

(** ** Vocabulary of the further statements *)

(** The keywords [_parse_model] acts on. *)
Definition is_geometry_keyword (w : string) : bool :=
  String.eqb w "v" || String.eqb w "vn" || String.eqb w "mtllib"
  || String.eqb w "usemtl" || String.eqb w "f".

(** A line [_parse_model] passes over: blank, or with another keyword. *)
Definition geometry_ignored (line : string) : bool :=
  match keyword_of line with
  | Some w => negb (is_geometry_keyword w)
  | None => true
  end.

(** A line [_parsemat] passes over. *)
Definition library_ignored (line : string) : bool :=
  match keyword_of line with
  | Some w => negb (String.eqb w "newmtl" || is_color_keyword w)
  | None => true
  end.




(** The points of the polygons of an entry of [self.polys]. *)
Definition entry_points (entry : matkey * polygons) : list point :=
  concat (entry.2.1.1 ++ entry.2.1.2 ++ entry.2.2).

(** Every point of every polygon refers to a position of the tables. *)
Definition points_in_range (o : ObjModel) : Prop :=
  Forall (fun entry =>
            Forall (fun p : point =>
                      p.1 < length (vertices o) /\ p.2 < length (normals o))
              (entry_points entry))
    (polys o).

(** The names that the [newmtl] records of a library declare. *)
Fixpoint declared (lines : list string) : list string :=
  match lines with
  | [] => []
  | line :: lines' =>
      match PyStr.split line with
      | keyword :: name :: _ =>
          if String.eqb keyword "newmtl" then name :: declared lines'
          else declared lines'
      | _ => declared lines'
      end
  end.

(** The four colours of a material have four components each. *)
Definition material_ok (x : _Material) : Prop :=
  length (ambient x) = 4 /\ length (diffuse x) = 4 /\
  length (specular x) = 4 /\ length (emission x) = 4.

(** The vertex a call passes is an entry of the table of the vertices, the
    normal an entry of the table of the normals. *)
Definition from_tables (o : ObjModel) (c : glcall) : Prop :=
  match c with
  | glVertex3dv v => v ∈ vertices o
  | glNormal3dv v => v ∈ normals o
  | _ => True
  end.

(** A call that, when it sets a material, passes a colour of four
    components. *)
Definition four_components (c : glcall) : Prop :=
  match c with
  | glMaterialfv _ _ x => length x = 4
  | _ => True
  end.

(** The key is [None] or a material with colours of four components. *)
Definition key_ok (k : matkey) : Prop :=
  match k with
  | Some x => material_ok x
  | None => True
  end.

(** The protocol of the immediate mode of the backend: outside
    [glBegin]/[glEnd], inside, or inside with a normal given and its vertex
    awaited. *)
Inductive glstate : Type :=
| Outside
| Inside
| NormalGiven.

(** The state after a call, [None] when the call is out of place. *)
Definition glstep (s : glstate) (c : glcall) : option glstate :=
  match s, c with
  | Outside, glBegin _ => Some Inside
  | Outside, glMaterialfv _ _ _ => Some Outside
  | Inside, glNormal3dv _ => Some NormalGiven
  | NormalGiven, glVertex3dv _ => Some Inside
  | Inside, glEnd => Some Outside
  | _, _ => None
  end.

Fixpoint glrun (s : glstate) (cs : list glcall) : option glstate :=
  match cs with
  | [] => Some s
  | c :: cs' =>
      match glstep s c with
      | Some s' => glrun s' cs'
      | None => None
      end
  end.

(** A run that ends without an exception and takes the protocol from [s]
    to [s']. *)
Definition steps (s : glstate) (r : run) (s' : glstate) : Prop :=
  raised r = None /\ glrun s (calls r) = Some s'.

(** The vertices, and the normals, that the calls pass, in order. *)
Definition vertex_args (cs : list glcall) : list (option vec3) :=
  flat_map (fun c => match c with glVertex3dv v => [v] | _ => [] end) cs.

Definition normal_args (cs : list glcall) : list (option vec3) :=
  flat_map (fun c => match c with glNormal3dv v => [v] | _ => [] end) cs.

(** A run that ends without an exception and passes the vertices and the
    normals of the points [pts], in their order. *)
Definition passes (o : ObjModel) (r : run) (pts : list point) : Prop :=
  raised r = None /\
  vertex_args (calls r) = (fun p : point => deref (vertices o) p.1) <$> pts /\
  normal_args (calls r) = (fun p : point => deref (normals o) p.2) <$> pts.

(** ** A small scene

    A material library, a ship that uses it and an asteroid, as files of a
    directory; a generator that always answers the same number; and a
    dictionary that iterates over its entries from the last to the first. *)

Definition nl : string := String "010"%char EmptyString.

Definition ship_mtl : list string :=
  ["# materials of the ship" +:+ nl;
   nl;
   "newmtl red" +:+ nl;
   "Ka 0.5" +:+ nl;
   "Kd 0.25 0.5 0.75" +:+ nl;
   "Ks 1 1 1 1" +:+ nl].

Definition ship_obj : list string :=
  ["mtllib ship.mtl" +:+ nl;
   "v 0 0 0" +:+ nl;
   "v 1 0 0" +:+ nl;
   "v 0 1 0" +:+ nl;
   "v 1 1 0" +:+ nl;
   "vn 0 0 1" +:+ nl;
   "f 1//1 2//1 3//1" +:+ nl;
   "usemtl red" +:+ nl;
   "f 1//1 2//1 4//1 3//1" +:+ nl].

Definition asteroid_obj : list string :=
  ["v 1 2 4" +:+ nl;
   "vn 0 0 1" +:+ nl;
   "f 1//1 1//1 1//1" +:+ nl].

Definition scene (name : string) : option (list string) :=
  if String.eqb name "ship.mtl" then Some ship_mtl
  else if String.eqb name "ship.obj" then Some ship_obj
  else if String.eqb name "asteroid.obj" then Some asteroid_obj
  else None.

(** The material that [ship.mtl] defines. *)
Definition red : _Material :=
  Build_Material 0
    [PyFloat 0.5; PyFloat 0.5; PyFloat 0.5; PyFloat 0]
    [PyFloat 0.25; PyFloat 0.5; PyFloat 0.75; PyFloat 0]
    [PyFloat 1; PyFloat 1; PyFloat 1; PyFloat 1]
    [PyInt 0; PyInt 0; PyInt 0; PyInt 0].

(** The models that [_parse_model] builds from the two documents. *)
Definition ship : ObjModel :=
  Build_ObjModel
    [None; Some (0, 0, 0); Some (1, 0, 0); Some (0, 1, 0); Some (1, 1, 0)]%float
    [None; Some (0, 0, 1)]%float
    (<["red":=red]> ∅)
    [(None, ([[(1, 1); (2, 1); (3, 1)]], [], []));
     (Some red, ([], [[(1, 1); (2, 1); (4, 1); (3, 1)]], []))]
    1.

Definition asteroid : ObjModel :=
  Build_ObjModel [None; Some (1, 2, 4)]%float [None; Some (0, 0, 1)]%float ∅
    [(None, ([[(1, 1); (1, 1); (1, 1)]], [], []))] 0.

(** The loop of [_parse_model] after one vertex and one normal. *)
Definition one_vertex : parsestate :=
  Build_parsestate
    (Build_ObjModel [None; Some (0, 0, 0)]%float [None; Some (0, 0, 1)]%float ∅ [] 0)
    None.


(** The loop of [_parsemat] after [newmtl red]. *)
Definition red_started : matstate :=
  Build_matstate ∅ 0 (Some "red")
    (Some (replicate 4 [PyInt 0; PyInt 0; PyInt 0; PyInt 0])).

(** A generator that answers [k] every time. *)
Definition constant (k : float) (g : unit) : float * unit := (k, g).

(** A curve that stays at its last point for its number of frames, in the
    place of [bezier.Quadratic], and a ship about to cross the right edge
    of a window of 800 by 600. *)
Definition still : Type := (point5 * Z)%type.

Definition still_curve (p0 p1 p2 : point5) (frames : Z) : still := (p2, frames).

Definition crossing : Ship still bool :=
  Build_Ship (810, 300, 0)%float (PyFloat 90) (PyFloat 0) (PyInt 0)
    (15, 0, 0)%float 1 false false 100
    (still_curve (0, 0, 0, 0, 0)%float (0, 0, 0, 0, 0)%float
       (400, 300, 0, 90, 0)%float 100).

(** A ship about to cross the edge of the window where y is lowest. *)
Definition sinking : Ship still bool :=
  Build_Ship (400, -15, 0)%float (PyFloat 90) (PyFloat 0) (PyInt 0)
    (0, -10, 0)%float 1 false false 100
    (still_curve (0, 0, 0, 0, 0)%float (0, 0, 0, 0, 0)%float
       (400, 300, 0, 90, 0)%float 100).

(** * Properties *)

(** ** Words of a line *)

Module PyStrFacts.
Import PyStr.

Lemma split_lstrip (s : string) : split (lstrip s) = split s.
Proof.
  induction s as [| c s IH]; [reflexivity |].
  cbn [lstrip]. destruct (is_space c) eqn:Hc; [| reflexivity].
  rewrite IH. cbn [split]. by rewrite Hc.
Qed.

(** What [lstrip] leaves starts with a non-blank character. *)
Lemma lstrip_head (s : string) (c : ascii) (s' : string) :
  lstrip s = String c s' -> is_space c = false.
Proof.
  induction s as [| a s IH]; [discriminate |].
  cbn [lstrip]. destruct (is_space a) eqn:Ha; [exact IH |].
  intros Heq. inversion Heq; subst. exact Ha.
Qed.

(** A line that starts with a non-blank character has a first word, which
    starts with that character. *)
Lemma split_head (c : ascii) (s : string) :
  is_space c = false -> exists t ts, split (String c s) = String c t :: ts.
Proof.
  intros Hc. cbn [split]. rewrite Hc. destruct s as [| c' s']; [by eexists _, _ |].
  destruct (is_space c'); [by eexists _, _ |].
  destruct (split (String c' s')); by eexists _, _.
Qed.

Lemma split_nil_lstrip (s : string) : split s = [] -> lstrip s = EmptyString.
Proof.
  induction s as [| c s IH]; [reflexivity |]. intros H.
  destruct (is_space c) eqn:Hc.
  - cbn [lstrip]. rewrite Hc. apply IH. cbn [split] in H. by rewrite Hc in H.
  - destruct (split_head c s Hc) as (t & ts & Heq). congruence.
Qed.

Lemma rstrip_head (c : ascii) (s : string) :
  rstrip (String c s) = EmptyString \/ exists r, rstrip (String c s) = String c r.
Proof.
  cbn [rstrip]. destruct (rstrip s); [destruct (is_space c) |]; eauto.
Qed.

Lemma split_cons2 (c c' : ascii) (s : string) :
  split (String c (String c' s))
  = if is_space c then split (String c' s)
    else if is_space c' then String c EmptyString :: split (String c' s)
    else match split (String c' s) with
         | t :: ts => String c t :: ts
         | [] => [String c EmptyString]
         end.
Proof. reflexivity. Qed.

Lemma split_rstrip (s : string) : split (rstrip s) = split s.
Proof.
  induction s as [| c s IH]; [reflexivity |].
  cbn [rstrip]. destruct (rstrip s) as [| a r] eqn:Hr.
  - assert (split s = []) as Hs by (by rewrite <- IH).
    destruct s as [| c' s'].
    + by destruct (is_space c) eqn:Hc; cbn; rewrite Hc.
    + rewrite split_cons2, Hs.
      destruct (is_space c) eqn:Hc; [reflexivity |].
      cbn. rewrite Hc. by destruct (is_space c').
  - destruct s as [| c' s']; [discriminate |].
    assert (a = c') as ->.
    { destruct (rstrip_head c' s') as [He | [r' He]]; congruence. }
    by rewrite !split_cons2, IH.
Qed.

Lemma split_strip (s : string) : split (strip s) = split s.
Proof. unfold strip. by rewrite split_rstrip, split_lstrip. Qed.

(** [not line.strip()] holds exactly of the lines without a word. *)
Lemma strip_empty (s : string) : strip s = EmptyString <-> split s = [].
Proof.
  split; intros H.
  - by rewrite <- split_strip, H.
  - unfold strip. by rewrite (split_nil_lstrip s H).
Qed.

Lemma strip_eqb_words (s w : string) (ws : list string) :
  split s = w :: ws -> String.eqb (strip s) EmptyString = false.
Proof.
  intros H. apply String.eqb_neq. intros He. apply strip_empty in He. congruence.
Qed.

Lemma span_word_cons (c : ascii) (s : string) :
  is_space c = false ->
  span_word (String c s) = (String c (span_word s).1, (span_word s).2).
Proof. intros Hc. cbn [span_word]. rewrite Hc. by destruct (span_word s). Qed.

Lemma span_word_space (c : ascii) (s : string) :
  is_space c = true -> span_word (String c s) = (EmptyString, String c s).
Proof. intros Hc. cbn [span_word]. by rewrite Hc. Qed.

(** The first word and the rest, as [span_word] cuts them. *)
Lemma split_span (c : ascii) (s : string) :
  is_space c = false ->
  split (String c s)
  = (span_word (String c s)).1 :: split (span_word (String c s)).2.
Proof.
  revert c. induction s as [| c' s IH]; intros c Hc.
  - cbn. by rewrite Hc.
  - rewrite split_cons2, Hc, (span_word_cons c _ Hc). cbn [fst snd].
    destruct (is_space c') eqn:Hc'.
    + by rewrite (span_word_space c' s Hc').
    + by rewrite (IH c' Hc').
Qed.

Lemma span_word_app (s : string) : s = (span_word s).1 +:+ (span_word s).2.
Proof.
  induction s as [| c s IH]; [reflexivity |].
  destruct (is_space c) eqn:Hc.
  - by rewrite (span_word_space c s Hc).
  - rewrite (span_word_cons c s Hc).
    change (String c s = String c ((span_word s).1 +:+ (span_word s).2)).
    by f_equal.
Qed.

(** [line.split(None, 1)] against [line.split()]. *)
Lemma split1_split (s w : string) (ws : list string) :
  split s = w :: ws ->
  match ws with
  | [] => split1 s = [w]
  | _ => exists rest, split1 s = [w; rest] /\ split rest = ws
  end.
Proof.
  intros H. rewrite <- split_lstrip in H. unfold split1.
  destruct (lstrip s) as [| c s1] eqn:Hs; [discriminate |].
  pose proof (lstrip_head _ _ _ Hs) as Hc.
  rewrite (split_span c s1 Hc) in H.
  destruct (span_word (String c s1)) as [w' r]. cbn [fst snd] in H.
  injection H as -> Hws. rewrite <- split_lstrip in Hws.
  destruct (lstrip r) as [| a r'] eqn:Hr.
  - by subst ws.
  - destruct (split_head a r' (lstrip_head _ _ _ Hr)) as (t & ts & Ht).
    destruct ws; [congruence |]. eauto.
Qed.

(** The first word of a line that starts with a non-blank character is a
    prefix of the line. *)
Lemma first_word_prefix (c : ascii) (s w : string) (ws : list string) :
  is_space c = false -> split (String c s) = w :: ws ->
  exists r, String c s = w +:+ r.
Proof.
  intros Hc H. rewrite (split_span c s Hc) in H. injection H as <- _.
  eexists. apply span_word_app.
Qed.

End PyStrFacts.

(** ** Results and loops *)

Lemma bind_Ok {A B : Type} (a : A) (k : A -> result B) : (Ok a ≫= k) = k a.
Proof. reflexivity. Qed.

Lemma bind_Raise {A B : Type} (e : exn) (k : A -> result B) :
  (Raise e ≫= k) = Raise e.
Proof. reflexivity. Qed.

Lemma bind_inv {A B : Type} (r : result A) (k : A -> result B) (b : B) :
  r ≫= k = Ok b -> exists a, r = Ok a /\ k a = Ok b.
Proof. destruct r as [a | e]; [eauto | discriminate]. Qed.

Lemma fmap_Ok {A B : Type} (f : A -> B) (a : A) : f <$> Ok a = Ok (f a).
Proof. reflexivity. Qed.

Lemma for_each_app {A S : Type} (body : S -> A -> result S) (xs ys : list A) (s : S) :
  for_each body (xs ++ ys) s = s' ← for_each body xs s; for_each body ys s'.
Proof.
  revert s. induction xs as [| x xs IH]; intros s; [reflexivity |].
  cbn [for_each app]. destruct (body s x) as [s1 | e]; [| reflexivity].
  rewrite !bind_Ok. apply IH.
Qed.

(** A property that every successful turn of a loop keeps holds when the
    loop ends. *)
Lemma for_each_invariant {A S : Type} (P : S -> Prop) (body : S -> A -> result S)
    (xs : list A) (s s' : S) :
  (forall s x s', P s -> body s x = Ok s' -> P s') ->
  P s -> for_each body xs s = Ok s' -> P s'.
Proof.
  intros Hstep. revert s. induction xs as [| x xs IH]; intros s Hs H.
  - by injection H as <-.
  - cbn [for_each] in H. apply bind_inv in H as (s1 & H1 & H2). eauto.
Qed.

(** A loop stops at the first turn that raises. *)
Lemma for_each_raise {A S : Type} (body : S -> A -> result S) (xs ys : list A)
    (x : A) (s s1 : S) (e : exn) :
  for_each body xs s = Ok s1 -> body s1 x = Raise e ->
  for_each body (xs ++ x :: ys) s = Raise e.
Proof.
  intros H1 H2. rewrite for_each_app, H1, bind_Ok. cbn [for_each]. by rewrite H2.
Qed.

Lemma map_result_Ok {A B : Type} (f : A -> result B) (xs : list A) (ys : list B) :
  Forall2 (fun x y => f x = Ok y) xs ys -> map_result f xs = Ok ys.
Proof.
  induction 1 as [| x y xs ys Hx _ IH]; [reflexivity |].
  cbn [map_result]. by rewrite Hx, bind_Ok, IH.
Qed.

Lemma map_result_inv {A B : Type} (f : A -> result B) (xs : list A) (ys : list B) :
  map_result f xs = Ok ys -> Forall2 (fun x y => f x = Ok y) xs ys.
Proof.
  revert ys. induction xs as [| x xs IH]; intros ys H.
  - injection H as <-. constructor.
  - cbn [map_result] in H. apply bind_inv in H as (y & Hy & H).
    apply bind_inv in H as (ys' & Hys & H). injection H as <-.
    constructor; auto.
Qed.

Lemma map_result_raise {A B : Type} (f : A -> result B) (xs zs : list A)
    (ys : list B) (x : A) (e : exn) :
  Forall2 (fun x y => f x = Ok y) xs ys -> f x = Raise e ->
  map_result f (xs ++ x :: zs) = Raise e.
Proof.
  induction 1 as [| x0 y xs ys Hx _ IH]; intros He; cbn [map_result app].
  - by rewrite He.
  - by rewrite Hx, bind_Ok, IH.
Qed.

Lemma map_result_app {A B : Type} (f : A -> result B) (xs zs : list A) :
  map_result f (xs ++ zs)
  = (a ← map_result f xs; b ← map_result f zs; Ok (a ++ b)).
Proof.
  induction xs as [| x xs IH]; cbn [map_result app].
  - rewrite bind_Ok. by destruct (map_result f zs).
  - destruct (f x) as [y | e]; [| reflexivity]. rewrite !bind_Ok, IH.
    destruct (map_result f xs) as [a | e]; [| reflexivity]. rewrite !bind_Ok.
    by destruct (map_result f zs).
Qed.

(** A comprehension raises when the function raises on one of the
    elements: the exception is that of the first element on which it does. *)
Lemma map_result_fails {A B : Type} (f : A -> result B) (xs zs : list A)
    (x : A) (e0 : exn) :
  f x = Raise e0 ->
  exists e, map_result f (xs ++ x :: zs) = Raise e /\
            (is_ok (map_result f xs) = true -> e = e0).
Proof.
  intros Hx. rewrite map_result_app. cbn [map_result]. rewrite Hx, bind_Raise.
  destruct (map_result f xs) as [a | e].
  - exists e0. by rewrite bind_Ok.
  - exists e. by rewrite bind_Raise.
Qed.

Lemma map_result_length {A B : Type} (f : A -> result B) (xs : list A) (ys : list B) :
  map_result f xs = Ok ys -> length ys = length xs.
Proof. intros H. apply map_result_inv in H. symmetry. by eapply Forall2_length. Qed.

(** ** The material library *)

Lemma color_keyword_cases (w : string) :
  is_color_keyword w = true -> w = "Ka" \/ w = "Kd" \/ w = "Ks" \/ w = "Ke".
Proof.
  unfold is_color_keyword. rewrite !orb_true_iff, !String.eqb_eq. tauto.
Qed.

Lemma keyword_of_words (line w : string) (ws : list string) :
  PyStr.split line = w :: ws -> keyword_of line = Some w.
Proof. intros H. unfold keyword_of. by rewrite PyStrFacts.split_strip, H. Qed.

Lemma keyword_of_inv (line w : string) :
  keyword_of line = Some w -> exists ws, PyStr.split line = w :: ws.
Proof.
  unfold keyword_of. rewrite PyStrFacts.split_strip.
  destruct (PyStr.split line) as [| w' ws]; [discriminate |].
  intros [= ->]. eauto.
Qed.

(** A blank character is no key of [m]. *)
Lemma m_blank (c : ascii) : PyStr.is_space c = true -> m c = Raise KeyError.
Proof.
  intros Hc. unfold m.
  repeat match goal with
         | |- context [Ascii.eqb c ?x] =>
             destruct (Ascii.eqb_spec c x) as [-> | _]; [discriminate Hc |]
         end.
  reflexivity.
Qed.

(** On a record that starts at the first column, position 1 of the line is
    the second letter of the keyword, and [m] maps it to the channel that
    the keyword names. *)
Lemma second_char_keyword (line w : string) (ws : list string) :
  leading_blank line = false -> PyStr.split line = w :: ws ->
  is_color_keyword w = true ->
  exists c i, PyStr.index line 1 = Ok c /\ m c = Ok i /\ keyword_channel w = Some i.
Proof.
  intros Hb H Hw. destruct line as [| c0 s]; [discriminate |]. cbn in Hb.
  destruct (PyStrFacts.first_word_prefix c0 s w ws Hb H) as [r Hr].
  rewrite Hr.
  destruct (color_keyword_cases w Hw) as [-> | [-> | [-> | ->]]];
    eexists _, _; (split; [reflexivity | split; reflexivity]).
Qed.

(** On a record that follows a blank, position 1 of the line is a blank or
    the [K] of the keyword: no key of [m]. *)
Lemma second_char_blank (line w : string) (ws : list string) :
  leading_blank line = true -> PyStr.split line = w :: ws ->
  is_color_keyword w = true ->
  exists c, PyStr.index line 1 = Ok c /\ m c = Raise KeyError.
Proof.
  intros Hb H Hw. destruct line as [| c0 [| c1 r]]; [discriminate | |].
  - cbn in Hb. cbn in H. by rewrite Hb in H.
  - cbn in Hb. exists c1. split; [reflexivity |].
    destruct (PyStr.is_space c1) eqn:Hc1; [by apply m_blank |].
    rewrite PyStrFacts.split_cons2, Hb in H.
    destruct (PyStrFacts.split_head c1 r Hc1) as (t & ts & Ht).
    rewrite Ht in H. injection H as <- _.
    by destruct (color_keyword_cases _ Hw) as [Hk | [Hk | [Hk | Hk]]];
      injection Hk as -> _.
Qed.

(** The keys of [m] and what it answers for them. *)
Lemma m_channels (c : ascii) (i : nat) :
  (c, i) ∈ [("a", 0); ("d", 1); ("s", 2); ("e", 3)]%char -> m c = Ok i.
Proof.
  intros Hin.
  repeat (apply elem_of_cons in Hin as [[= -> ->] | Hin]; [reflexivity |]).
  by apply elem_of_nil in Hin.
Qed.

Lemma m_other (c : ascii) :
  c ∉ ["a"; "d"; "s"; "e"]%char <-> m c = Raise KeyError.
Proof.
  unfold m. rewrite !not_elem_of_cons.
  destruct (Ascii.eqb_spec c "a") as [-> | Ha]; [split; [tauto | discriminate] |].
  destruct (Ascii.eqb_spec c "d") as [-> | Hd]; [split; [tauto | discriminate] |].
  destruct (Ascii.eqb_spec c "s") as [-> | Hs]; [split; [tauto | discriminate] |].
  destruct (Ascii.eqb_spec c "e") as [-> | He]; [split; [tauto | discriminate] |].
  split; [reflexivity |]. intros _. split_and!; try done. apply not_elem_of_nil.
Qed.

(** On a record that starts at the first column, position 1 of the line is
    the second letter of the keyword. *)
Lemma second_char_letter (line w : string) (ws : list string) :
  leading_blank line = false -> PyStr.split line = w :: ws ->
  is_color_keyword w = true ->
  exists c, PyStr.index line 1 = Ok c /\ w = String "K" (String c EmptyString).
Proof.
  intros Hb H Hw. destruct line as [| c0 s]; [discriminate |]. cbn in Hb.
  destruct (PyStrFacts.first_word_prefix c0 s w ws Hb H) as [r Hr].
  rewrite Hr.
  destruct (color_keyword_cases w Hw) as [-> | [-> | [-> | ->]]];
    eexists; (split; reflexivity).
Qed.

Section MaterialFacts.

Variable py_float : string -> option float.

(** What a colour record does, once its words are known. *)
Lemma parsemat_line_color (st : matstate) (line w : string) (ws : list string) :
  PyStr.split line = w :: ws -> is_color_keyword w = true ->
  parsemat_line py_float st line
  = (color ← map_result (fun x => PyFloat <$> to_float py_float x) ws;
     c ← PyStr.index line 1;
     i ← m c;
     mat' ← setitem (mat st) i (expand color);
     Ok (Build_matstate (ms_mats st) (ms_allocated st) (matname st) mat')).
Proof.
  intros H Hw. unfold parsemat_line.
  rewrite PyStrFacts.split_strip, H. cbn [tail].
  destruct (color_keyword_cases w Hw) as [-> | [-> | [-> | ->]]]; reflexivity.
Qed.

Lemma floats_Ok (ws : list string) (vals : list float) :
  Forall2 (fun x v => py_float x = Some v) ws vals ->
  map_result (fun x => PyFloat <$> to_float py_float x) ws = Ok (PyFloat <$> vals).
Proof.
  intros H. apply map_result_Ok. apply Forall2_fmap_r.
  eapply Forall2_impl; [exact H |]. cbn. intros x v Hx.
  unfold to_float. by rewrite Hx.
Qed.

(** [float] raises on the first value that is no number. *)
Lemma floats_ValueError (ws : list string) :
  Exists (fun x => py_float x = None) ws ->
  map_result (fun x => PyFloat <$> to_float py_float x) ws = Raise ValueError.
Proof.
  unfold to_float.
  induction ws as [| x ws IH]; intros H; [by apply Exists_nil in H |].
  cbn [map_result].
  destruct (py_float x) as [v |] eqn:Hx; [| reflexivity].
  apply Exists_cons in H as [H | H]; [congruence |].
  cbn. by rewrite (IH H).
Qed.

(** The values of a record are all numbers, or one of them is not. *)
Lemma floats_cases (ws : list string) :
  (exists vals, Forall2 (fun x v => py_float x = Some v) ws vals)
  \/ Exists (fun x => py_float x = None) ws.
Proof.
  induction ws as [| x ws [[vals IH] | IH]].
  - left. by exists [].
  - destruct (py_float x) as [v |] eqn:Hx.
    + left. exists (v :: vals). by constructor.
    + right. by left.
  - right. by right.
Qed.

(** A colour record whose values are numbers, in a material under way. *)
Lemma parsemat_line_store (st : matstate) (line w : string) (ws : list string)
    (vals : list float) (l : list color) (c : ascii) (i : nat) :
  PyStr.split line = w :: ws -> is_color_keyword w = true ->
  Forall2 (fun x v => py_float x = Some v) ws vals ->
  PyStr.index line 1 = Ok c -> m c = Ok i ->
  mat st = Some l -> length l = 4 ->
  parsemat_line py_float st line
  = Ok (Build_matstate (ms_mats st) (ms_allocated st) (matname st)
          (Some (<[i:=expand (PyFloat <$> vals)]> l))).
Proof.
  intros H Hw Hf Hc Hi Hm Hl.
  rewrite (parsemat_line_color st line w ws H Hw), (floats_Ok ws vals Hf), bind_Ok.
  rewrite Hc, bind_Ok, Hi, bind_Ok, Hm. unfold setitem. rewrite Hl.
  assert (i < 4) as Hlt.
  { unfold m in Hi. repeat (destruct (Ascii.eqb c _); [injection Hi as <-; lia |]).
    discriminate. }
  apply Nat.ltb_lt in Hlt. by rewrite Hlt.
Qed.

(** A colour record raises when no material is under way, whatever else
    is wrong with it. *)
Lemma parsemat_line_orphan (st : matstate) (line w : string) (ws : list string) :
  PyStr.split line = w :: ws -> is_color_keyword w = true -> mat st = None ->
  exists e, parsemat_line py_float st line = Raise e.
Proof.
  intros H Hw Hm. rewrite (parsemat_line_color st line w ws H Hw).
  destruct (map_result _ ws) as [color | e]; [rewrite bind_Ok | by eexists].
  destruct (PyStr.index line 1) as [c | e]; [rewrite bind_Ok | by eexists].
  destruct (m c) as [i | e]; [rewrite bind_Ok | by eexists].
  rewrite Hm. by eexists.
Qed.

(** A record other than [newmtl] leaves [mat] at [None]. *)
Lemma parsemat_line_keeps_none (st st' : matstate) (line : string) :
  keyword_of line <> Some "newmtl" -> mat st = None ->
  parsemat_line py_float st line = Ok st' -> mat st' = None.
Proof.
  intros Hk Hm H.
  destruct (PyStr.split line) as [| w ws] eqn:Hs.
  - unfold parsemat_line in H. rewrite PyStrFacts.split_strip, Hs in H.
    by injection H as <-.
  - destruct (String.eqb_spec w "newmtl") as [-> | Hne].
    { destruct Hk. by apply (keyword_of_words line _ ws). }
    destruct (is_color_keyword w) eqn:Hw.
    + destruct (parsemat_line_orphan st line w ws Hs Hw Hm) as [e He]. congruence.
    + unfold parsemat_line in H. rewrite PyStrFacts.split_strip, Hs in H.
      apply String.eqb_neq in Hne. rewrite Hne, Hw in H. by injection H as <-.
Qed.

End MaterialFacts.

Section MaterialClaims.

Variable py_float : string -> option float.

(** [save] checks the four lengths, and nothing else. *)
Lemma save_checks (st : matstate) (name : string) (a d s e : color) :
  matname st = Some name -> name <> EmptyString -> mat st = Some [a; d; s; e] ->
  save st
  = if decide (length a = 4 /\ length d = 4 /\ length s = 4 /\ length e = 4)
    then Ok (Build_matstate
               (<[name:=Build_Material (ms_allocated st) a d s e]> (ms_mats st))
               (S (ms_allocated st)) (matname st) (mat st))
    else Raise AssertionError.
Proof.
  intros Hn Hne Hm. unfold save. rewrite Hn, Hm.
  destruct name as [| c name]; [done |]. cbn [truthy _Material_star].
  unfold _Material_init.
  destruct (Nat.eqb_spec (length a) 4) as [Ha | Ha]; cbn [negb];
    [| case_decide; [tauto | reflexivity]].
  destruct (Nat.eqb_spec (length d) 4) as [Hd | Hd]; cbn [negb];
    [| case_decide; [tauto | reflexivity]].
  destruct (Nat.eqb_spec (length s) 4) as [Hs | Hs]; cbn [negb];
    [| case_decide; [tauto | reflexivity]].
  destruct (Nat.eqb_spec (length e) 4) as [He | He]; cbn [negb];
    [| case_decide; [tauto | reflexivity]].
  case_decide; [reflexivity | tauto].
Qed.

(** C3, as amended.  A colour record that starts at the first column, with
    numeric values, inside a material: one value is replicated into R, G, B
    and alpha 0.0 is appended; three values get alpha 0.0 appended; any
    other number of values, four included, is stored as it is, and the
    record does not fail.  The length is checked later, when the material
    is saved: the four colours it then holds must have length 4, or the
    assertion of [_Material] fails. *)
Theorem color_record_expansion (st : matstate) (line w : string)
    (ws : list string) (vals : list float) (l : list color) :
  PyStr.split line = w :: ws -> is_color_keyword w = true ->
  leading_blank line = false ->
  Forall2 (fun x v => py_float x = Some v) ws vals ->
  mat st = Some l -> length l = 4 ->
  (exists i stored,
      keyword_channel w = Some i /\
      parsemat_line py_float st line
      = Ok (Build_matstate (ms_mats st) (ms_allocated st) (matname st)
              (Some (<[i:=stored]> l))) /\
      (forall x, vals = [x] ->
         stored = [PyFloat x; PyFloat x; PyFloat x; PyFloat 0]) /\
      (forall x y z, vals = [x; y; z] ->
         stored = [PyFloat x; PyFloat y; PyFloat z; PyFloat 0]) /\
      (length vals <> 1 -> length vals <> 3 -> stored = PyFloat <$> vals)) /\
  (forall (st' : matstate) (name : string) (a d s e : color),
      matname st' = Some name -> name <> EmptyString ->
      mat st' = Some [a; d; s; e] ->
      (length a = 4 /\ length d = 4 /\ length s = 4 /\ length e = 4 ->
       is_ok (save st') = true) /\
      (~ (length a = 4 /\ length d = 4 /\ length s = 4 /\ length e = 4) ->
       save st' = Raise AssertionError)).
Proof.
  intros H Hw Hb Hf Hm Hl. split.
  - destruct (second_char_keyword line w ws Hb H Hw) as (c & i & Hc & Hi & Hk).
    exists i, (expand (PyFloat <$> vals)). split; [exact Hk |]. split.
    { by apply (parsemat_line_store py_float st line w ws vals l c i). }
    split; [by intros x -> |]. split; [by intros x y z -> |].
    intros H1 H3. unfold expand. rewrite length_fmap.
    destruct (Nat.eqb_spec (length vals) 1); [done |].
    by destruct (Nat.eqb_spec (length vals) 3).
  - intros st' name a d s e Hn Hne Hm'.
    rewrite (save_checks st' name a d s e Hn Hne Hm').
    split; intros Hlen; case_decide; done.
Qed.

(** C9, as amended.  The channel a colour record updates is selected by
    the character at position 1 of the raw line: [a] the ambient colour,
    [d] the diffuse, [s] the specular, [e] the emission, and any other
    character the [KeyError] of the lookup.  At the first column that
    character is the second letter of the keyword.  After a leading blank
    it is a blank or the [K] of the keyword, so the record fails although
    its keyword is recognized: with [ValueError] when one of its values is
    no number, since the values are converted before the lookup, and with
    [KeyError] when they all are; the exception ends the parsing of the
    library. *)
Theorem color_channel_by_second_char (st : matstate) (line w : string)
    (ws : list string) :
  PyStr.split line = w :: ws -> is_color_keyword w = true ->
  exists c,
    PyStr.index line 1 = Ok c /\
    (forall (vals : list float),
       Forall2 (fun x v => py_float x = Some v) ws vals ->
       (forall (l : list color) (i : nat),
          (c, i) ∈ [("a", 0); ("d", 1); ("s", 2); ("e", 3)]%char ->
          mat st = Some l -> length l = 4 ->
          parsemat_line py_float st line
          = Ok (Build_matstate (ms_mats st) (ms_allocated st) (matname st)
                  (Some (<[i:=expand (PyFloat <$> vals)]> l)))) /\
       (c ∉ ["a"; "d"; "s"; "e"]%char ->
        parsemat_line py_float st line = Raise KeyError)) /\
    (Exists (fun x => py_float x = None) ws ->
     parsemat_line py_float st line = Raise ValueError) /\
    (leading_blank line = false -> w = String "K" (String c EmptyString)) /\
    (leading_blank line = true ->
     (c ∉ ["a"; "d"; "s"; "e"]%char) /\
     is_Some (keyword_channel w) /\
     exists e,
       parsemat_line py_float st line = Raise e /\
       (forall vals, Forall2 (fun x v => py_float x = Some v) ws vals ->
                     e = KeyError) /\
       (Exists (fun x => py_float x = None) ws -> e = ValueError) /\
       forall (mats : gmap string _Material) (n : nat) (pre post : list string),
         for_each (parsemat_line py_float) pre (Build_matstate mats n None None)
         = Ok st ->
         parsemat_lines py_float mats n (pre ++ line :: post) = Raise e).
Proof.
  intros H Hw.
  assert (exists c, PyStr.index line 1 = Ok c /\
                    (leading_blank line = false ->
                     w = String "K" (String c EmptyString)) /\
                    (leading_blank line = true -> m c = Raise KeyError))
    as (c & Hc & Hcol & Hblank).
  { destruct (leading_blank line) eqn:Hb.
    - destruct (second_char_blank line w ws Hb H Hw) as (c & Hc & Hk).
      exists c. by split_and!.
    - destruct (second_char_letter line w ws Hb H Hw) as (c & Hc & Hk).
      exists c. by split_and!. }
  assert (forall vals, Forall2 (fun x v => py_float x = Some v) ws vals ->
            m c = Raise KeyError ->
            parsemat_line py_float st line = Raise KeyError) as Hkey.
  { intros vals Hf Hk.
    rewrite (parsemat_line_color py_float st line w ws H Hw).
    by rewrite (floats_Ok py_float ws vals Hf), bind_Ok, Hc, bind_Ok, Hk. }
  assert (Exists (fun x => py_float x = None) ws ->
          parsemat_line py_float st line = Raise ValueError) as Hval.
  { intros Hbad. rewrite (parsemat_line_color py_float st line w ws H Hw).
    by rewrite (floats_ValueError py_float ws Hbad). }
  exists c. split; [exact Hc |]. split; [| split; [exact Hval | split; [exact Hcol |]]].
  - intros vals Hf. split.
    + intros l i Hin Hm Hl.
      apply (parsemat_line_store py_float st line w ws vals l c i); try done.
      by apply m_channels.
    + intros Hnot. apply (Hkey vals Hf). by apply m_other.
  - intros Hb. specialize (Hblank Hb). split; [by apply m_other |]. split.
    { by destruct (color_keyword_cases w Hw) as [-> | [-> | [-> | ->]]]. }
    assert (exists e, parsemat_line py_float st line = Raise e /\
                      (forall vals,
                          Forall2 (fun x v => py_float x = Some v) ws vals ->
                          e = KeyError) /\
                      (Exists (fun x => py_float x = None) ws -> e = ValueError))
      as (e & He & Hnum & Hbad).
    { destruct (floats_cases py_float ws) as [[vals Hf] | Hex].
      - exists KeyError. split; [by apply (Hkey vals) |]. split; [done |].
        intros Hex. pose proof (Hval Hex) as Hv.
        rewrite (Hkey vals Hf Hblank) in Hv. discriminate.
      - exists ValueError. split; [by apply Hval |]. split; [| done].
        intros vals Hf. pose proof (Hkey vals Hf Hblank) as Hk.
        rewrite (Hval Hex) in Hk. discriminate. }
    exists e. split_and!; try done.
    intros mats n pre post Hpre. unfold parsemat_lines.
    by rewrite (for_each_raise _ pre post line _ st e Hpre He).
Qed.

(** Until the first [newmtl], the loop of [_parsemat] either has raised or
    still has no material under way. *)
Lemma no_material_before_newmtl (pre : list string) (st : matstate) :
  mat st = None -> Forall (fun l => keyword_of l <> Some "newmtl") pre ->
  (exists e, for_each (parsemat_line py_float) pre st = Raise e)
  \/ (exists st', for_each (parsemat_line py_float) pre st = Ok st' /\ mat st' = None).
Proof.
  revert st. induction pre as [| l pre IH]; intros st Hm Hpre.
  - right. by exists st.
  - apply Forall_cons in Hpre as [Hl Hpre]. cbn [for_each].
    destruct (parsemat_line py_float st l) as [st1 | e] eqn:Hst1.
    + rewrite bind_Ok. apply IH; [| exact Hpre].
      by apply (parsemat_line_keeps_none py_float st st1 l).
    + left. by exists e.
Qed.

(** A record that is neither [newmtl] nor a colour is skipped. *)
Lemma parsemat_line_skip (st : matstate) (line : string) :
  keyword_of line <> Some "newmtl" ->
  (forall w, keyword_of line = Some w -> is_color_keyword w = false) ->
  parsemat_line py_float st line = Ok st.
Proof.
  intros Hn Hc. unfold parsemat_line, keyword_of in *.
  destruct (PyStr.split (PyStr.strip line)) as [| w ws]; [reflexivity |].
  cbn [head] in *. destruct (String.eqb_spec w "newmtl") as [-> | _]; [done |].
  by rewrite (Hc w eq_refl).
Qed.

(** C10.  A library in which a colour record comes before any [newmtl]
    record is not parsed: [_parsemat] raises.  When the records before it
    are all skipped and the record itself is well formed, the exception is
    the [TypeError] of the assignment into [mat], which is still [None]. *)
Theorem color_before_newmtl_fails (mats : gmap string _Material) (n : nat)
    (pre post : list string) (line w : string) :
  Forall (fun l => keyword_of l <> Some "newmtl") pre ->
  keyword_of line = Some w -> is_color_keyword w = true ->
  exists e,
    parsemat_lines py_float mats n (pre ++ line :: post) = Raise e /\
    (Forall (fun l => forall w', keyword_of l = Some w' -> is_color_keyword w' = false) pre ->
     leading_blank line = false ->
     (forall x, x ∈ tail (PyStr.split line) -> is_Some (py_float x)) ->
     e = TypeError).
Proof.
  intros Hpre Hk Hw. apply keyword_of_inv in Hk as [ws Hs].
  unfold parsemat_lines. rewrite for_each_app. cbn [for_each].
  destruct (no_material_before_newmtl pre (Build_matstate mats n None None)
              eq_refl Hpre) as [[e He] | (st' & Hst' & Hm)].
  - exists e. rewrite He. split; [reflexivity |]. intros Hskip _ _. exfalso.
    clear -He Hpre Hskip. revert He.
    generalize (Build_matstate mats n None None).
    induction pre as [| l pre IH]; intros st; [discriminate |].
    apply Forall_cons in Hpre as [Hl Hpre]. apply Forall_cons in Hskip as [Hl' Hskip].
    cbn [for_each]. rewrite (parsemat_line_skip st l Hl Hl'), bind_Ok. by apply IH.
  - rewrite Hst', bind_Ok.
    destruct (parsemat_line_orphan py_float st' line w ws Hs Hw Hm) as [e He].
    exists e. rewrite He. split; [reflexivity |]. intros _ Hb Hf.
    rewrite (parsemat_line_color py_float st' line w ws Hs Hw) in He.
    rewrite Hs in Hf. cbn [tail] in Hf.
    assert (exists vals, Forall2 (fun x v => py_float x = Some v) ws vals) as [vals Hv].
    { clear -Hf. induction ws as [| x ws IH]; [by exists [] |].
      destruct (Hf x) as [v Hx]; [by left |].
      destruct IH as [vals Hvals]; [intros y Hy; apply Hf; by right |].
      exists (v :: vals). by constructor. }
    rewrite (floats_Ok py_float ws vals Hv), bind_Ok in He.
    destruct (second_char_keyword line w ws Hb Hs Hw) as (c & i & Hc & Hi & _).
    rewrite Hc, bind_Ok, Hi, bind_Ok, Hm in He. by injection He as <-.
Qed.

End MaterialClaims.

(** ** The polygon groups *)

Lemma same_key_refl (k : matkey) : same_key k k = true.
Proof. destruct k as [x |]; [apply Nat.eqb_refl | reflexivity]. Qed.

Lemma same_key_sym (k1 k2 : matkey) : same_key k1 k2 = same_key k2 k1.
Proof. destruct k1, k2; cbn; [apply Nat.eqb_sym | done..]. Qed.

Lemma same_key_trans (k1 k2 k3 : matkey) :
  same_key k1 k2 = true -> same_key k2 k3 = true -> same_key k1 k3 = true.
Proof.
  destruct k1, k2, k3; cbn; try done. rewrite !Nat.eqb_eq. congruence.
Qed.

Lemma same_key_other (k1 k2 k3 : matkey) :
  same_key k1 k2 = true -> same_key k3 k2 = false -> same_key k1 k3 = false.
Proof.
  intros H12 H32. destruct (same_key k1 k3) eqn:H13; [| reflexivity].
  rewrite same_key_sym in H13.
  by rewrite (same_key_trans k3 k1 k2 H13 H12) in H32.
Qed.

Lemma lookup_polys_None (d : list (matkey * polygons)) (key : matkey) :
  lookup_polys d key = None <-> Forall (fun k => same_key k key = false) (keys d).
Proof.
  unfold keys. induction d as [| [k b] d IH]; cbn.
  - split; [constructor | done].
  - rewrite Forall_cons. destruct (same_key k key); [| tauto].
    split; [done | by intros [? _]].
Qed.

(** [self.polys[key][i].append(points)] changes the entry of [key], which
    it creates at the end when it is new, and nothing else. *)
Lemma polys_append_spec (d : list (matkey * polygons)) (key : matkey) (i : nat)
    (points : face) (b' : polygons) :
  bucket_append (default ([], [], []) (lookup_polys d key)) i points = Ok b' ->
  exists d',
    polys_append d key i points = Ok d' /\
    lookup_polys d' key = Some b' /\
    (forall k, same_key k key = false -> lookup_polys d' k = lookup_polys d k) /\
    keys d' = match lookup_polys d key with
              | Some _ => keys d
              | None => keys d ++ [key]
              end.
Proof.
  unfold keys. induction d as [| [k b] d IH]; cbn [lookup_polys polys_append].
  - intros Hb. cbn [default from_option id] in Hb. rewrite Hb, bind_Ok. eexists. split; [reflexivity |].
    cbn. rewrite same_key_refl. split; [reflexivity |]. split; [| reflexivity].
    intros k Hk. by rewrite same_key_sym, Hk.
  - destruct (same_key k key) eqn:Hk.
    + intros Hb. cbn [default from_option id] in Hb. rewrite Hb, bind_Ok. eexists. split; [reflexivity |].
      cbn. rewrite Hk. split; [reflexivity |]. split; [| reflexivity].
      intros k' Hk'. by rewrite !(same_key_other k key k' Hk Hk').
    + intros Hb. destruct (IH Hb) as (d' & Hd' & Hl & Ho & Hkeys).
      rewrite Hd', bind_Ok. eexists. split; [reflexivity |].
      cbn. rewrite Hk. split; [exact Hl |]. split.
      * intros k' Hk'. destruct (same_key k k'); [reflexivity | by apply Ho].
      * rewrite Hkeys. by destruct (lookup_polys d key).
Qed.

(** ** The geometry document *)

Lemma face_components_words (line w : string) (comps : list string) :
  PyStr.split line = w :: comps -> comps <> [] ->
  face_components line = Ok comps.
Proof.
  intros H Hne. pose proof (PyStrFacts.split1_split line w comps H) as H1.
  destruct comps as [| c comps]; [done |]. destruct H1 as (rest & H1 & Hrest).
  unfold face_components. by rewrite H1, <- Hrest.
Qed.

(** What [PyList.resolve] answers on a table of [n] entries after the
    placeholder. *)
Lemma resolve_cases {A : Type} (l : list A) (i : Z) :
  PyList.resolve l i
  = if decide (0 <= i < Z.of_nat (length l))%Z then Ok (Z.to_nat i)
    else if decide (- Z.of_nat (length l) <= i < 0)%Z
         then Ok (Z.to_nat (Z.of_nat (length l) + i))
         else Raise IndexError.
Proof.
  unfold PyList.resolve.
  destruct (Z.leb_spec 0 i), (Z.ltb_spec i (Z.of_nat (length l)));
    cbn [andb]; repeat case_decide; try lia; try reflexivity;
    destruct (Z.leb_spec (- Z.of_nat (length l)) i), (Z.ltb_spec i 0);
    cbn [andb]; try lia; reflexivity.
Qed.

(** Filing a face never fails on the index of the bucket. *)
Lemma bucket_append_arity (b : polygons) (points : face) :
  exists b', bucket_append b (arity_index (length points)) points = Ok b'.
Proof.
  destruct b as [[t q] p]. unfold arity_index.
  destruct (length points =? 3)%nat; [by eexists |].
  destruct (length points =? 4)%nat; by eexists.
Qed.

(** The entry that an index past the placeholder names. *)
Lemma deref_entry (l : list vec3) (k : nat) :
  deref (None :: (Some <$> l)) (S k) = l !! k.
Proof.
  unfold deref. change ((None :: (Some <$> l)) !! S k) with ((Some <$> l) !! k).
  rewrite list_lookup_fmap. by destruct (l !! k).
Qed.

Section GeometryFacts.

Variable py_float : string -> option float.
Variable fs : string -> option (list string).


(** What a face record does, once its words are known. *)
Lemma parse_line_face (st : parsestate) (line : string) (comps : list string) :
  PyStr.split line = "f" :: comps -> comps <> [] ->
  parse_line py_float fs st line
  = (points ← map_result (face_point (self st)) comps;
     d ← polys_append (polys (self st)) (currentmat st)
           (arity_index (length points)) points;
     Ok (Build_parsestate
           (Build_ObjModel (vertices (self st)) (normals (self st))
              (mats (self st)) d (allocated (self st)))
           (currentmat st))).
Proof.
  intros H Hne. unfold parse_line.
  rewrite (PyStrFacts.strip_eqb_words _ _ _ H), PyStrFacts.split_strip, H.
  by rewrite (face_components_words line "f" comps H Hne).
Qed.

(** A face whose components resolve is filed under the current material,
    in the bucket its number of points selects. *)
Lemma face_filed (st : parsestate) (line : string) (comps : list string)
    (points : face) :
  PyStr.split line = "f" :: comps -> comps <> [] ->
  map_result (face_point (self st)) comps = Ok points ->
  exists d b',
    parse_line py_float fs st line
    = Ok (Build_parsestate
            (Build_ObjModel (vertices (self st)) (normals (self st))
               (mats (self st)) d (allocated (self st)))
            (currentmat st)) /\
    bucket_append (default ([], [], []) (lookup_polys (polys (self st)) (currentmat st)))
      (arity_index (length points)) points = Ok b' /\
    lookup_polys d (currentmat st) = Some b' /\
    (forall k, same_key k (currentmat st) = false ->
       lookup_polys d k = lookup_polys (polys (self st)) k) /\
    keys d = match lookup_polys (polys (self st)) (currentmat st) with
             | Some _ => keys (polys (self st))
             | None => keys (polys (self st)) ++ [currentmat st]
             end.
Proof.
  intros H Hne Hpts.
  destruct (bucket_append_arity
              (default ([], [], []) (lookup_polys (polys (self st)) (currentmat st)))
              points) as [b' Hb'].
  destruct (polys_append_spec _ _ _ _ _ Hb') as (d & Hd & Hl & Ho & Hk).
  exists d, b'. rewrite (parse_line_face st line comps H Hne), Hpts, bind_Ok, Hd.
  by rewrite bind_Ok.
Qed.

(** C1.  The indices of a face record.  A vertex or normal index greater
    than the number of entries defined so far in its table makes the
    parsing fail: the component raises [IndexError], and so does the
    record when the components before it resolve.  An index from 1 to that
    number names the entry defined under it.  An index of zero is not
    refused: it reads position 0 of the table, the placeholder [None] that
    [self.vertices = [None]] puts there so that the arrays start at 1, and
    the face is filed with a point that holds no array. *)
Theorem face_index_resolution (st : parsestate) (line : string)
    (pre post : list string) (component p t n : string)
    (i j : Z) (vs ns : list vec3) :
  vertices (self st) = None :: (Some <$> vs) ->
  normals (self st) = None :: (Some <$> ns) ->
  PyStr.split line = "f" :: pre ++ component :: post ->
  PyStr.split_on "/" component = [p; t; n] ->
  PyStr.int p = Ok i -> PyStr.int n = Ok j ->
  ((Z.of_nat (length vs) < i)%Z \/ (Z.of_nat (length ns) < j)%Z ->
   face_point (self st) component = Raise IndexError /\
   exists e,
     parse_line py_float fs st line = Raise e /\
     (is_ok (map_result (face_point (self st)) pre) = true -> e = IndexError)) /\
  ((1 <= i <= Z.of_nat (length vs))%Z -> (1 <= j <= Z.of_nat (length ns))%Z ->
   face_point (self st) component = Ok (Z.to_nat i, Z.to_nat j) /\
   deref (vertices (self st)) (Z.to_nat i) = vs !! Z.to_nat (i - 1) /\
   deref (normals (self st)) (Z.to_nat j) = ns !! Z.to_nat (j - 1) /\
   is_Some (vs !! Z.to_nat (i - 1)) /\ is_Some (ns !! Z.to_nat (j - 1))) /\
  (i = 0%Z -> (- Z.of_nat (length ns) - 1 <= j <= Z.of_nat (length ns))%Z ->
   exists k, face_point (self st) component = Ok (0, k)) /\
  (j = 0%Z -> (- Z.of_nat (length vs) - 1 <= i <= Z.of_nat (length vs))%Z ->
   exists k, face_point (self st) component = Ok (k, 0)) /\
  deref (vertices (self st)) 0 = None /\
  deref (normals (self st)) 0 = None /\
  (forall points,
     map_result (face_point (self st)) (pre ++ component :: post) = Ok points ->
     is_ok (parse_line py_float fs st line) = true).
Proof.
  intros Hv Hn H Hc Hp Hj.
  assert (pre ++ component :: post <> []) as Hne by (by destruct pre).
  assert (face_point (self st) component
          = (vertex ← PyList.resolve (vertices (self st)) i;
             normalv ← PyList.resolve (normals (self st)) j;
             Ok (vertex, normalv))) as Hfp.
  { unfold face_point. by rewrite Hc, Hp, bind_Ok, Hj. }
  rewrite !resolve_cases, Hv, Hn in Hfp. cbn [length] in Hfp.
  rewrite !length_fmap in Hfp.
  split_and!.
  - intros Hout.
    assert (face_point (self st) component = Raise IndexError) as He.
    { rewrite Hfp. destruct Hout as [Hi | Hj']; by repeat case_decide; try lia. }
    split; [exact He |].
    destruct (map_result_fails (face_point (self st)) pre post component
                IndexError He) as (e & Hm & Hfirst).
    exists e. split; [| exact Hfirst].
    by rewrite (parse_line_face st line _ H Hne), Hm.
  - intros Hi Hj'. rewrite Hv, Hn. split_and!.
    + rewrite Hfp. by repeat case_decide; try lia.
    + replace (Z.to_nat i) with (S (Z.to_nat (i - 1))) by lia. apply deref_entry.
    + replace (Z.to_nat j) with (S (Z.to_nat (j - 1))) by lia. apply deref_entry.
    + apply lookup_lt_is_Some. lia.
    + apply lookup_lt_is_Some. lia.
  - intros -> Hj'. rewrite Hfp.
    repeat case_decide; try lia; by eexists.
  - intros -> Hi. rewrite Hfp.
    repeat case_decide; try lia; by eexists.
  - by rewrite Hv.
  - by rewrite Hn.
  - intros points Hpts.
    destruct (face_filed st line _ points H Hne Hpts) as (d & b' & Hst & _).
    by rewrite Hst.
Qed.

(** C2, as amended.  A face whose components resolve has one point for
    each component and is filed under the current material: in the
    triangle bucket when it has 3 points, in the quad bucket when it has
    4, and in the bucket of the general polygons when it has 5 or more.  A
    face of 1 or 2 points does not fail: it is filed in the bucket of the
    general polygons too.  A face record without any component fails,
    with [IndexError]. *)
Theorem face_arity_classification (st : parsestate) (line : string)
    (comps : list string) :
  PyStr.split line = "f" :: comps ->
  (comps = [] -> parse_line py_float fs st line = Raise IndexError) /\
  (forall (points : face) (t q g : list face),
     comps <> [] ->
     map_result (face_point (self st)) comps = Ok points ->
     default ([], [], []) (lookup_polys (polys (self st)) (currentmat st)) = (t, q, g) ->
     length points = length comps /\
     exists st',
       parse_line py_float fs st line = Ok st' /\
       currentmat st' = currentmat st /\
       (length points = 3 ->
        lookup_polys (polys (self st')) (currentmat st) = Some (t ++ [points], q, g)) /\
       (length points = 4 ->
        lookup_polys (polys (self st')) (currentmat st) = Some (t, q ++ [points], g)) /\
       (5 <= length points ->
        lookup_polys (polys (self st')) (currentmat st) = Some (t, q, g ++ [points])) /\
       (1 <= length points <= 2 ->
        lookup_polys (polys (self st')) (currentmat st) = Some (t, q, g ++ [points]))).
Proof.
  intros H. split.
  - intros ->. unfold parse_line.
    rewrite (PyStrFacts.strip_eqb_words _ _ _ H), PyStrFacts.split_strip, H.
    cbn [String.eqb Ascii.eqb Bool.eqb].
    pose proof (PyStrFacts.split1_split line "f" [] H) as H1. cbn in H1.
    unfold face_components. by rewrite H1.
  - intros points t q g Hne Hpts Hb.
    split; [exact (map_result_length _ _ _ Hpts) |].
    destruct (face_filed st line comps points H Hne Hpts)
      as (d & b' & Hst & Hb' & Hl & _).
    eexists. split; [exact Hst |]. split; [reflexivity |]. cbn [self polys].
    rewrite Hl. rewrite Hb in Hb'. unfold arity_index in Hb'. cbn in Hb'.
    destruct (Nat.eqb_spec (length points) 3) as [H3 | H3].
    { injection Hb' as <-. repeat split; intros; first [done | lia]. }
    destruct (Nat.eqb_spec (length points) 4) as [H4 | H4].
    { injection Hb' as <-. repeat split; intros; first [done | lia]. }
    injection Hb' as <-. repeat split; intros; first [done | lia].
Qed.


End GeometryFacts.

(** ** What every parsed model satisfies *)

Lemma table_ok_app (t : list (option vec3)) (v : vec3) :
  table_ok t -> table_ok (t ++ [Some v]).
Proof. intros [vs ->]. exists (vs ++ [v]). by rewrite fmap_app. Qed.

Lemma distinct_keys_app (ks : list matkey) (key : matkey) :
  distinct_keys ks -> Forall (fun k => same_key k key = false) ks ->
  distinct_keys (ks ++ [key]).
Proof.
  induction ks as [| k ks IH]; cbn [distinct_keys app]; [by split |].
  intros [Hk Hks] Hkey. apply Forall_cons in Hkey as [Hkk Hkey].
  split; [| by apply IH]. apply Forall_app. split; [exact Hk |].
  by repeat constructor.
Qed.

Lemma bucket_append_ok (b b' : polygons) (points : face) :
  buckets_ok b ->
  bucket_append b (arity_index (length points)) points = Ok b' -> buckets_ok b'.
Proof.
  destruct b as [[t q] g]. unfold buckets_ok, arity_index. cbn. intros [Ht Hq].
  destruct (Nat.eqb_spec (length points) 3) as [H3 | H3].
  { intros [= <-]. cbn. split; [| done]. apply Forall_app. by repeat constructor. }
  destruct (Nat.eqb_spec (length points) 4) as [H4 | H4].
  { intros [= <-]. cbn. split; [done |]. apply Forall_app. by repeat constructor. }
  by intros [= <-].
Qed.

Lemma polys_append_ok (d d' : list (matkey * polygons)) (key : matkey)
    (points : face) :
  Forall buckets_ok d.*2 ->
  polys_append d key (arity_index (length points)) points = Ok d' ->
  Forall buckets_ok d'.*2.
Proof.
  revert d'. induction d as [| [k b] d IH]; intros d' Hd; cbn [polys_append].
  - intros H. apply bind_inv in H as (b' & Hb' & [= <-]). cbn.
    repeat constructor; eapply bucket_append_ok; try exact Hb'; by split.
  - cbn in Hd. apply Forall_cons in Hd as [Hb Hd]. destruct (same_key k key).
    + intros H. apply bind_inv in H as (b' & Hb' & [= <-]). cbn.
      constructor; [by eapply bucket_append_ok | exact Hd].
    + intros H. apply bind_inv in H as (d'' & Hd'' & [= <-]). cbn.
      constructor; [exact Hb | by apply IH].
Qed.

Lemma polys_append_distinct (d d' : list (matkey * polygons)) (key : matkey)
    (points : face) :
  distinct_keys (keys d) ->
  polys_append d key (arity_index (length points)) points = Ok d' ->
  distinct_keys (keys d').
Proof.
  intros Hd H.
  destruct (bucket_append_arity (default ([], [], []) (lookup_polys d key)) points)
    as [b' Hb'].
  destruct (polys_append_spec d key _ points b' Hb') as (d'' & Hd'' & _ & _ & Hk).
  assert (d' = d'') as -> by congruence. rewrite Hk.
  destruct (lookup_polys d key) eqn:Hl; [exact Hd |].
  apply distinct_keys_app; [exact Hd | by apply lookup_polys_None].
Qed.

Section ParsedModels.

Variable py_float : string -> option float.
Variable fs : string -> option (list string).

Lemma parse_mtllib_frame (o o' : ObjModel) (filenames : list string) :
  parse_mtllib py_float fs o filenames = Ok o' ->
  vertices o' = vertices o /\ normals o' = normals o /\ polys o' = polys o.
Proof.
  unfold parse_mtllib. intros H. apply bind_inv in H as (r & _ & [= <-]). done.
Qed.

Lemma parse_line_model_ok (st st' : parsestate) (line : string) :
  model_ok (self st) -> parse_line py_float fs st line = Ok st' ->
  model_ok (self st').
Proof.
  intros (Hv & Hn & Hk & Hb). unfold parse_line.
  destruct (String.eqb (PyStr.strip line) ""); [by intros [= <-] |].
  destruct (PyStr.split (PyStr.strip line)) as [| keyword filenames];
    [discriminate |].
  destruct (String.eqb keyword "v").
  { intros H. apply bind_inv in H as (v & _ & [= <-]).
    split; [by apply table_ok_app | done]. }
  destruct (String.eqb keyword "vn").
  { intros H. apply bind_inv in H as (v & _ & [= <-]).
    split; [done |]. split; [by apply table_ok_app | done]. }
  destruct (String.eqb keyword "mtllib").
  { intros H. apply bind_inv in H as (o' & Ho' & [= <-]).
    destruct (parse_mtllib_frame _ _ _ Ho') as (Hv' & Hn' & Hp').
    unfold model_ok. cbn [self]. by rewrite Hv', Hn', Hp'. }
  destruct (String.eqb keyword "usemtl").
  { intros H. apply bind_inv in H as (name & _ & H).
    apply bind_inv in H as (x & _ & [= <-]). done. }
  destruct (String.eqb keyword "f"); [| by intros [= <-]].
  intros H. apply bind_inv in H as (components & _ & H).
  apply bind_inv in H as (points & _ & H).
  apply bind_inv in H as (d & Hd & [= <-]).
  split; [done |]. split; [done |]. cbn [self polys]. split.
  - by eapply polys_append_distinct.
  - by eapply polys_append_ok.
Qed.

Lemma parse_lines_model_ok (lines : list string) (o : ObjModel) :
  parse_lines py_float fs lines = Ok o -> model_ok o.
Proof.
  unfold parse_lines. intros H. apply bind_inv in H as (st & Hst & [= <-]).
  apply (for_each_invariant (fun st => model_ok (self st))
           (parse_line py_float fs) lines parse_start st);
    [intros s x s'; apply parse_line_model_ok | | exact Hst].
  repeat split; try (by exists []); constructor.
Qed.

End ParsedModels.

(** ** The display list *)

Lemma andthen_calls (r1 r2 : run) :
  raised r1 = None -> andthen r1 r2 = Build_run (calls r1 ++ calls r2) (raised r2).
Proof. intros H. unfold andthen. by rewrite H. Qed.

Lemma andthen_Forall (P : glcall -> Prop) (r1 r2 : run) :
  Forall P (calls r1) -> Forall P (calls r2) -> Forall P (calls (andthen r1 r2)).
Proof.
  intros H1 H2. unfold andthen. destruct (raised r1); [exact H1 |].
  cbn. by apply Forall_app.
Qed.

Lemma for_run_Forall {A : Type} (P : glcall -> Prop) (body : A -> run) (xs : list A) :
  (forall x, Forall P (calls (body x))) -> Forall P (calls (for_run body xs)).
Proof.
  intros H. induction xs as [| x xs IH]; [constructor |].
  cbn [for_run]. by apply andthen_Forall.
Qed.

Lemma material_calls_app (cs1 cs2 : list glcall) :
  material_calls (cs1 ++ cs2) = material_calls cs1 ++ material_calls cs2.
Proof. apply List.filter_app. Qed.

Lemma andthen_quiet (r1 r2 : run) : quiet r1 -> quiet r2 -> quiet (andthen r1 r2).
Proof.
  intros [H1 M1] [H2 M2]. rewrite (andthen_calls r1 r2 H1). split; [exact H2 |].
  cbn. by rewrite material_calls_app, M1, M2.
Qed.

Lemma for_run_quiet {A : Type} (body : A -> run) (xs : list A) :
  Forall (fun x => quiet (body x)) xs -> quiet (for_run body xs).
Proof.
  induction 1 as [| x xs Hx _ IH]; [by split |].
  cbn [for_run]. by apply andthen_quiet.
Qed.

Section RenderFacts.

Variable iteritems : list (matkey * polygons) -> list (matkey * polygons).
Variable o : ObjModel.

Lemma normal_vertex_quiet (p : point) : quiet (emit (normal_vertex o p)).
Proof. by destruct p. Qed.

Lemma render_triangle_quiet (f : face) : length f = 3 -> quiet (render_triangle o f).
Proof.
  destruct f as [| [] [| [] [| [] [| ]]]]; try discriminate. intros _. by split.
Qed.

Lemma render_quad_quiet (f : face) : length f = 4 -> quiet (render_quad o f).
Proof.
  destruct f as [| [] [| [] [| [] [| [] [| ]]]]]; try discriminate.
  intros _. by split.
Qed.

Lemma render_polygon_quiet (p : face) : quiet (render_polygon o p).
Proof.
  unfold render_polygon. apply andthen_quiet; [by split |].
  apply andthen_quiet; [| by split]. apply for_run_quiet.
  apply Forall_forall. intros x _. apply normal_vertex_quiet.
Qed.

(** An entry whose buckets are as [render] expects is rendered without an
    exception, and the materials it sets are those of its key. *)
Lemma render_entry_materials (entry : matkey * polygons) :
  buckets_ok entry.2 ->
  raised (render_entry o entry) = None /\
  material_calls (calls (render_entry o entry)) = activation entry.1.
Proof.
  destruct entry as [texture [[triangles quads] polys]]. intros [Ht Hq].
  cbn [fst snd] in *.
  assert (quiet (match triangles with
                 | [] => emit []
                 | _ => andthen (emit [glBegin GL_TRIANGLES])
                          (andthen (for_run (render_triangle o) triangles)
                             (emit [glEnd]))
                 end)) as Q1.
  { destruct triangles as [| f l]; [by split |].
    apply andthen_quiet; [by split |]. apply andthen_quiet; [| by split].
    apply for_run_quiet. eapply Forall_impl; [exact Ht |].
    intros x. apply render_triangle_quiet. }
  assert (quiet (match quads with
                 | [] => emit []
                 | _ => andthen (emit [glBegin GL_QUADS])
                          (andthen (for_run (render_quad o) quads) (emit [glEnd]))
                 end)) as Q2.
  { destruct quads as [| f l]; [by split |].
    apply andthen_quiet; [by split |]. apply andthen_quiet; [| by split].
    apply for_run_quiet. eapply Forall_impl; [exact Hq |].
    intros x. apply render_quad_quiet. }
  assert (quiet (for_run (render_polygon o) polys)) as Q3.
  { apply for_run_quiet. apply Forall_forall. intros x _.
    apply render_polygon_quiet. }
  pose proof (andthen_quiet _ _ Q1 (andthen_quiet _ _ Q2 Q3)) as [HR HM].
  unfold render_entry. rewrite andthen_calls; [| by destruct texture].
  cbn [raised calls]. split; [exact HR |].
  rewrite material_calls_app, HM, app_nil_r. by destruct texture.
Qed.

Lemma for_run_entries (entries : list (matkey * polygons)) :
  Forall buckets_ok entries.*2 ->
  raised (for_run (render_entry o) entries) = None /\
  material_calls (calls (for_run (render_entry o) entries))
  = flat_map activation entries.*1.
Proof.
  induction entries as [| entry entries IH]; [by split |].
  cbn [fmap list_fmap]. intros H. apply Forall_cons in H as [He H].
  destruct (render_entry_materials entry He) as [HR HM].
  destruct (IH H) as [HR' HM']. cbn [for_run flat_map].
  rewrite (andthen_calls _ _ HR). cbn [raised calls]. split; [exact HR' |].
  by rewrite material_calls_app, HM, HM'.
Qed.

(** Whatever the model, a run of [render] sets no other material
    component than ambient and diffuse. *)
Lemma render_ambient_or_diffuse :
  Forall ambient_or_diffuse (calls (render iteritems o)).
Proof.
  unfold render. apply for_run_Forall. intros [texture [[triangles quads] polys]].
  unfold render_entry.
  assert (forall p, Forall ambient_or_diffuse (normal_vertex o p)) as Hnv.
  { intros [pt n]. by repeat constructor. }
  apply andthen_Forall.
  { destruct texture as [x |]; [| constructor]. cbn.
    apply Forall_cons; split; [cbn; tauto |].
    apply Forall_cons; split; [cbn; tauto | constructor]. }
  apply andthen_Forall.
  { destruct triangles as [| f l]; [constructor |].
    apply andthen_Forall; [by repeat constructor |].
    apply andthen_Forall; [| by repeat constructor].
    apply for_run_Forall. intros x. unfold render_triangle.
    destruct x as [| p1 [| p2 [| p3 [| ]]]]; try constructor.
    cbn [emit calls]. rewrite !Forall_app. repeat split; apply Hnv. }
  apply andthen_Forall.
  { destruct quads as [| f l]; [constructor |].
    apply andthen_Forall; [by repeat constructor |].
    apply andthen_Forall; [| by repeat constructor].
    apply for_run_Forall. intros x. unfold render_quad.
    destruct x as [| p1 [| p2 [| p3 [| p4 [| ]]]]]; try constructor.
    cbn [emit calls]. rewrite !Forall_app. repeat split; apply Hnv. }
  apply for_run_Forall. intros p. unfold render_polygon.
  apply andthen_Forall; [by repeat constructor |].
  apply andthen_Forall; [| by repeat constructor].
  apply for_run_Forall. intros x. apply Hnv.
Qed.

End RenderFacts.

Lemma lookup_polys_existsb (d : list (matkey * polygons)) (key : matkey) :
  existsb (fun k => same_key k key) (keys d)
  = match lookup_polys d key with Some _ => true | None => false end.
Proof.
  unfold keys. induction d as [| [k b] d IH]; [reflexivity |].
  cbn. by destruct (same_key k key).
Qed.

Section InsertionFacts.

Variable py_float : string -> option float.
Variable fs : string -> option (list string).

(** Only a face changes the keys of [self.polys]: it adds the current
    material when it is not a key yet. *)
Lemma parse_line_keys (st st' : parsestate) (line : string) :
  parse_line py_float fs st line = Ok st' ->
  keys (polys (self st'))
  = if is_face line then add_key (keys (polys (self st))) (currentmat st)
    else keys (polys (self st)).
Proof.
  unfold parse_line, is_face, keyword_of.
  destruct (String.eqb_spec (PyStr.strip line) "") as [-> | _].
  { by intros [= <-]. }
  destruct (PyStr.split (PyStr.strip line)) as [| keyword filenames];
    [discriminate |]. cbn [head].
  destruct (String.eqb_spec keyword "v") as [-> | _].
  { intros H. by apply bind_inv in H as (v & _ & [= <-]). }
  destruct (String.eqb_spec keyword "vn") as [-> | _].
  { intros H. by apply bind_inv in H as (v & _ & [= <-]). }
  destruct (String.eqb_spec keyword "mtllib") as [-> | _].
  { intros H. apply bind_inv in H as (o' & Ho' & [= <-]).
    destruct (parse_mtllib_frame _ _ _ _ _ Ho') as (_ & _ & Hp').
    cbn [self String.eqb Ascii.eqb Bool.eqb]. by rewrite Hp'. }
  destruct (String.eqb_spec keyword "usemtl") as [-> | _].
  { intros H. apply bind_inv in H as (name & _ & H).
    by apply bind_inv in H as (x & _ & [= <-]). }
  destruct (String.eqb_spec keyword "f") as [-> | _]; [| by intros [= <-]].
  intros H. apply bind_inv in H as (components & _ & H).
  apply bind_inv in H as (points & _ & H).
  apply bind_inv in H as (d & Hd & [= <-]). cbn [self polys].
  destruct (bucket_append_arity
              (default ([], [], []) (lookup_polys (polys (self st)) (currentmat st)))
              points) as [b' Hb'].
  destruct (polys_append_spec _ _ _ _ _ Hb') as (d' & Hd' & _ & _ & Hk).
  assert (d = d') as -> by congruence. rewrite Hk.
  unfold add_key. rewrite lookup_polys_existsb.
  by destruct (lookup_polys (polys (self st)) (currentmat st)).
Qed.

End InsertionFacts.

Section CompiledModels.

Variable py_float : string -> option float.
Variable fs : string -> option (list string).
Variable iteritems : list (matkey * polygons) -> list (matkey * polygons).

(** The calls of [_create_displaylist] when the backend gives a list and
    [render] does not raise. *)
Lemma create_displaylist_calls (o : ObjModel) (renderlist : Z) :
  renderlist <> 0%Z -> raised (render iteritems o) = None ->
  _create_displaylist iteritems o renderlist
  = Build_run ([glGenLists 1; glNewList renderlist GL_COMPILE]
                 ++ calls (render iteritems o) ++ [glEndList]) None.
Proof.
  intros Hr Hn. unfold _create_displaylist.
  apply Z.eqb_neq in Hr. rewrite Hr.
  rewrite (andthen_calls (render iteritems o) _ Hn).
  reflexivity.
Qed.

(** C8.  Compiling a parsed model: for each key of [self.polys] that is a
    material, the backend is told its ambient and its diffuse colour, for
    the front faces, and these are all the calls to [glMaterialfv]; no call
    sets the specular or the emission component. *)
Theorem only_ambient_and_diffuse (lines : list string) (o : ObjModel)
    (renderlist : Z) :
  (forall d, iteritems d ≡ₚ d) ->
  parse_lines py_float fs lines = Ok o ->
  renderlist <> 0%Z ->
  raised (_create_displaylist iteritems o renderlist) = None /\
  material_calls (calls (_create_displaylist iteritems o renderlist))
  = flat_map activation (visit_order iteritems o) /\
  (forall t, Some t ∈ keys (polys o) ->
     glMaterialfv GL_FRONT GL_AMBIENT (ambient t)
       ∈ calls (_create_displaylist iteritems o renderlist) /\
     glMaterialfv GL_FRONT GL_DIFFUSE (diffuse t)
       ∈ calls (_create_displaylist iteritems o renderlist)) /\
  (forall f p x,
     glMaterialfv f p x ∈ calls (_create_displaylist iteritems o renderlist) ->
     f = GL_FRONT /\ (p = GL_AMBIENT \/ p = GL_DIFFUSE)).
Proof.
  intros Hperm Ho Hr.
  destruct (parse_lines_model_ok py_float fs lines o Ho) as (_ & _ & _ & Hb).
  assert (Forall buckets_ok (iteritems (polys o)).*2) as Hb'.
  { by rewrite (Hperm (polys o)). }
  destruct (for_run_entries o _ Hb') as [HR HM].
  fold (render iteritems o) in HR, HM. fold (visit_order iteritems o) in HM.
  rewrite (create_displaylist_calls o renderlist Hr HR). cbn [raised calls].
  assert (material_calls
            ([glGenLists 1; glNewList renderlist GL_COMPILE]
               ++ calls (render iteritems o) ++ [glEndList])
          = flat_map activation (visit_order iteritems o)) as HM'.
  { rewrite !material_calls_app, HM. cbn. by rewrite app_nil_r. }
  split; [reflexivity |]. split; [exact HM' |]. split.
  - intros t Ht.
    assert (Some t ∈ visit_order iteritems o) as Hv.
    { unfold visit_order, keys in *. by rewrite (Hperm (polys o)). }
    assert (forall c, In c (activation (Some t)) ->
              c ∈ [glGenLists 1; glNewList renderlist GL_COMPILE]
                    ++ calls (render iteritems o) ++ [glEndList]) as Hin.
    { intros c Hc. apply list_elem_of_In.
      apply (proj1 (List.filter_In is_glMaterialfv c _)).
      fold (material_calls
              ([glGenLists 1; glNewList renderlist GL_COMPILE]
                 ++ calls (render iteritems o) ++ [glEndList])).
      rewrite HM'. apply in_flat_map. exists (Some t).
      split; [by apply list_elem_of_In | exact Hc]. }
    split; apply Hin; cbn; tauto.
  - intros f p x Hx.
    assert (Forall ambient_or_diffuse
              ([glGenLists 1; glNewList renderlist GL_COMPILE]
                 ++ calls (render iteritems o) ++ [glEndList])) as Hall.
    { apply Forall_app. split; [by repeat constructor |].
      apply Forall_app. split; [apply render_ambient_or_diffuse |].
      by repeat constructor. }
    rewrite Forall_forall in Hall. exact (Hall _ Hx).
Qed.

End CompiledModels.

(** ** Multiplying a [float64] by 1.0 *)

Module Float64.

Local Open Scope Z_scope.

Lemma digits2_pos_shift52 (m : positive) :
  Zpos (digits2_pos (Pos.iter xO m 52)) = Zpos (digits2_pos m) + 52.
Proof. cbn [Pos.iter digits2_pos]. lia. Qed.

Lemma shr_shift52 (m : positive) (e : Z) :
  shr (Build_shr_record (Zpos (Pos.iter xO m 52)) false false) e 52
  = (Build_shr_record (Zpos m) false false, e + 52).
Proof. reflexivity. Qed.

(** The product of a binary64 number by 2^52 * 2^-52 is rounded to the
    number itself. *)
Lemma SFmul_one_r (x : spec_float) :
  valid_binary x = true ->
  SF64mul x (S754_finite false 4503599627370496 (-52)) = x.
Proof.
  destruct x as [s | s | | s m e]; intros Hv; cbn [SF64mul SFmul];
    rewrite ?xorb_false_r; try reflexivity.
  cbn [SpecFloat.valid_binary] in Hv. unfold bounded, canonical_mantissa in Hv.
  apply andb_prop in Hv as [Hc Hb]. apply Z.eqb_eq in Hc.
  replace (m * 4503599627370496)%positive with (Pos.iter xO m 52)
    by (rewrite Pos.mul_comm; reflexivity).
  unfold binary_round_aux, shr_fexp.
  cbn [Zdigits2]. rewrite digits2_pos_shift52.
  replace (Zpos (digits2_pos m) + 52 + (e + -52)) with (Zpos (digits2_pos m) + e)
    by lia.
  rewrite Hc.
  replace (e - (e + -52)) with 52 by lia.
  cbn [shr_record_of_loc]. rewrite shr_shift52.
  cbn [shr_m loc_of_shr_record round_nearest_even Zdigits2].
  replace (e + -52 + 52) with e by lia.
  rewrite Hc, Z.sub_diag. cbn [shr shr_m]. rewrite Hb. reflexivity.
Qed.

Lemma mul_1_r (x : float) : (x * 1)%float = x.
Proof.
  apply Prim2SF_inj. rewrite mul_spec.
  change (Prim2SF 1) with (S754_finite false 4503599627370496 (-52)).
  apply SFmul_one_r, Prim2SF_valid.
Qed.

(** Two floats that [==] tells apart are different. *)
Lemma neq_of_eqb (x y : float) :
  PrimFloat.eqb x x = true -> PrimFloat.eqb x y = false -> x <> y.
Proof. intros Hx Hxy <-. congruence. Qed.

End Float64.

Lemma scale_one (v : vec3) : scale v 1 = v.
Proof. destruct v as [[x y] z]. cbn. by rewrite !Float64.mul_1_r. Qed.

(** ** The randomized asteroid *)

Section Perturbation.

Variable py_float : string -> option float.
Variable fs : string -> option (list string).
Variable Rng : Type.
Variable uniform : Rng -> float * Rng.

(** The loop scales the arrays one after the other, each by the next
    answer of the generator. *)
Lemma perturb_arrays (vs : list vec3) (g : Rng) :
  perturb Rng uniform (Some <$> vs) g
  = Ok (Some <$> zip_with scale vs (draws uniform g (length vs)),
        after_draws uniform g (length vs)).
Proof.
  revert g. induction vs as [| v vs IH]; intros g; [reflexivity |].
  cbn [fmap list_fmap perturb length draws after_draws zip_with].
  destruct (uniform g) as [k g'] eqn:Hg. cbn [imul fst snd].
  by rewrite bind_Ok, IH, bind_Ok.
Qed.

Lemma perturb_model_arrays (o : ObjModel) (vs : list vec3) (g : Rng) :
  vertices o = None :: (Some <$> vs) ->
  perturb_model Rng uniform o g
  = Ok (Build_ObjModel
          (None :: (Some <$> zip_with scale vs (draws uniform g (length vs))))
          (normals o) (mats o) (polys o) (allocated o),
        after_draws uniform g (length vs)).
Proof.
  intros Hv. unfold perturb_model. rewrite Hv.
  change (drop 1 (None :: (Some <$> vs))) with (Some <$> vs).
  by rewrite perturb_arrays, bind_Ok.
Qed.

Lemma draws_constant (k : float) (g : Rng) (n : nat) :
  (forall g, (uniform g).1 = k) -> draws uniform g n = replicate n k.
Proof.
  intros Hk. revert g. induction n as [| n IH]; intros g; [reflexivity |].
  cbn [draws replicate]. by rewrite Hk, IH.
Qed.

Lemma zip_scale_ones (vs : list vec3) :
  zip_with scale vs (replicate (length vs) 1%float) = vs.
Proof.
  induction vs as [| v vs IH]; [reflexivity |].
  cbn [length replicate zip_with]. by rewrite scale_one, IH.
Qed.

(** [AsteroidModel.__init__] is the loop on the model parsed from
    [asteroid.obj]. *)
Lemma AsteroidModel_init_parsed (lines : list string) (o : ObjModel) (g : Rng) :
  fs "asteroid.obj" = Some lines -> parse_lines py_float fs lines = Ok o ->
  AsteroidModel_init py_float fs Rng uniform g = perturb_model Rng uniform o g.
Proof.
  intros Hf Ho. unfold AsteroidModel_init, _parse_model, open.
  rewrite Hf. cbn [of_option]. by rewrite bind_Ok, Ho, bind_Ok.
Qed.

(** C6, as amended.  The perturbation works in place: after it, the
    vertex table of the model holds, after the placeholder, each array of
    the parsed table scaled by the answer of the generator drawn for it,
    one answer per array and in the order of the table; the table of the
    normals, the materials and the polygons, which refer to the entries of
    the tables, are as the parser left them.  This is the model that
    [AsteroidModel.__init__] leaves, from the document it parses anew. *)
Theorem perturbation_in_place (lines : list string) (o : ObjModel) (g : Rng) :
  parse_lines py_float fs lines = Ok o ->
  exists vs : list vec3,
    vertices o = None :: (Some <$> vs) /\
    perturb_model Rng uniform o g
    = Ok (Build_ObjModel
            (None :: (Some <$> zip_with scale vs (draws uniform g (length vs))))
            (normals o) (mats o) (polys o) (allocated o),
          after_draws uniform g (length vs)) /\
    (fs "asteroid.obj" = Some lines ->
     AsteroidModel_init py_float fs Rng uniform g
     = Ok (Build_ObjModel
             (None :: (Some <$> zip_with scale vs (draws uniform g (length vs))))
             (normals o) (mats o) (polys o) (allocated o),
           after_draws uniform g (length vs))).
Proof.
  intros Ho.
  destruct (parse_lines_model_ok py_float fs lines o Ho) as ([vs Hv] & _).
  exists vs. split; [exact Hv |].
  pose proof (perturb_model_arrays o vs g Hv) as Hp. split; [exact Hp |].
  intros Hf. by rewrite (AsteroidModel_init_parsed lines o g Hf Ho).
Qed.

(** C7.  With a generator that always answers 1.0, the perturbation
    leaves a parsed model as it is: the positions of its vertices are those
    the parser read.  So is the model of [AsteroidModel.__init__] the one
    parsed from [asteroid.obj]. *)
Theorem perturbation_by_one (lines : list string) (o : ObjModel) (g : Rng) :
  (forall g, (uniform g).1 = 1%float) ->
  parse_lines py_float fs lines = Ok o ->
  exists g',
    perturb_model Rng uniform o g = Ok (o, g') /\
    (fs "asteroid.obj" = Some lines ->
     AsteroidModel_init py_float fs Rng uniform g = Ok (o, g')).
Proof.
  intros H1 Ho.
  destruct (parse_lines_model_ok py_float fs lines o Ho) as ([vs Hv] & _).
  assert (perturb_model Rng uniform o g
          = Ok (o, after_draws uniform g (length vs))) as Hp.
  { rewrite (perturb_model_arrays o vs g Hv), (draws_constant 1%float g _ H1).
    rewrite zip_scale_ones, <- Hv. by destruct o. }
  eexists. split; [exact Hp |].
  intros Hf. by rewrite (AsteroidModel_init_parsed lines o g Hf Ho).
Qed.

End Perturbation.

(** * The properties on the scene *)

(** ** The geometry document *)

(** The second component of [f 1//1 2//1] names a second vertex where one
    is defined; the component [0/0/0] is read as a point at position 0 of
    both tables. *)
Lemma face_index_resolution_witness :
  parse_line decimal_float scene one_vertex "f 1//1 2//1" = Raise IndexError /\
  (exists k, face_point (self one_vertex) "0/0/0" = Ok (0, k)).
Proof.
  split.
  - destruct (face_index_resolution decimal_float scene one_vertex "f 1//1 2//1"
                ["1//1"] [] "2//1" "2" "" "1" 2 1
                [(0, 0, 0)%float] [(0, 0, 1)%float]
                eq_refl eq_refl eq_refl eq_refl eq_refl eq_refl)
      as (H & _).
    destruct H as (_ & e & He & Hfirst); [left; cbn; lia |].
    rewrite He. f_equal. apply Hfirst. reflexivity.
  - destruct (face_index_resolution decimal_float scene one_vertex "f 0/0/0 1//1 1//1"
                [] ["1//1"; "1//1"] "0/0/0" "0" "0" "0" 0 0
                [(0, 0, 0)%float] [(0, 0, 1)%float]
                eq_refl eq_refl eq_refl eq_refl eq_refl eq_refl)
      as (_ & _ & H & _).
    apply H; [reflexivity | cbn; lia].
Defined.

(** A face with index 0 for its vertex, and for its normal, is parsed: its
    points refer to position 0 of the tables, where the placeholder is. *)
Lemma zero_index_accepted :
  polys <$> parse_lines decimal_float scene
              ["v 0 0 0" +:+ nl; "vn 0 0 1" +:+ nl; "f 0/0/0 1//1 0//1" +:+ nl]
  = Ok [(None, ([[(0, 0); (1, 1); (0, 1)]], [], []))]
  /\ deref (vertices (self one_vertex)) 0 = None
  /\ deref (normals (self one_vertex)) 0 = None.
Proof. repeat split; vm_compute; reflexivity. Qed.

(** A face of two points lands in the bucket of the general polygons; a
    face record without a component raises. *)
Lemma face_arity_classification_witness :
  (exists st',
     parse_line decimal_float scene one_vertex "f 1//1 1//1" = Ok st' /\
     lookup_polys (polys (self st')) None = Some ([], [], [[(1, 1); (1, 1)]])) /\
  parse_line decimal_float scene one_vertex "f" = Raise IndexError.
Proof.
  split.
  - destruct (face_arity_classification decimal_float scene one_vertex "f 1//1 1//1"
                ["1//1"; "1//1"] eq_refl) as [_ H].
    destruct (H [(1, 1); (1, 1)] [] [] [] ltac:(discriminate) eq_refl eq_refl)
      as (_ & st' & Hst & _ & _ & _ & _ & Hg).
    exists st'. split; [exact Hst |]. apply Hg; cbn; lia.
  - exact (proj1 (face_arity_classification decimal_float scene one_vertex "f" []
                    eq_refl) eq_refl).
Defined.

(** A document whose only face has two points is parsed. *)
Lemma two_point_face_accepted :
  polys <$> parse_lines decimal_float scene
              ["v 0 0 0" +:+ nl; "vn 0 0 1" +:+ nl; "f 1//1 1//1" +:+ nl]
  = Ok [(None, ([], [], [[(1, 1); (1, 1)]]))].
Proof. vm_compute. reflexivity. Qed.


(** ** The material library *)

Lemma color_record_expansion_witness :
  exists i stored,
    keyword_channel "Kd" = Some i /\
    parsemat_line decimal_float red_started "Kd 0.25 0.5 0.75"
    = Ok (Build_matstate ∅ 0 (Some "red")
            (Some (<[i:=stored]> (replicate 4 [PyInt 0; PyInt 0; PyInt 0; PyInt 0])))) /\
    stored = [PyFloat 0.25; PyFloat 0.5; PyFloat 0.75; PyFloat 0].
Proof.
  destruct (color_record_expansion decimal_float red_started "Kd 0.25 0.5 0.75"
              "Kd" ["0.25"; "0.5"; "0.75"] [0.25; 0.5; 0.75]%float
              (replicate 4 [PyInt 0; PyInt 0; PyInt 0; PyInt 0])
              eq_refl eq_refl eq_refl
              ltac:(repeat constructor) eq_refl eq_refl)
    as ((i & stored & Hk & Hp & _ & H3 & _) & _).
  exists i, stored. split; [exact Hk |]. split; [exact Hp |].
  exact (H3 _ _ _ eq_refl).
Defined.

(** A record of two values is stored as it is; the library is parsed when
    a later record of the same channel replaces it. *)
Lemma two_value_color_accepted :
  parsemat_line decimal_float red_started "Ka 1 2"
  = Ok (Build_matstate ∅ 0 (Some "red")
          (Some [[PyFloat 1; PyFloat 2];
                 [PyInt 0; PyInt 0; PyInt 0; PyInt 0];
                 [PyInt 0; PyInt 0; PyInt 0; PyInt 0];
                 [PyInt 0; PyInt 0; PyInt 0; PyInt 0]]))
  /\ (fun r : gmap string _Material * nat => map_to_list r.1)
       <$> parsemat_lines decimal_float ∅ 0
             ["newmtl red" +:+ nl; "Ka 1 2" +:+ nl; "Ka 1 2 3" +:+ nl]
     = Ok [("red",
            Build_Material 0 [PyFloat 1; PyFloat 2; PyFloat 3; PyFloat 0]
              [PyInt 0; PyInt 0; PyInt 0; PyInt 0]
              [PyInt 0; PyInt 0; PyInt 0; PyInt 0]
              [PyInt 0; PyInt 0; PyInt 0; PyInt 0])].
Proof. split; vm_compute; reflexivity. Qed.

Lemma color_channel_by_second_char_witness :
  parsemat_line decimal_float red_started "Kd 0.5"
  = Ok (Build_matstate ∅ 0 (Some "red")
          (Some [[PyInt 0; PyInt 0; PyInt 0; PyInt 0];
                 [PyFloat 0.5; PyFloat 0.5; PyFloat 0.5; PyFloat 0];
                 [PyInt 0; PyInt 0; PyInt 0; PyInt 0];
                 [PyInt 0; PyInt 0; PyInt 0; PyInt 0]])) /\
  parsemat_line decimal_float red_started " Ka 0.5" = Raise KeyError.
Proof.
  split.
  - destruct (color_channel_by_second_char decimal_float red_started "Kd 0.5"
                "Kd" ["0.5"] eq_refl eq_refl) as (c & Hc & Hnum & _).
    injection Hc as <-.
    destruct (Hnum [0.5%float] ltac:(repeat constructor)) as [Hstore _].
    apply (Hstore (replicate 4 [PyInt 0; PyInt 0; PyInt 0; PyInt 0]) 1);
      [| reflexivity..].
    apply elem_of_cons. right. apply elem_of_cons. by left.
  - destruct (color_channel_by_second_char decimal_float red_started " Ka 0.5"
                "Ka" ["0.5"] eq_refl eq_refl) as (c & _ & _ & _ & _ & H).
    destruct (H eq_refl) as (_ & _ & e & He & Hnum & _).
    rewrite He. f_equal. apply (Hnum [0.5%float]). repeat constructor.
Defined.

(** After a leading blank, a colour record one of whose values is no
    number raises [ValueError], which is no lookup error: the values are
    converted before the channel is looked up. *)
Lemma leading_blank_malformed_value :
  leading_blank " Ka x" = true
  /\ keyword_of " Ka x" = Some "Ka"
  /\ parsemat_line decimal_float red_started " Ka x" = Raise ValueError
  /\ parsemat_lines decimal_float ∅ 0 ["newmtl red" +:+ nl; " Ka x" +:+ nl]
     = Raise ValueError
  /\ parsemat_line decimal_float red_started " Ka x" <> Raise KeyError
  /\ parsemat_line decimal_float red_started " Ka x" <> Raise IndexError.
Proof. split_and!; try (vm_compute; reflexivity); vm_compute; discriminate. Qed.

Lemma color_before_newmtl_fails_witness :
  parsemat_lines decimal_float ∅ 0 (["# ship"] ++ "Ka 0.5" :: ["newmtl red"])
  = Raise TypeError.
Proof.
  destruct (color_before_newmtl_fails decimal_float ∅ 0 ["# ship"] ["newmtl red"]
              "Ka 0.5" "Ka"
              ltac:(repeat constructor; discriminate) eq_refl eq_refl)
    as (e & He & Hty).
  rewrite He. f_equal. apply Hty.
  - repeat constructor. intros w' [= <-]. reflexivity.
  - reflexivity.
  - intros x Hx. apply list_elem_of_singleton in Hx as ->. by eexists.
Defined.

(** ** The display list *)

Lemma only_ambient_and_diffuse_witness :
  material_calls (calls (_create_displaylist reverse ship 1))
  = [glMaterialfv GL_FRONT GL_AMBIENT (ambient red);
     glMaterialfv GL_FRONT GL_DIFFUSE (diffuse red)].
Proof.
  destruct (only_ambient_and_diffuse decimal_float scene reverse ship_obj ship 1)
    as (_ & H & _).
  - intros d. apply reverse_Permutation.
  - vm_compute. reflexivity.
  - discriminate.
  - rewrite H. reflexivity.
Defined.

(** ** The randomized asteroid *)

Lemma perturbation_in_place_witness :
  AsteroidModel_init decimal_float scene unit (constant 1.25) tt
  = Ok (Build_ObjModel [None; Some (1.25, 2.5, 5)%float] (normals asteroid)
          (mats asteroid) (polys asteroid) (allocated asteroid), tt).
Proof.
  destruct (perturbation_in_place decimal_float scene unit (constant 1.25)
              asteroid_obj asteroid tt ltac:(vm_compute; reflexivity))
    as (vs & Hv & _ & H).
  rewrite (H eq_refl).
  assert (vs = [(1, 2, 4)%float]) as ->.
  { destruct vs as [| v [| v' vs]]; try discriminate Hv.
    apply (f_equal (fun t : list (option vec3) =>
                      match t with
                      | [_; Some v] => [v]
                      | _ => []
                      end)) in Hv.
    by symmetry. }
  reflexivity.
Defined.

(** After [AsteroidModel.__init__], the vertex table of the model is not
    the one [_parse_model] built: its array was scaled in place. *)
Lemma base_vertices_modified :
  vertices <$> _parse_model decimal_float scene "asteroid.obj"
  = Ok [None; Some (1, 2, 4)%float]
  /\ (fun r : ObjModel * unit => vertices r.1)
       <$> AsteroidModel_init decimal_float scene unit (constant 1.25) tt
     = Ok [None; Some (1.25, 2.5, 5)%float]
  /\ [None; Some (1.25, 2.5, 5)%float] <> [None; Some (1, 2, 4)%float].
Proof.
  split; [vm_compute; reflexivity |]. split; [vm_compute; reflexivity |].
  intros H.
  apply (f_equal (fun t : list (option vec3) =>
                    match t with
                    | [_; Some (x, _, _)] => x
                    | _ => 0%float
                    end)) in H.
  by apply (Float64.neq_of_eqb 1.25 1 eq_refl eq_refl).
Qed.

Lemma perturbation_by_one_witness :
  exists g',
    perturb_model unit (constant 1) asteroid tt = Ok (asteroid, g') /\
    (scene "asteroid.obj" = Some asteroid_obj ->
     AsteroidModel_init decimal_float scene unit (constant 1) tt = Ok (asteroid, g')).
Proof.
  apply (perturbation_by_one decimal_float scene unit (constant 1)
           asteroid_obj asteroid tt).
  - intros g. reflexivity.
  - vm_compute. reflexivity.
Defined.

(** * Further properties of the loader *)

(** ** Lines that the parsers pass over *)

Lemma for_each_skip {A S : Type} (body : S -> A -> result S) (xs ys : list A)
    (x : A) (s : S) :
  (forall s, body s x = Ok s) ->
  for_each body (xs ++ x :: ys) s = for_each body (xs ++ ys) s.
Proof.
  intros Hx. rewrite !for_each_app. cbn [for_each].
  destruct (for_each body xs s) as [s1 | e]; [| reflexivity].
  by rewrite !bind_Ok, Hx, bind_Ok.
Qed.

Lemma keyword_of_None (line : string) :
  keyword_of line = None -> PyStr.strip line = EmptyString.
Proof.
  unfold keyword_of. rewrite PyStrFacts.split_strip. intros H.
  apply PyStrFacts.strip_empty. by destruct (PyStr.split line).
Qed.

Section IgnoredLines.

Variable py_float : string -> option float.
Variable fs : string -> option (list string).

Lemma parse_line_ignored (st : parsestate) (line : string) :
  geometry_ignored line = true -> parse_line py_float fs st line = Ok st.
Proof.
  unfold geometry_ignored. intros H. destruct (keyword_of line) as [w |] eqn:Hk.
  - apply keyword_of_inv in Hk as [ws Hs]. unfold parse_line.
    rewrite (PyStrFacts.strip_eqb_words _ _ _ Hs), PyStrFacts.split_strip, Hs.
    unfold is_geometry_keyword in H. apply negb_true_iff in H.
    rewrite !orb_false_iff in H. destruct H as ((((-> & ->) & ->) & ->) & ->).
    reflexivity.
  - unfold parse_line. by rewrite (keyword_of_None line Hk).
Qed.

(** X1.  A blank line, or a record whose keyword is none of [v], [vn],
    [mtllib], [usemtl] and [f] (a comment, a group, a texture vertex),
    changes nothing in [_parse_model]: the document parses to the same
    result with and without it, wherever it stands. *)
Theorem geometry_ignored_line (line : string) (before after : list string) :
  geometry_ignored line = true ->
  (forall st, parse_line py_float fs st line = Ok st) /\
  parse_lines py_float fs (before ++ line :: after)
  = parse_lines py_float fs (before ++ after).
Proof.
  intros H. split; [intros st; by apply parse_line_ignored |].
  unfold parse_lines. rewrite for_each_skip; [reflexivity |].
  intros st. by apply parse_line_ignored.
Qed.

Lemma parsemat_line_ignored (st : matstate) (line : string) :
  library_ignored line = true -> parsemat_line py_float st line = Ok st.
Proof.
  unfold library_ignored. intros H. apply parsemat_line_skip.
  - intros Hk. rewrite Hk in H. discriminate.
  - intros w Hk. rewrite Hk in H. apply negb_true_iff in H.
    by apply orb_false_iff in H as [_ ?].
Qed.

(** X2.  A blank line, or a record whose keyword is neither [newmtl] nor
    one of [Ka], [Kd], [Ks], [Ke] (a comment, [Ns], [illum], [map_Kd]),
    changes nothing in [_parsemat]: the library parses to the same result
    with and without it, wherever it stands. *)
Theorem library_ignored_line (mats : gmap string _Material) (n : nat)
    (line : string) (before after : list string) :
  library_ignored line = true ->
  (forall st, parsemat_line py_float st line = Ok st) /\
  parsemat_lines py_float mats n (before ++ line :: after)
  = parsemat_lines py_float mats n (before ++ after).
Proof.
  intros H. split; [intros st; by apply parsemat_line_ignored |].
  unfold parsemat_lines. rewrite for_each_skip; [reflexivity |].
  intros st. by apply parsemat_line_ignored.
Qed.

End IgnoredLines.

(** ** Vertices and normals *)

Lemma resolve_lt {A : Type} (l : list A) (i : Z) (k : nat) :
  PyList.resolve l i = Ok k -> k < length l.
Proof.
  rewrite resolve_cases. repeat case_decide; intros [= <-]; lia.
Qed.

Lemma deref_app_l (t : list (option vec3)) (x : option vec3) (k : nat) :
  k < length t -> deref (t ++ [x]) k = deref t k.
Proof. intros Hk. unfold deref. by rewrite lookup_app_l. Qed.

Lemma deref_app_last (t : list (option vec3)) (x : option vec3) :
  deref (t ++ [x]) (length t) = x.
Proof.
  unfold deref. rewrite lookup_app_r by lia. by rewrite Nat.sub_diag.
Qed.

Section VertexRecords.

Variable py_float : string -> option float.
Variable fs : string -> option (list string).

Lemma parse_vec3_Ok (line w p1 p2 p3 : string) (x y z : float) :
  PyStr.split line = [w; p1; p2; p3] ->
  py_float p1 = Some x -> py_float p2 = Some y -> py_float p3 = Some z ->
  parse_vec3 py_float line = Ok (x, y, z).
Proof.
  intros H H1 H2 H3. unfold parse_vec3, to_float. by rewrite H, H1, H2, H3.
Qed.


(** X3.  A [v] record with three numbers defines the next vertex: it is
    appended to the table, where the faces that follow find it under the
    index one more than the number of vertices before it, and under the
    index -1; every earlier index still names the entry it named.  The
    rest of the model and the current material are untouched. *)
Theorem vertex_defined (st : parsestate) (line p1 p2 p3 : string)
    (x y z : float) (vs : list vec3) :
  PyStr.split line = ["v"; p1; p2; p3] ->
  py_float p1 = Some x -> py_float p2 = Some y -> py_float p3 = Some z ->
  vertices (self st) = None :: (Some <$> vs) ->
  exists st',
    parse_line py_float fs st line = Ok st' /\
    vertices (self st') = None :: (Some <$> (vs ++ [(x, y, z)])) /\
    PyList.resolve (vertices (self st')) (Z.of_nat (length vs) + 1)
    = Ok (S (length vs)) /\
    PyList.resolve (vertices (self st')) (-1) = Ok (S (length vs)) /\
    deref (vertices (self st')) (S (length vs)) = Some (x, y, z) /\
    (forall k, k <= length vs ->
       deref (vertices (self st')) k = deref (vertices (self st)) k) /\
    normals (self st') = normals (self st) /\
    mats (self st') = mats (self st) /\
    polys (self st') = polys (self st) /\
    currentmat st' = currentmat st.
Proof.
  intros H H1 H2 H3 Hv. unfold parse_line.
  rewrite (PyStrFacts.strip_eqb_words _ _ _ H), PyStrFacts.split_strip, H.
  cbn [String.eqb Ascii.eqb Bool.eqb].
  rewrite (parse_vec3_Ok line "v" p1 p2 p3 x y z H H1 H2 H3), bind_Ok.
  eexists. split; [reflexivity |]. cbn [self vertices normals mats polys currentmat].
  assert (length (vertices (self st)) = S (length vs)) as Hlen.
  { rewrite Hv. cbn. by rewrite length_fmap. }
  split; [by rewrite Hv, fmap_app |].
  rewrite !resolve_cases, !length_app, Hlen. cbn [length].
  split; [by repeat case_decide; try lia; f_equal; lia |].
  split; [by repeat case_decide; try lia; f_equal; lia |].
  split; [by rewrite <- Hlen, deref_app_last |].
  split; [| done]. intros k Hk. apply deref_app_l. lia.
Qed.



End VertexRecords.

(** ** The components of a face *)






Section FaceComponents.

Variable py_float : string -> option float.
Variable fs : string -> option (list string).



End FaceComponents.

(** ** Relative indices *)

(** X7.  A negative index in a face counts from the end of the table, for
    the vertex and for the normal each on its own: with [n] entries defined
    so far, the index [-k], for [k] from 1 to [n], names the entry the
    index [n + 1 - k] names, so that -1 is the entry defined last, and
    [-(n + 1)] names position 0 as the index 0 does.  A vertex or normal
    index below [-(n + 1)], as one above [n], raises [IndexError]. *)
Theorem relative_index (o : ObjModel) (component p t n : string) (i j : Z)
    (vs ns : list vec3) :
  vertices o = None :: (Some <$> vs) ->
  normals o = None :: (Some <$> ns) ->
  PyStr.split_on "/" component = [p; t; n] ->
  PyStr.int p = Ok i -> PyStr.int n = Ok j ->
  (forall kv kn : nat,
     (0 <= i <= Z.of_nat (length vs))%Z /\ kv = Z.to_nat i \/
     (- Z.of_nat (length vs) - 1 <= i <= -1)%Z /\
       kv = Z.to_nat (Z.of_nat (length vs) + 1 + i) ->
     (0 <= j <= Z.of_nat (length ns))%Z /\ kn = Z.to_nat j \/
     (- Z.of_nat (length ns) - 1 <= j <= -1)%Z /\
       kn = Z.to_nat (Z.of_nat (length ns) + 1 + j) ->
     face_point o component = Ok (kv, kn)) /\
  ((i < - Z.of_nat (length vs) - 1)%Z \/ (Z.of_nat (length vs) < i)%Z \/
   (j < - Z.of_nat (length ns) - 1)%Z \/ (Z.of_nat (length ns) < j)%Z ->
   face_point o component = Raise IndexError) /\
  ((- Z.of_nat (length vs) <= i <= -1)%Z ->
   deref (vertices o) (Z.to_nat (Z.of_nat (length vs) + 1 + i))
   = vs !! Z.to_nat (Z.of_nat (length vs) + i) /\
   is_Some (vs !! Z.to_nat (Z.of_nat (length vs) + i))) /\
  ((- Z.of_nat (length ns) <= j <= -1)%Z ->
   deref (normals o) (Z.to_nat (Z.of_nat (length ns) + 1 + j))
   = ns !! Z.to_nat (Z.of_nat (length ns) + j) /\
   is_Some (ns !! Z.to_nat (Z.of_nat (length ns) + j))).
Proof.
  intros Hv Hn Hc Hp Hj.
  assert (face_point o component
          = (vertex ← PyList.resolve (vertices o) i;
             normalv ← PyList.resolve (normals o) j;
             Ok (vertex, normalv))) as Hfp.
  { unfold face_point. by rewrite Hc, Hp, bind_Ok, Hj. }
  rewrite !resolve_cases, Hv, Hn in Hfp. cbn [length] in Hfp.
  rewrite !length_fmap in Hfp.
  assert (forall (l : list vec3) (k : Z),
            (- Z.of_nat (length l) <= k <= -1)%Z ->
            deref (None :: (Some <$> l)) (Z.to_nat (Z.of_nat (length l) + 1 + k))
            = l !! Z.to_nat (Z.of_nat (length l) + k)
            /\ is_Some (l !! Z.to_nat (Z.of_nat (length l) + k))) as Hd.
  { intros l k Hk.
    replace (Z.to_nat (Z.of_nat (length l) + 1 + k))
      with (S (Z.to_nat (Z.of_nat (length l) + k))) by lia.
    split; [apply deref_entry | apply lookup_lt_is_Some; lia]. }
  split_and!.
  - intros kv kn [[Hi ->] | [Hi ->]] [[Hj' ->] | [Hj' ->]]; rewrite Hfp;
      repeat case_decide; try lia; cbn; repeat f_equal; lia.
  - intros Hout. rewrite Hfp.
    destruct Hout as [Hi | [Hi | [Hj' | Hj']]]; by repeat case_decide; try lia.
  - intros Hi. rewrite Hv. exact (Hd vs i Hi).
  - intros Hj'. rewrite Hn. exact (Hd ns j Hj').
Qed.

(** ** References into the tables *)

Lemma entry_points_Forall (P : point -> Prop) (k : matkey) (t q g : list face) :
  Forall P (entry_points (k, (t, q, g)))
  <-> Forall (Forall P) t /\ Forall (Forall P) q /\ Forall (Forall P) g.
Proof.
  unfold entry_points. cbn [fst snd]. by rewrite Forall_concat, !Forall_app.
Qed.

Lemma bucket_append_points (P : point -> Prop) (k : matkey) (b b' : polygons)
    (i : nat) (points : face) :
  Forall P (entry_points (k, b)) -> Forall P points ->
  bucket_append b i points = Ok b' -> Forall P (entry_points (k, b')).
Proof.
  destruct b as [[t q] g]. rewrite entry_points_Forall. intros (Ht & Hq & Hg) Hp.
  destruct i as [| [| [| i]]]; cbn; intros [= <-]; rewrite entry_points_Forall;
    rewrite ?Forall_app; repeat split; auto.
Qed.

Lemma polys_append_points (P : point -> Prop) (d d' : list (matkey * polygons))
    (key : matkey) (i : nat) (points : face) :
  Forall (fun entry => Forall P (entry_points entry)) d -> Forall P points ->
  polys_append d key i points = Ok d' ->
  Forall (fun entry => Forall P (entry_points entry)) d'.
Proof.
  intros Hd Hp. revert d'. induction d as [| [k b] d IH]; intros d';
    cbn [polys_append].
  - intros H. apply bind_inv in H as (b' & Hb' & [= <-]).
    repeat constructor. eapply bucket_append_points; [| exact Hp | exact Hb'].
    by apply entry_points_Forall.
  - apply Forall_cons in Hd as [Hb Hd]. destruct (same_key k key).
    + intros H. apply bind_inv in H as (b' & Hb' & [= <-]).
      constructor; [by eapply bucket_append_points | exact Hd].
    + intros H. apply bind_inv in H as (d'' & Hd'' & [= <-]).
      constructor; [exact Hb | by apply IH].
Qed.

Lemma for_run_Forall_in {A : Type} (P : glcall -> Prop) (body : A -> run)
    (xs : list A) :
  Forall (fun x => Forall P (calls (body x))) xs ->
  Forall P (calls (for_run body xs)).
Proof.
  induction 1 as [| x xs Hx _ IH]; [constructor |].
  cbn [for_run]. by apply andthen_Forall.
Qed.

Lemma deref_elem_of (table : list (option vec3)) (k : nat) :
  k < length table -> deref table k ∈ table.
Proof.
  intros Hk. unfold deref.
  destruct (lookup_lt_is_Some_2 table k Hk) as [x Hx]. rewrite Hx. cbn.
  by apply list_elem_of_lookup_2 with k.
Qed.

Section References.

Variable py_float : string -> option float.
Variable fs : string -> option (list string).
Variable iteritems : list (matkey * polygons) -> list (matkey * polygons).

Lemma points_in_range_grow (o o' : ObjModel) :
  length (vertices o) <= length (vertices o') ->
  length (normals o) <= length (normals o') ->
  polys o' = polys o -> points_in_range o -> points_in_range o'.
Proof.
  unfold points_in_range. intros Hv Hn -> H.
  eapply Forall_impl; [exact H |]. intros entry He. cbn in He.
  eapply Forall_impl; [exact He |]. intros p. cbn. lia.
Qed.

Lemma parse_line_in_range (st st' : parsestate) (line : string) :
  points_in_range (self st) -> parse_line py_float fs st line = Ok st' ->
  points_in_range (self st').
Proof.
  intros Hin. unfold parse_line.
  destruct (String.eqb (PyStr.strip line) ""); [by intros [= <-] |].
  destruct (PyStr.split (PyStr.strip line)) as [| keyword filenames];
    [discriminate |].
  destruct (String.eqb keyword "v").
  { intros H. apply bind_inv in H as (v & _ & [= <-]).
    apply (points_in_range_grow (self st)); cbn; rewrite ?length_app; try lia; done. }
  destruct (String.eqb keyword "vn").
  { intros H. apply bind_inv in H as (v & _ & [= <-]).
    apply (points_in_range_grow (self st)); cbn; rewrite ?length_app; try lia; done. }
  destruct (String.eqb keyword "mtllib").
  { intros H. apply bind_inv in H as (o' & Ho' & [= <-]).
    destruct (parse_mtllib_frame _ _ _ _ _ Ho') as (Hv' & Hn' & Hp').
    apply (points_in_range_grow (self st)); cbn; rewrite ?Hv', ?Hn'; done. }
  destruct (String.eqb keyword "usemtl").
  { intros H. apply bind_inv in H as (name & _ & H).
    by apply bind_inv in H as (x & _ & [= <-]). }
  destruct (String.eqb keyword "f"); [| by intros [= <-]].
  intros H. apply bind_inv in H as (components & _ & H).
  apply bind_inv in H as (points & Hpts & H).
  apply bind_inv in H as (d & Hd & [= <-]).
  unfold points_in_range. cbn [self polys vertices normals].
  eapply polys_append_points; [exact Hin | | exact Hd].
  apply map_result_inv in Hpts. clear -Hpts.
  induction Hpts as [| c p cs ps Hc _ IH]; constructor; [| exact IH].
  unfold face_point in Hc.
  destruct (PyStr.split_on "/" c) as [| a [| b [| n [| ? ?]]]]; try discriminate.
  apply bind_inv in Hc as (i & _ & Hc). apply bind_inv in Hc as (kv & Hkv & Hc).
  apply bind_inv in Hc as (j & _ & Hc). apply bind_inv in Hc as (kn & Hkn & [= <-]).
  split; cbn; by eapply resolve_lt.
Qed.

Lemma normal_vertex_from_tables (o : ObjModel) (p : point) :
  p.1 < length (vertices o) /\ p.2 < length (normals o) ->
  Forall (from_tables o) (normal_vertex o p).
Proof.
  destruct p as [pt n]. intros [Hv Hn]. cbn in *.
  repeat constructor; cbn; by apply deref_elem_of.
Qed.

Lemma render_entry_from_tables (o : ObjModel) (entry : matkey * polygons) :
  Forall (fun p : point => p.1 < length (vertices o) /\ p.2 < length (normals o))
    (entry_points entry) ->
  Forall (from_tables o) (calls (render_entry o entry)).
Proof.
  destruct entry as [texture [[triangles quads] polys]].
  rewrite entry_points_Forall. intros (Ht & Hq & Hg). unfold render_entry.
  apply andthen_Forall; [destruct texture; by repeat constructor |].
  apply andthen_Forall.
  { destruct triangles as [| f l]; [constructor |].
    apply andthen_Forall; [by repeat constructor |].
    apply andthen_Forall; [| by repeat constructor].
    apply for_run_Forall_in. eapply Forall_impl; [exact Ht |].
    intros x Hx. unfold render_triangle.
    destruct x as [| p1 [| p2 [| p3 [| ]]]]; try constructor.
    apply Forall_cons in Hx as [H1 Hx]. apply Forall_cons in Hx as [H2 Hx].
    apply Forall_cons in Hx as [H3 _]. cbn [emit calls].
    rewrite !Forall_app. repeat split; by apply normal_vertex_from_tables. }
  apply andthen_Forall.
  { destruct quads as [| f l]; [constructor |].
    apply andthen_Forall; [by repeat constructor |].
    apply andthen_Forall; [| by repeat constructor].
    apply for_run_Forall_in. eapply Forall_impl; [exact Hq |].
    intros x Hx. unfold render_quad.
    destruct x as [| p1 [| p2 [| p3 [| p4 [| ]]]]]; try constructor.
    apply Forall_cons in Hx as [H1 Hx]. apply Forall_cons in Hx as [H2 Hx].
    apply Forall_cons in Hx as [H3 Hx]. apply Forall_cons in Hx as [H4 _].
    cbn [emit calls].
    rewrite !Forall_app. repeat split; by apply normal_vertex_from_tables. }
  apply for_run_Forall_in. eapply Forall_impl; [exact Hg |].
  intros p Hp. unfold render_polygon.
  apply andthen_Forall; [by repeat constructor |].
  apply andthen_Forall; [| by repeat constructor].
  apply for_run_Forall_in. eapply Forall_impl; [exact Hp |].
  intros x Hx. by apply normal_vertex_from_tables.
Qed.

(** X8.  In a parsed model every point of every polygon refers to a
    position that exists in the table of the vertices and in the table of
    the normals; so each vertex and each normal that [render] hands to the
    backend is an entry of the table, never a reference past its end. *)
Theorem references_in_range (lines : list string) (o : ObjModel) :
  (forall d, iteritems d ≡ₚ d) ->
  parse_lines py_float fs lines = Ok o ->
  points_in_range o /\
  (forall v, glVertex3dv v ∈ calls (render iteritems o) -> v ∈ vertices o) /\
  (forall v, glNormal3dv v ∈ calls (render iteritems o) -> v ∈ normals o).
Proof.
  intros Hperm Ho.
  assert (points_in_range o) as Hin.
  { unfold parse_lines in Ho. apply bind_inv in Ho as (st & Hst & [= <-]).
    apply (for_each_invariant (fun st => points_in_range (self st))
             (parse_line py_float fs) lines parse_start st);
      [intros s x s'; apply parse_line_in_range | constructor | exact Hst]. }
  split; [exact Hin |].
  assert (Forall (from_tables o) (calls (render iteritems o))) as Hall.
  { unfold render. apply for_run_Forall_in.
    unfold points_in_range in Hin. rewrite <- (Hperm (polys o)) in Hin.
    eapply Forall_impl; [exact Hin |]. intros entry. apply render_entry_from_tables. }
  rewrite Forall_forall in Hall.
  split; intros v Hv; exact (Hall _ Hv).
Qed.

End References.

(** ** The registry of the materials *)

Lemma split_words_nonempty (s : string) :
  Forall (fun w => w <> EmptyString) (PyStr.split s).
Proof.
  induction s as [| c s IH]; [constructor |].
  destruct s as [| c' s'].
  - cbn. destruct (PyStr.is_space c); by repeat constructor.
  - rewrite PyStrFacts.split_cons2.
    destruct (PyStr.is_space c); [exact IH |].
    destruct (PyStr.is_space c'); [by constructor |].
    destruct (PyStr.split (String c' s')) as [| t ts]; [by repeat constructor |].
    apply Forall_cons in IH as [_ IH]. by constructor.
Qed.

Lemma _Material_star_ok (id : nat) (l : list color) (x : _Material) :
  _Material_star id l = Ok x -> material_ok x /\ mat_id x = id.
Proof.
  unfold _Material_star, _Material_init, material_ok.
  destruct l as [| a [| d [| s [| e [| ? ?]]]]]; try discriminate;
    repeat match goal with
      | |- context [Nat.eqb (length ?c) 4] =>
          destruct (Nat.eqb_spec (length c) 4); cbn [negb]; try discriminate
      end; by intros [= <-].
Qed.

Section Registry.

Variable py_float : string -> option float.

Lemma save_frame (st st' : matstate) :
  save st = Ok st' ->
  matname st' = matname st /\ mat st' = mat st /\
  ms_allocated st <= ms_allocated st' /\
  (forall name, matname st <> Some name ->
     ms_mats st' !! name = ms_mats st !! name) /\
  (forall name, is_Some (ms_mats st !! name) -> is_Some (ms_mats st' !! name)) /\
  (forall name, matname st = Some name -> name <> EmptyString ->
     is_Some (ms_mats st' !! name)) /\
  (map_Forall (fun _ x => material_ok x) (ms_mats st) ->
   map_Forall (fun _ x => material_ok x) (ms_mats st')).
Proof.
  unfold save. destruct (truthy (matname st)) eqn:Ht.
  - destruct (matname st) as [name |] eqn:Hn; [| discriminate].
    destruct (mat st) as [l |]; [| discriminate].
    intros H. apply bind_inv in H as (x & Hx & [= <-]). cbn.
    apply _Material_star_ok in Hx as [Hx _].
    split_and!; try done; try lia.
    + intros name' Hne. apply lookup_insert_ne. congruence.
    + intros name' Hs. destruct (decide (name = name')) as [-> | Hne].
      * rewrite lookup_insert_eq. by eexists.
      * by rewrite lookup_insert_ne.
    + intros name' [= <-] _. rewrite lookup_insert_eq. by eexists.
    + intros Hall. by apply map_Forall_insert_2.
  - intros [= <-]. split_and!; try done.
    intros name Hn Hne. rewrite Hn in Ht. by destruct name.
Qed.

(** What one record does to the registry and to the name under way. *)
Lemma parsemat_line_frame (st st' : matstate) (line : string) :
  matname st <> Some EmptyString ->
  parsemat_line py_float st line = Ok st' ->
  matname st' <> Some EmptyString /\
  ms_allocated st <= ms_allocated st' /\
  (forall name, matname st <> Some name ->
     ms_mats st' !! name = ms_mats st !! name) /\
  (forall name, is_Some (ms_mats st !! name) -> is_Some (ms_mats st' !! name)) /\
  (map_Forall (fun _ x => material_ok x) (ms_mats st) ->
   map_Forall (fun _ x => material_ok x) (ms_mats st')) /\
  ((matname st' = matname st /\ declared [line] = []) \/
   (exists name, declared [line] = [name] /\ matname st' = Some name /\
      forall nm, matname st = Some nm -> is_Some (ms_mats st' !! nm))).
Proof.
  intros Hne. unfold parsemat_line. rewrite PyStrFacts.split_strip.
  cbn [declared]. pose proof (split_words_nonempty line) as Hw.
  destruct (PyStr.split line) as [| keyword ws] eqn:Hs.
  { intros [= <-]. split_and!; try done. by left. }
  destruct (String.eqb keyword "newmtl") eqn:Hk.
  - intros H. apply bind_inv in H as (st1 & Hst1 & H).
    apply bind_inv in H as (name & Hname & [= <-]).
    destruct ws as [| name' ws]; [discriminate |]. injection Hname as ->.
    apply save_frame in Hst1 as (Hn1 & _ & Hal & Hfr & Hmono & Hreg & Hok).
    cbn. apply Forall_cons in Hw as [_ Hw]. apply Forall_cons in Hw as [Hw _].
    split_and!; try done; [congruence |].
    right. exists name. split_and!; try done.
    intros nm Hnm. apply Hreg; congruence.
  - destruct (is_color_keyword keyword).
    + intros H. apply bind_inv in H as (color & _ & H).
      apply bind_inv in H as (c & _ & H). apply bind_inv in H as (i & _ & H).
      apply bind_inv in H as (mat' & _ & [= <-]). cbn.
      split_and!; try done. left. split; [done |]. by destruct ws.
    + intros [= <-]. split_and!; try done. left. split; [done |]. by destruct ws.
Qed.

Lemma declared_cons (line : string) (lines : list string) :
  declared (line :: lines) = declared [line] ++ declared lines.
Proof.
  cbn [declared]. destruct (PyStr.split line) as [| keyword [| name ws]];
    try reflexivity. by destruct (String.eqb keyword "newmtl").
Qed.

Lemma parsemat_loop_frame (lines : list string) (st st' : matstate) :
  matname st <> Some EmptyString ->
  for_each (parsemat_line py_float) lines st = Ok st' ->
  matname st' <> Some EmptyString /\
  ms_allocated st <= ms_allocated st' /\
  (forall name, matname st <> Some name -> name ∉ declared lines ->
     ms_mats st' !! name = ms_mats st !! name) /\
  (forall nm, matname st' = Some nm -> matname st = Some nm \/ nm ∈ declared lines) /\
  (forall nm, is_Some (ms_mats st !! nm) \/ matname st = Some nm \/ nm ∈ declared lines ->
     is_Some (ms_mats st' !! nm) \/ matname st' = Some nm) /\
  (map_Forall (fun _ x => material_ok x) (ms_mats st) ->
   map_Forall (fun _ x => material_ok x) (ms_mats st')).
Proof.
  revert st. induction lines as [| line lines IH]; intros st Hne H.
  - injection H as <-. split_and!; try done; try tauto.
    intros nm [? | [? | Hin]]; [tauto.. |]. by apply elem_of_nil in Hin.
  - cbn [for_each] in H. apply bind_inv in H as (st1 & H1 & H).
    destruct (parsemat_line_frame st st1 line Hne H1)
      as (Hne1 & Hal1 & Hfr1 & Hmono1 & Hok1 & Hname1).
    destruct (IH st1 Hne1 H) as (Hne' & Hal' & Hfr' & Hnm' & Hreg' & Hok').
    rewrite declared_cons.
    split; [exact Hne' |]. split; [lia |]. split; [| split; [| split]].
    + intros name Hn Hnd. apply not_elem_of_app in Hnd as [Hd1 Hd2].
      rewrite <- (Hfr1 name Hn). apply Hfr'; [| exact Hd2].
      destruct Hname1 as [[-> _] | (nm & Hd & -> & _)]; [exact Hn |].
      rewrite Hd in Hd1. intros [= ->]. apply Hd1. by left.
    + intros nm Hnm. rewrite elem_of_app.
      destruct (Hnm' nm Hnm) as [Hm | Hin]; [| tauto].
      destruct Hname1 as [[Heq _] | (nm1 & Hd & Heq & _)].
      * left. congruence.
      * right. left. rewrite Hd. rewrite Heq in Hm. injection Hm as ->. by left.
    + intros nm Hnm. apply Hreg'. rewrite elem_of_app in Hnm.
      destruct Hnm as [Hs | [Hm | [Hin | Hin]]].
      * left. by apply Hmono1.
      * destruct Hname1 as [[Heq _] | (nm1 & Hd & Heq & Hsaved)].
        -- right. left. congruence.
        -- left. by apply Hsaved.
      * destruct Hname1 as [[_ Hd] | (nm1 & Hd & Heq & _)].
        -- rewrite Hd in Hin. by apply elem_of_nil in Hin.
        -- rewrite Hd in Hin. apply list_elem_of_singleton in Hin as ->. tauto.
      * tauto.
    + intros Hall. apply Hok', Hok1, Hall.
Qed.

(** What parsing a library does to the registry. *)
Lemma parsemat_lines_registry (mats mats' : gmap string _Material) (n n' : nat)
    (lines : list string) :
  parsemat_lines py_float mats n lines = Ok (mats', n') ->
  (forall name, name ∉ declared lines -> mats' !! name = mats !! name) /\
  (forall name, name ∈ declared lines -> is_Some (mats' !! name)) /\
  (forall name, is_Some (mats !! name) -> is_Some (mats' !! name)) /\
  (map_Forall (fun _ x => material_ok x) mats ->
   map_Forall (fun _ x => material_ok x) mats').
Proof.
  unfold parsemat_lines. intros H. apply bind_inv in H as (st & Hst & H).
  apply bind_inv in H as (st' & Hst' & [= <- <-]).
  assert (matname (Build_matstate mats n None None) <> Some EmptyString) as Hne0
    by discriminate.
  destruct (parsemat_loop_frame lines _ st Hne0 Hst)
    as (Hne & _ & Hfr & Hnm & Hreg & Hok). cbn in Hfr, Hnm, Hreg, Hok.
  apply save_frame in Hst' as (_ & _ & _ & Hfr' & Hmono' & Hsaved' & Hok').
  assert (forall nm, is_Some (mats !! nm) \/ nm ∈ declared lines ->
                     is_Some (ms_mats st' !! nm)) as Hall.
  { intros nm Hin. destruct (Hreg nm) as [Hs | Hm]; [tauto | by apply Hmono' |].
    apply Hsaved'; [exact Hm | congruence]. }
  split_and!.
  - intros name Hnd. rewrite Hfr'; [by apply Hfr |].
    intros Hm. destruct (Hnm name Hm) as [? | ?]; done.
  - intros name Hin. apply Hall. by right.
  - intros name Hs. apply Hall. by left.
  - intros Hm. apply Hok', Hok, Hm.
Qed.

(** X9.  Parsing a library only adds to the registry: a name that no
    [newmtl] record of the library declares keeps the entry it had, or stays
    absent; every name the library declares is registered when the parsing
    ends; and no entry is removed. *)
Theorem registry_after_library (mats mats' : gmap string _Material) (n n' : nat)
    (lines : list string) :
  parsemat_lines py_float mats n lines = Ok (mats', n') ->
  (forall name, name ∉ declared lines -> mats' !! name = mats !! name) /\
  (forall name, name ∈ declared lines -> is_Some (mats' !! name)) /\
  (forall name, is_Some (mats !! name) -> is_Some (mats' !! name)).
Proof.
  intros H.
  destruct (parsemat_lines_registry mats mats' n n' lines H) as (H1 & H2 & H3 & _).
  by split_and!.
Qed.

(** X10.  Every material that parsing a library registers has four colours
    of four components each: a library that would leave another length in
    a colour is not parsed. *)
Theorem registered_materials_ok (mats mats' : gmap string _Material) (n n' : nat)
    (lines : list string) :
  map_Forall (fun _ x => material_ok x) mats ->
  parsemat_lines py_float mats n lines = Ok (mats', n') ->
  map_Forall (fun _ x => material_ok x) mats'.
Proof.
  intros Hall H.
  destruct (parsemat_lines_registry mats mats' n n' lines H) as (_ & _ & _ & Hok).
  by apply Hok.
Qed.

End Registry.

(** ** The colours handed to the backend *)

(** What holds of the calls that activate the key of an entry, and of every
    call that sets no material, holds of all the calls of the entry. *)
Lemma render_entry_Forall (R : glcall -> Prop) (o : ObjModel)
    (entry : matkey * polygons) :
  (forall c, is_glMaterialfv c = false -> R c) ->
  Forall R (activation entry.1) ->
  Forall R (calls (render_entry o entry)).
Proof.
  intros Hother Hact. destruct entry as [texture [[triangles quads] polys]].
  assert (forall p, Forall R (normal_vertex o p)) as Hnv.
  { intros [pt n]. repeat constructor; by apply Hother. }
  unfold render_entry. apply andthen_Forall.
  { destruct texture; [exact Hact | constructor]. }
  apply andthen_Forall.
  { destruct triangles as [| f l]; [constructor |].
    apply andthen_Forall; [repeat constructor; by apply Hother |].
    apply andthen_Forall; [| repeat constructor; by apply Hother].
    apply for_run_Forall. intros x. unfold render_triangle.
    destruct x as [| p1 [| p2 [| p3 [| ]]]]; try constructor.
    cbn [emit calls]. rewrite !Forall_app. repeat split; apply Hnv. }
  apply andthen_Forall.
  { destruct quads as [| f l]; [constructor |].
    apply andthen_Forall; [repeat constructor; by apply Hother |].
    apply andthen_Forall; [| repeat constructor; by apply Hother].
    apply for_run_Forall. intros x. unfold render_quad.
    destruct x as [| p1 [| p2 [| p3 [| p4 [| ]]]]]; try constructor.
    cbn [emit calls]. rewrite !Forall_app. repeat split; apply Hnv. }
  apply for_run_Forall. intros p. unfold render_polygon.
  apply andthen_Forall; [repeat constructor; by apply Hother |].
  apply andthen_Forall; [| repeat constructor; by apply Hother].
  apply for_run_Forall. intros x. apply Hnv.
Qed.

Section Colours.

Variable py_float : string -> option float.
Variable fs : string -> option (list string).
Variable iteritems : list (matkey * polygons) -> list (matkey * polygons).

Lemma parse_mtllib_ok (o o' : ObjModel) (filenames : list string) :
  map_Forall (fun _ x => material_ok x) (mats o) ->
  parse_mtllib py_float fs o filenames = Ok o' ->
  map_Forall (fun _ x => material_ok x) (mats o').
Proof.
  unfold parse_mtllib. intros Hall H. apply bind_inv in H as (r & Hr & [= <-]).
  cbn [mats].
  apply (for_each_invariant
           (fun r : gmap string _Material * nat =>
              map_Forall (fun _ x => material_ok x) r.1)
           (fun (r : gmap string _Material * nat) filename =>
              _parsemat py_float fs r.1 r.2 filename)
           filenames (mats o, allocated o) r); [| exact Hall | exact Hr].
  intros [m1 n1] filename [m2 n2] Hm1 Hstep. cbn [fst snd] in *.
  unfold _parsemat in Hstep. apply bind_inv in Hstep as (f & _ & Hstep).
  destruct (parsemat_lines_registry py_float m1 m2 n1 n2 f Hstep) as (_ & _ & _ & Hok).
  by apply Hok.
Qed.

Lemma parse_line_keys_ok (st st' : parsestate) (line : string) :
  map_Forall (fun _ x => material_ok x) (mats (self st)) /\
  key_ok (currentmat st) /\ Forall key_ok (keys (polys (self st))) ->
  parse_line py_float fs st line = Ok st' ->
  map_Forall (fun _ x => material_ok x) (mats (self st')) /\
  key_ok (currentmat st') /\ Forall key_ok (keys (polys (self st'))).
Proof.
  intros (Hm & Hc & Hk) H.
  pose proof (parse_line_keys py_float fs st st' line H) as Hkeys.
  assert (Forall key_ok (keys (polys (self st')))) as Hk'.
  { rewrite Hkeys. destruct (is_face line); [| exact Hk].
    unfold add_key. destruct (existsb _ _); [exact Hk |].
    apply Forall_app. split; [exact Hk | by repeat constructor]. }
  clear Hkeys. revert H. unfold parse_line.
  destruct (String.eqb (PyStr.strip line) ""); [by intros [= <-] |].
  destruct (PyStr.split (PyStr.strip line)) as [| keyword filenames];
    [discriminate |].
  destruct (String.eqb keyword "v").
  { intros H. apply bind_inv in H as (v & _ & [= <-]). done. }
  destruct (String.eqb keyword "vn").
  { intros H. apply bind_inv in H as (v & _ & [= <-]). done. }
  destruct (String.eqb keyword "mtllib").
  { intros H. apply bind_inv in H as (o' & Ho' & [= <-]).
    split; [by eapply parse_mtllib_ok |]. cbn in Hk'. done. }
  destruct (String.eqb keyword "usemtl").
  { intros H. apply bind_inv in H as (name & _ & H).
    apply bind_inv in H as (x & Hx & [= <-]). split; [exact Hm |].
    split; [| exact Hk]. cbn.
    destruct (mats (self st) !! name) as [y |] eqn:Hy; [| discriminate].
    injection Hx as ->. by apply (Hm name). }
  destruct (String.eqb keyword "f"); [| by intros [= <-]].
  intros H. apply bind_inv in H as (components & _ & H).
  apply bind_inv in H as (points & _ & H).
  apply bind_inv in H as (d & Hd & [= <-]). done.
Qed.

(** X11.  In a parsed model every registered material, and every material
    under which polygons are filed, has four colours of four components
    each; so every colour that compiling the model hands to
    [glMaterialfv] has four components. *)
Theorem colours_have_four_components (lines : list string) (o : ObjModel) :
  (forall d, iteritems d ≡ₚ d) ->
  parse_lines py_float fs lines = Ok o ->
  (forall name x, mats o !! name = Some x -> material_ok x) /\
  (forall x, Some x ∈ keys (polys o) -> material_ok x) /\
  (forall f p c, glMaterialfv f p c ∈ calls (render iteritems o) -> length c = 4).
Proof.
  intros Hperm Ho. unfold parse_lines in Ho.
  apply bind_inv in Ho as (st & Hst & [= <-]).
  assert (map_Forall (fun _ x => material_ok x) (mats (self st)) /\
          key_ok (currentmat st) /\ Forall key_ok (keys (polys (self st))))
    as (Hm & _ & Hk).
  { apply (for_each_invariant
             (fun st => map_Forall (fun _ x => material_ok x) (mats (self st)) /\
                        key_ok (currentmat st) /\
                        Forall key_ok (keys (polys (self st))))
             (parse_line py_float fs) lines parse_start st);
      [intros s x s'; apply parse_line_keys_ok | | exact Hst].
    split; [apply map_Forall_empty |]. split; [exact I | constructor]. }
  split; [exact Hm |]. rewrite Forall_forall in Hk.
  split; [intros x Hx; exact (Hk _ Hx) |].
  assert (Forall four_components (calls (render iteritems (self st)))) as Hall.
  { unfold render. apply for_run_Forall_in. apply Forall_forall.
    intros entry He. apply render_entry_Forall; [by intros [] |].
    assert (entry.1 ∈ keys (polys (self st))) as Hin.
    { unfold keys. apply list_elem_of_fmap. exists entry. split; [done |].
      by rewrite <- (Hperm (polys (self st))). }
    specialize (Hk _ Hin). destruct (entry.1) as [x |]; [| constructor].
    destruct Hk as (Ha & Hd & _). by repeat constructor. }
  rewrite Forall_forall in Hall. intros f p c Hc. exact (Hall _ Hc).
Qed.

End Colours.

(** ** Material libraries of a document *)

Section Libraries.

Variable py_float : string -> option float.
Variable fs : string -> option (list string).



End Libraries.

(** ** The stream of calls of [render] *)

Lemma glrun_app (s : glstate) (cs1 cs2 : list glcall) :
  glrun s (cs1 ++ cs2) = glrun s cs1 ≫= fun s' => glrun s' cs2.
Proof.
  revert s. induction cs1 as [| c cs1 IH]; intros s; [reflexivity |].
  cbn [glrun app]. destruct (glstep s c); [apply IH | reflexivity].
Qed.

Lemma andthen_steps (s s1 s2 : glstate) (r1 r2 : run) :
  steps s r1 s1 -> steps s1 r2 s2 -> steps s (andthen r1 r2) s2.
Proof.
  intros [H1 G1] [H2 G2]. rewrite (andthen_calls r1 r2 H1). split; [exact H2 |].
  cbn. by rewrite glrun_app, G1.
Qed.

Lemma for_run_steps {A : Type} (s : glstate) (body : A -> run) (xs : list A) :
  Forall (fun x => steps s (body x) s) xs -> steps s (for_run body xs) s.
Proof.
  induction 1 as [| x xs Hx _ IH]; [by split |].
  cbn [for_run]. by eapply andthen_steps.
Qed.

Lemma vertex_args_app (cs1 cs2 : list glcall) :
  vertex_args (cs1 ++ cs2) = vertex_args cs1 ++ vertex_args cs2.
Proof. apply flat_map_app. Qed.

Lemma normal_args_app (cs1 cs2 : list glcall) :
  normal_args (cs1 ++ cs2) = normal_args cs1 ++ normal_args cs2.
Proof. apply flat_map_app. Qed.

Lemma andthen_passes (o : ObjModel) (r1 r2 : run) (pts1 pts2 : list point) :
  passes o r1 pts1 -> passes o r2 pts2 -> passes o (andthen r1 r2) (pts1 ++ pts2).
Proof.
  intros (H1 & V1 & N1) (H2 & V2 & N2). rewrite (andthen_calls r1 r2 H1).
  split; [exact H2 |]. cbn [calls].
  by rewrite vertex_args_app, normal_args_app, V1, V2, N1, N2, !fmap_app.
Qed.

Lemma for_run_passes (o : ObjModel) (body : face -> run) (fs : list face) :
  Forall (fun f => passes o (body f) f) fs -> passes o (for_run body fs) (concat fs).
Proof.
  induction 1 as [| f fs Hf _ IH]; [by split |].
  cbn [for_run concat]. by apply andthen_passes.
Qed.

Lemma emit_passes_nothing (o : ObjModel) (cs : list glcall) :
  vertex_args cs = [] -> normal_args cs = [] -> passes o (emit cs) [].
Proof. intros Hv Hn. by split_and!. Qed.

Section Stream.

Variable iteritems : list (matkey * polygons) -> list (matkey * polygons).
Variable o : ObjModel.

Lemma normal_vertex_steps (p : point) : steps Inside (emit (normal_vertex o p)) Inside.
Proof. by destruct p. Qed.

Lemma normal_vertex_passes (p : point) : passes o (emit (normal_vertex o p)) [p].
Proof. by destruct p. Qed.

Lemma points_steps (f : face) :
  steps Inside (for_run (fun pt_n => emit (normal_vertex o pt_n)) f) Inside.
Proof.
  apply for_run_steps. apply Forall_forall. intros p _. apply normal_vertex_steps.
Qed.

Lemma points_passes (f : face) :
  passes o (for_run (fun pt_n => emit (normal_vertex o pt_n)) f) f.
Proof.
  induction f as [| p f IH]; [by split |].
  cbn [for_run]. change (p :: f) with ([p] ++ f).
  apply andthen_passes; [apply normal_vertex_passes | exact IH].
Qed.

Lemma render_triangle_steps (f : face) :
  length f = 3 -> steps Inside (render_triangle o f) Inside.
Proof.
  destruct f as [| [] [| [] [| [] [| ]]]]; try discriminate. intros _. by split.
Qed.

Lemma render_triangle_passes (f : face) :
  length f = 3 -> passes o (render_triangle o f) f.
Proof.
  destruct f as [| [] [| [] [| [] [| ]]]]; try discriminate. intros _. by split.
Qed.

Lemma render_quad_steps (f : face) :
  length f = 4 -> steps Inside (render_quad o f) Inside.
Proof.
  destruct f as [| [] [| [] [| [] [| [] [| ]]]]]; try discriminate.
  intros _. by split.
Qed.

Lemma render_quad_passes (f : face) :
  length f = 4 -> passes o (render_quad o f) f.
Proof.
  destruct f as [| [] [| [] [| [] [| [] [| ]]]]]; try discriminate.
  intros _. by split.
Qed.

Lemma render_polygon_steps (p : face) : steps Outside (render_polygon o p) Outside.
Proof.
  unfold render_polygon. apply (andthen_steps _ Inside); [by split |].
  apply (andthen_steps _ Inside); [apply points_steps | by split].
Qed.

Lemma render_polygon_passes (p : face) : passes o (render_polygon o p) p.
Proof.
  unfold render_polygon. change p with ([] ++ p) at 2.
  apply andthen_passes; [by apply emit_passes_nothing |].
  rewrite <- (app_nil_r p) at 2.
  apply andthen_passes; [apply points_passes | by apply emit_passes_nothing].
Qed.

(** An entry whose buckets are as [render] expects takes the protocol from
    outside to outside, and passes the points of its polygons: the
    triangles, then the quads, then the other polygons, each with its
    points in their order. *)
Lemma render_entry_stream (entry : matkey * polygons) :
  buckets_ok entry.2 ->
  steps Outside (render_entry o entry) Outside /\
  passes o (render_entry o entry) (entry_points entry).
Proof.
  destruct entry as [texture [[triangles quads] polys]]. intros [Ht Hq].
  cbn [fst snd] in *. unfold render_entry, entry_points. cbn [fst snd].
  rewrite !concat_app. split.
  - apply (andthen_steps _ Outside); [by destruct texture |].
    apply (andthen_steps _ Outside).
    { destruct triangles as [| f l]; [by split |].
      apply (andthen_steps _ Inside); [by split |].
      apply (andthen_steps _ Inside); [| by split].
      apply for_run_steps. eapply Forall_impl; [exact Ht |].
      intros x. apply render_triangle_steps. }
    apply (andthen_steps _ Outside).
    { destruct quads as [| f l]; [by split |].
      apply (andthen_steps _ Inside); [by split |].
      apply (andthen_steps _ Inside); [| by split].
      apply for_run_steps. eapply Forall_impl; [exact Hq |].
      intros x. apply render_quad_steps. }
    apply for_run_steps. apply Forall_forall. intros x _.
    apply render_polygon_steps.
  - change (concat triangles ++ concat quads ++ concat polys)
      with ([] ++ concat triangles ++ concat quads ++ concat polys).
    apply andthen_passes; [destruct texture; by apply emit_passes_nothing |].
    apply andthen_passes.
    { destruct triangles as [| f l]; [by split |].
      change (concat (f :: l)) with ([] ++ concat (f :: l)).
      apply andthen_passes; [by apply emit_passes_nothing |].
      rewrite <- (app_nil_r (concat (f :: l))).
      apply andthen_passes; [| by apply emit_passes_nothing].
      apply for_run_passes. eapply Forall_impl; [exact Ht |].
      intros x. apply render_triangle_passes. }
    apply andthen_passes.
    { destruct quads as [| f l]; [by split |].
      change (concat (f :: l)) with ([] ++ concat (f :: l)).
      apply andthen_passes; [by apply emit_passes_nothing |].
      rewrite <- (app_nil_r (concat (f :: l))).
      apply andthen_passes; [| by apply emit_passes_nothing].
      apply for_run_passes. eapply Forall_impl; [exact Hq |].
      intros x. apply render_quad_passes. }
    apply for_run_passes. apply Forall_forall. intros x _.
    apply render_polygon_passes.
Qed.

Lemma for_run_entries_stream (entries : list (matkey * polygons)) :
  Forall buckets_ok entries.*2 ->
  steps Outside (for_run (render_entry o) entries) Outside /\
  passes o (for_run (render_entry o) entries) (entries ≫= entry_points).
Proof.
  induction entries as [| entry entries IH]; [by repeat split |].
  cbn [fmap list_fmap]. intros H. apply Forall_cons in H as [He H].
  destruct (render_entry_stream entry He) as [S1 P1]. destruct (IH H) as [S2 P2].
  cbn [for_run]. split; [by eapply andthen_steps |].
  change ((entry :: entries) ≫= entry_points)
    with (entry_points entry ++ (entries ≫= entry_points)).
  by apply andthen_passes.
Qed.

End Stream.

Section StreamOfParsed.

Variable py_float : string -> option float.
Variable fs : string -> option (list string).
Variable iteritems : list (matkey * polygons) -> list (matkey * polygons).

(** X13.  The calls that [render] makes for a parsed model respect the
    protocol of the backend: every [glBegin] is closed by a [glEnd] before
    the next one opens and before the end; normals and vertices are given
    between the two only, each vertex right after its normal; a material
    is set outside of them only. *)
Theorem render_stream_well_formed (lines : list string) (o : ObjModel) :
  (forall d, iteritems d ≡ₚ d) ->
  parse_lines py_float fs lines = Ok o ->
  glrun Outside (calls (render iteritems o)) = Some Outside.
Proof.
  intros Hperm Ho.
  destruct (parse_lines_model_ok py_float fs lines o Ho) as (_ & _ & _ & Hb).
  assert (Forall buckets_ok (iteritems (polys o)).*2) as Hb'
    by (by rewrite (Hperm (polys o))).
  by destruct (for_run_entries_stream o _ Hb') as [[_ HS] _].
Qed.

(** X14.  [render] hands the backend the points of the polygons of a parsed
    model, each once and none else: entry after entry, the triangles, the
    quads and then the other polygons of the entry, each polygon with its
    points in the order of the face record.  The vertices passed are the
    entries of the table of the vertices that the points refer to, and the
    normals those of the table of the normals. *)
Theorem render_passes_the_points (lines : list string) (o : ObjModel) :
  (forall d, iteritems d ≡ₚ d) ->
  parse_lines py_float fs lines = Ok o ->
  vertex_args (calls (render iteritems o))
  = (fun p : point => deref (vertices o) p.1)
      <$> (iteritems (polys o) ≫= entry_points) /\
  normal_args (calls (render iteritems o))
  = (fun p : point => deref (normals o) p.2)
      <$> (iteritems (polys o) ≫= entry_points) /\
  (iteritems (polys o) ≫= entry_points) ≡ₚ (polys o ≫= entry_points).
Proof.
  intros Hperm Ho.
  destruct (parse_lines_model_ok py_float fs lines o Ho) as (_ & _ & _ & Hb).
  assert (Forall buckets_ok (iteritems (polys o)).*2) as Hb'
    by (by rewrite (Hperm (polys o))).
  destruct (for_run_entries_stream o _ Hb') as [_ (_ & HV & HN)].
  split_and!; [exact HV | exact HN | by rewrite (Hperm (polys o))].
Qed.

End StreamOfParsed.

(** ** The constructors *)

Section ConstructorFacts.

Variable py_float : string -> option float.
Variable fs : string -> option (list string).
Variable iteritems : list (matkey * polygons) -> list (matkey * polygons).

(** A model with the buckets [render] expects is compiled into a list that
    is opened and closed. *)
Lemma compile_ok (o : ObjModel) (renderlist : Z) :
  (forall d, iteritems d ≡ₚ d) -> Forall buckets_ok (polys o).*2 ->
  renderlist <> 0%Z ->
  compile iteritems o renderlist
  = ([glGenLists 1; glNewList renderlist GL_COMPILE]
       ++ calls (render iteritems o) ++ [glEndList], Ok o).
Proof.
  intros Hperm Hb Hr.
  assert (Forall buckets_ok (iteritems (polys o)).*2) as Hb'
    by (by rewrite (Hperm (polys o))).
  destruct (for_run_entries o _ Hb') as [HR _]. fold (render iteritems o) in HR.
  unfold compile. by rewrite (create_displaylist_calls iteritems o renderlist Hr HR).
Qed.

(** X15.  [ObjModel.__init__] parses the whole document before it asks
    anything of the backend: when the file cannot be opened or a record
    raises, no call has been made.  For a parsed document the first call
    asks for a display list; without one (the answer 0) the constructor
    raises [RuntimeError] and no list was opened; with one, the constructor
    succeeds and its calls are those of [render] between the opening and
    the closing of the list. *)
Theorem ObjModel_init_outcomes (fileobj : string) (renderlist : Z) :
  (forall d, iteritems d ≡ₚ d) ->
  match _parse_model py_float fs fileobj with
  | Raise e =>
      ObjModel_init py_float fs iteritems fileobj renderlist = ([], Raise e)
  | Ok o =>
      if decide (renderlist = 0%Z)
      then ObjModel_init py_float fs iteritems fileobj renderlist
           = ([glGenLists 1], Raise RuntimeError)
      else ObjModel_init py_float fs iteritems fileobj renderlist
           = ([glGenLists 1; glNewList renderlist GL_COMPILE]
                ++ calls (render iteritems o) ++ [glEndList], Ok o)
  end.
Proof.
  intros Hperm. unfold ObjModel_init.
  destruct (_parse_model py_float fs fileobj) as [o | e] eqn:Ho; [| reflexivity].
  case_decide as Hr.
  - subst renderlist. reflexivity.
  - apply compile_ok; [exact Hperm | | exact Hr].
    unfold _parse_model in Ho. apply bind_inv in Ho as (lines & _ & Ho).
    by destruct (parse_lines_model_ok py_float fs lines o Ho) as (_ & _ & _ & Hb).
Qed.

Variable Rng : Type.
Variable uniform : Rng -> float * Rng.

(** X16.  The perturbation moves the polygons that share a vertex
    together: after it, the reference to the [k]-th vertex of a parsed
    model leads, from every point that holds it, to the position the
    parser read scaled by the [k]-th answer of the generator; the
    placeholder, the normals and the points of the polygons are as they
    were, and the generator has answered once per vertex of the table,
    whether a polygon uses the vertex or not. *)
Theorem shared_vertices_move_together (lines : list string) (o : ObjModel) (g : Rng) :
  parse_lines py_float fs lines = Ok o ->
  exists o',
    perturb_model Rng uniform o g
    = Ok (o', after_draws uniform g (length (vertices o) - 1)) /\
    polys o' = polys o /\
    deref (vertices o') 0 = None /\
    (forall k, deref (normals o') k = deref (normals o) k) /\
    (forall k v, deref (vertices o) (S k) = Some v ->
       exists d, draws uniform g (length (vertices o) - 1) !! k = Some d /\
                 deref (vertices o') (S k) = Some (scale v d)) /\
    (forall k, deref (vertices o) (S k) = None -> deref (vertices o') (S k) = None).
Proof.
  intros Ho.
  destruct (parse_lines_model_ok py_float fs lines o Ho) as ([vs Hv] & _).
  rewrite (perturb_model_arrays Rng uniform o vs g Hv), Hv.
  replace (length (None :: (Some <$> vs)) - 1) with (length vs)
    by (cbn [length]; rewrite length_fmap; lia).
  eexists. split; [reflexivity |].
  cbn [polys normals vertices]. split_and!; try done.
  - intros k v. unfold deref.
    change ((None :: ?l) !! S k) with (l !! k). rewrite !list_lookup_fmap.
    destruct (vs !! k) as [v' |] eqn:Hk; [| discriminate]. intros [= ->].
    assert (is_Some (draws uniform g (length vs) !! k)) as [d Hd].
    { apply lookup_lt_is_Some.
      assert (forall n g, length (draws uniform g n) = n) as ->.
      { clear. intros n. induction n as [| n IH]; intros g; [done |].
        cbn. by rewrite IH. }
      by apply lookup_lt_Some in Hk. }
    exists d. split; [exact Hd |]. by rewrite lookup_zip_with, Hk, Hd.
  - intros k. unfold deref.
    change ((None :: ?l) !! S k) with (l !! k). rewrite !list_lookup_fmap.
    rewrite lookup_zip_with. by destruct (vs !! k).
Qed.

(** X17.  [AsteroidModel.__init__] succeeds whenever [asteroid.obj] parses
    and the backend gives a display list: the perturbed model is compiled
    without an exception, its calls keep the protocol of the backend, and
    the materials it sets are those of the parsed model. *)
Theorem asteroid_compiles (lines : list string) (o : ObjModel) (g : Rng)
    (renderlist : Z) :
  (forall d, iteritems d ≡ₚ d) ->
  fs "asteroid.obj" = Some lines ->
  parse_lines py_float fs lines = Ok o ->
  renderlist <> 0%Z ->
  exists o' g',
    perturb_model Rng uniform o g = Ok (o', g') /\
    AsteroidModel_new py_float fs iteritems Rng uniform g renderlist
    = ([glGenLists 1; glNewList renderlist GL_COMPILE]
         ++ calls (render iteritems o') ++ [glEndList], Ok (o', g')) /\
    glrun Outside (calls (render iteritems o')) = Some Outside /\
    material_calls (calls (render iteritems o'))
    = material_calls (calls (render iteritems o)).
Proof.
  intros Hperm Hf Ho Hr.
  destruct (parse_lines_model_ok py_float fs lines o Ho) as ([vs Hv] & _ & _ & Hb).
  pose proof (perturb_model_arrays Rng uniform o vs g Hv) as Hp.
  set (o' := Build_ObjModel
               (None :: (Some <$> zip_with scale vs (draws uniform g (length vs))))
               (normals o) (mats o) (polys o) (allocated o)) in *.
  exists o', (after_draws uniform g (length vs)). split; [exact Hp |].
  assert (Forall buckets_ok (iteritems (polys o)).*2) as Hb'
    by (by rewrite (Hperm (polys o))).
  split_and!.
  - unfold AsteroidModel_new.
    rewrite (AsteroidModel_init_parsed py_float fs Rng uniform lines o g Hf Ho), Hp.
    by rewrite (compile_ok o' renderlist Hperm Hb Hr).
  - by destruct (for_run_entries_stream o' _ Hb') as [[_ HS] _].
  - destruct (for_run_entries o _ Hb') as [_ HM].
    destruct (for_run_entries o' _ Hb') as [_ HM'].
    unfold render. change (polys o') with (polys o). by rewrite HM, HM'.
Qed.

End ConstructorFacts.

(** ** The ship *)

Module Float64Order.

(** No float is below itself. *)
Lemma ltb_irrefl (x : float) : (x <? x)%float = false.
Proof.
  rewrite ltb_spec. unfold SFltb, SFcompare.
  destruct (Prim2SF x) as [s | s | | s m e]; try reflexivity;
    destruct s; try reflexivity; rewrite Z.compare_refl;
    change (PosDef.Pos.compare_cont Eq m m) with (Pos.compare m m);
    rewrite Pos.compare_refl; reflexivity.
Qed.

(** A number compares equal to itself. *)
Lemma SFcompare_refl (a : spec_float) :
  SFeqb a a = true -> SFcompare a a = Some Eq.
Proof.
  unfold SFeqb. by destruct (SFcompare a a) as [[] |].
Qed.

(** Comparing the other way round gives the opposite answer. *)
Lemma SFcompare_antisym (a b : spec_float) :
  SFcompare b a = option_map CompOpp (SFcompare a b).
Proof.
  destruct a as [s1 | s1 | | s1 m1 e1], b as [s2 | s2 | | s2 m2 e2];
    cbn [SFcompare option_map]; try reflexivity;
    try (by destruct s1); try (by destruct s2); try (by destruct s1, s2).
  f_equal. rewrite (Z.compare_antisym e1 e2).
  change (PosDef.Pos.compare_cont Eq m2 m1) with (Pos.compare m2 m1).
  change (PosDef.Pos.compare_cont Eq m1 m2) with (Pos.compare m1 m2).
  rewrite (Pos.compare_antisym m1 m2).
  destruct s1, s2; try reflexivity;
    destruct (e1 ?= e2)%Z; cbn [CompOpp]; try reflexivity;
    by destruct (m1 ?= m2)%positive.
Qed.

(** Two numbers are always in order, one way or the other. *)
Lemma SFleb_of_not_ltb (a b : spec_float) :
  SFeqb a a = true -> SFeqb b b = true -> SFltb a b = false -> SFleb b a = true.
Proof.
  intros Ha Hb. unfold SFltb, SFleb. rewrite (SFcompare_antisym a b).
  assert (exists c, SFcompare a b = Some c) as [c ->].
  { destruct a, b; cbn in *; try discriminate; eauto. }
  by destruct c.
Qed.

Lemma leb_of_not_ltb (x y : float) :
  is_nan x = false -> is_nan y = false ->
  (x <? y)%float = false -> (y <=? x)%float = true.
Proof.
  unfold is_nan. intros Hx Hy. apply negb_false_iff in Hx, Hy.
  rewrite FloatAxioms.eqb_spec in Hx, Hy. rewrite ltb_spec, leb_spec.
  by apply SFleb_of_not_ltb.
Qed.

Lemma leb_refl (x : float) : is_nan x = false -> (x <=? x)%float = true.
Proof.
  unfold is_nan. intros H. apply negb_false_iff in H.
  rewrite FloatAxioms.eqb_spec in H. rewrite leb_spec.
  unfold SFleb. by rewrite (SFcompare_refl _ H).
Qed.

(** Only numbers are in order. *)
Lemma SFeqb_refl (a : spec_float) : a <> S754_nan -> SFeqb a a = true.
Proof.
  unfold SFeqb. destruct a as [s | s | | s m e]; cbn [SFcompare]; intros H;
    try done; try (by destruct s).
  destruct s; rewrite Z.compare_refl;
    change (PosDef.Pos.compare_cont Eq m m) with (Pos.compare m m);
    rewrite Pos.compare_refl; reflexivity.
Qed.

Lemma leb_numbers (x y : float) :
  (x <=? y)%float = true -> is_nan x = false /\ is_nan y = false.
Proof.
  unfold is_nan. rewrite !FloatAxioms.eqb_spec, leb_spec. intros H.
  assert (Prim2SF x <> S754_nan /\ Prim2SF y <> S754_nan) as [Hx Hy].
  { unfold SFleb in H.
    destruct (Prim2SF x), (Prim2SF y); cbn in H; try discriminate;
      split; discriminate. }
  by rewrite (SFeqb_refl _ Hx), (SFeqb_refl _ Hy).
Qed.

End Float64Order.

(** What [wrap] answers for a number lies between the two edges, when the
    edges are in order. *)
Lemma wrap_band (hi x : float) :
  (- WRAPDIST <=? hi)%float = true -> is_nan x = false ->
  (- WRAPDIST <=? wrap hi x)%float = true /\ (wrap hi x <=? hi)%float = true.
Proof.
  intros Hband Hx. destruct (Float64Order.leb_numbers _ _ Hband) as [Hlo Hhi].
  unfold wrap.
  destruct (hi <? x)%float eqn:H1; [by split |].
  destruct (x <? - WRAPDIST)%float eqn:H2.
  - split; [exact Hband | by apply Float64Order.leb_refl].
  - split; by apply Float64Order.leb_of_not_ltb.
Qed.

Section ShipFacts.

Variable WIDTH HEIGHT distance : float.
Variable Bezier : Type.
Variable Quadratic : point5 -> point5 -> point5 -> Z -> Bezier.
Variable B : Bezier -> Z -> point5.
Variable tmax : Bezier -> Z.
Variable value : Type.

(** X18.  After [_update_normal] the ship is inside the band that the
    window and the margin [WRAPDIST] make, when the edges of the band are
    in order: a coordinate x or y that is a number after the move ends
    between [-WRAPDIST] and [WIDTH + WRAPDIST], or [HEIGHT + WRAPDIST] for
    y, both included.  For x and for y alike, a ship beyond the upper edge
    is put on [-WRAPDIST], one below [-WRAPDIST] is put on the upper edge,
    and any other keeps the coordinate it moved to.  The third coordinate
    moves by the speed and is not wrapped. *)
Theorem ship_stays_in_band (s : Ship Bezier value) :
  (- WRAPDIST <=? WIDTH + WRAPDIST)%float = true ->
  (- WRAPDIST <=? HEIGHT + WRAPDIST)%float = true ->
  (is_nan ((pos s).1.1 + (speed s).1.1) = false ->
   (- WRAPDIST <=? (pos (_update_normal WIDTH HEIGHT s)).1.1)%float = true /\
   ((pos (_update_normal WIDTH HEIGHT s)).1.1 <=? WIDTH + WRAPDIST)%float = true) /\
  (is_nan ((pos s).1.2 + (speed s).1.2) = false ->
   (- WRAPDIST <=? (pos (_update_normal WIDTH HEIGHT s)).1.2)%float = true /\
   ((pos (_update_normal WIDTH HEIGHT s)).1.2 <=? HEIGHT + WRAPDIST)%float = true) /\
  (pos (_update_normal WIDTH HEIGHT s)).2 = ((pos s).2 + (speed s).2)%float /\
  ((WIDTH + WRAPDIST <? (pos s).1.1 + (speed s).1.1)%float = true ->
   (pos (_update_normal WIDTH HEIGHT s)).1.1 = (- WRAPDIST)%float) /\
  ((WIDTH + WRAPDIST <? (pos s).1.1 + (speed s).1.1)%float = false ->
   ((pos s).1.1 + (speed s).1.1 <? - WRAPDIST)%float = true ->
   (pos (_update_normal WIDTH HEIGHT s)).1.1 = (WIDTH + WRAPDIST)%float) /\
  ((WIDTH + WRAPDIST <? (pos s).1.1 + (speed s).1.1)%float = false ->
   ((pos s).1.1 + (speed s).1.1 <? - WRAPDIST)%float = false ->
   (pos (_update_normal WIDTH HEIGHT s)).1.1 = ((pos s).1.1 + (speed s).1.1)%float) /\
  ((HEIGHT + WRAPDIST <? (pos s).1.2 + (speed s).1.2)%float = true ->
   (pos (_update_normal WIDTH HEIGHT s)).1.2 = (- WRAPDIST)%float) /\
  ((HEIGHT + WRAPDIST <? (pos s).1.2 + (speed s).1.2)%float = false ->
   ((pos s).1.2 + (speed s).1.2 <? - WRAPDIST)%float = true ->
   (pos (_update_normal WIDTH HEIGHT s)).1.2 = (HEIGHT + WRAPDIST)%float) /\
  ((HEIGHT + WRAPDIST <? (pos s).1.2 + (speed s).1.2)%float = false ->
   ((pos s).1.2 + (speed s).1.2 <? - WRAPDIST)%float = false ->
   (pos (_update_normal WIDTH HEIGHT s)).1.2 = ((pos s).1.2 + (speed s).1.2)%float).
Proof.
  intros HW HH. unfold _update_normal.
  destruct (pos s) as [[x y] z]. destruct (speed s) as [[vx vy] vz].
  cbn [pos fst snd].
  split_and!.
  - apply (wrap_band (WIDTH + WRAPDIST) (x + vx) HW).
  - apply (wrap_band (HEIGHT + WRAPDIST) (y + vy) HH).
  - reflexivity.
  - intros Hx. unfold wrap. by rewrite Hx.
  - intros Hx Hx'. unfold wrap. by rewrite Hx, Hx'.
  - intros Hx Hx'. unfold wrap. by rewrite Hx, Hx'.
  - intros Hy. unfold wrap. by rewrite Hy.
  - intros Hy Hy'. unfold wrap. by rewrite Hy, Hy'.
  - intros Hy Hy'. unfold wrap. by rewrite Hy, Hy'.
Qed.

(** The clock, the curve and the state after [k] frames of a flight. *)
Lemma frames_state (k : nat) (s : Ship Bezier value) :
  _t (frames B tmax k s) = (_t s + Z.of_nat k)%Z /\
  _bezier (frames B tmax k s) = _bezier s /\
  _trusting (frames B tmax k s) = _trusting s /\
  _turning (frames B tmax k s) = _turning s /\
  speed (frames B tmax k s) = speed s /\
  _state (frames B tmax k s)
  = if decide (1 <= k /\ (tmax (_bezier s) <= _t s + Z.of_nat k)%Z) then 1%Z
    else _state s.
Proof.
  induction k as [| k (Ht & Hb & Hth & Htu & Hsp & Hs)].
  - cbn. split_and!; try done; try lia; try (case_decide; [lia | done]).
  - change (frames B tmax (S k) s) with (_update_bezier B tmax (frames B tmax k s)).
    unfold _update_bezier. rewrite Ht, Hb.
    destruct (B (_bezier s) (_t s + Z.of_nat k + 1)) as [[[[x y] z] th] ph].
    cbn [_t _bezier _state _trusting _turning speed].
    split_and!; try done; try lia. rewrite Hs.
    destruct (Z.leb_spec (tmax (_bezier s)) (_t s + Z.of_nat k + 1));
      repeat case_decide; try lia; done.
Qed.

Lemma frames_position (k : nat) (s : Ship Bezier value) :
  pos (frames B tmax (S k) s)
  = (B (_bezier s) (_t s + Z.of_nat (S k))).1.1 /\
  theta (frames B tmax (S k) s)
  = PyFloat (B (_bezier s) (_t s + Z.of_nat (S k))).1.2 /\
  phi (frames B tmax (S k) s)
  = PyFloat (B (_bezier s) (_t s + Z.of_nat (S k))).2.
Proof.
  change (frames B tmax (S k) s) with (_update_bezier B tmax (frames B tmax k s)).
  destruct (frames_state k s) as (Ht & Hb & _).
  unfold _update_bezier. rewrite Ht, Hb.
  replace (_t s + Z.of_nat k + 1)%Z with (_t s + Z.of_nat (S k))%Z by lia.
  by destruct (B (_bezier s) (_t s + Z.of_nat (S k))) as [[[[x y] z] th] ph].
Qed.

(** X19.  A fly-in lasts as many frames as the curve has, one at the
    least: [fly_in] puts the ship in state 2 at time 0; after [k] calls of
    [_update_bezier], [k] from 1 on, the ship is at the point of the curve
    for the time [k], with its angles, and its state is still 2 when [k]
    is below [tmax], and 1 from then on. *)
Theorem fly_in_flight (s : Ship Bezier value) (k : nat) :
  _state (fly_in WIDTH HEIGHT distance Quadratic s) = 2%Z /\
  _t (fly_in WIDTH HEIGHT distance Quadratic s) = 0%Z /\
  (1 <= k ->
   _t (frames B tmax k (fly_in WIDTH HEIGHT distance Quadratic s)) = Z.of_nat k /\
   pos (frames B tmax k (fly_in WIDTH HEIGHT distance Quadratic s))
   = (B (_bezier (fly_in WIDTH HEIGHT distance Quadratic s)) (Z.of_nat k)).1.1 /\
   theta (frames B tmax k (fly_in WIDTH HEIGHT distance Quadratic s))
   = PyFloat (B (_bezier (fly_in WIDTH HEIGHT distance Quadratic s)) (Z.of_nat k)).1.2 /\
   phi (frames B tmax k (fly_in WIDTH HEIGHT distance Quadratic s))
   = PyFloat (B (_bezier (fly_in WIDTH HEIGHT distance Quadratic s)) (Z.of_nat k)).2 /\
   ((Z.of_nat k < tmax (_bezier (fly_in WIDTH HEIGHT distance Quadratic s)))%Z ->
    _state (frames B tmax k (fly_in WIDTH HEIGHT distance Quadratic s)) = 2%Z) /\
   ((tmax (_bezier (fly_in WIDTH HEIGHT distance Quadratic s)) <= Z.of_nat k)%Z ->
    _state (frames B tmax k (fly_in WIDTH HEIGHT distance Quadratic s)) = 1%Z)).
Proof.
  split; [reflexivity |]. split; [reflexivity |]. intros Hk.
  set (s0 := fly_in WIDTH HEIGHT distance Quadratic s).
  assert (_t s0 = 0%Z) as Ht0 by reflexivity.
  assert (_state s0 = 2%Z) as Hs0 by reflexivity.
  destruct (frames_state k s0) as (Ht & _ & _ & _ & _ & Hs).
  destruct k as [| k]; [lia |].
  destruct (frames_position k s0) as (Hp & Hth & Hph).
  rewrite Ht0 in *. rewrite Z.add_0_l in *.
  split_and!; try done.
  - intros Hlt. rewrite Hs, Hs0. case_decide; [lia | done].
  - intros Hge. rewrite Hs. case_decide; [done | lia].
Qed.

(** X20.  [thrust] and [turn] act in the states 0 and 1 only: there they
    store their argument and touch nothing else; in any other state they
    leave the ship as it is.  So the controls are dead from [fly_in] until
    the curve is flown, and alive after the frame that ends it. *)
Theorem controls_gated (s : Ship Bezier value) (on dir : value) (k : nat) :
  (_state s <> 0%Z -> _state s <> 1%Z -> thrust s on = s /\ turn s dir = s) /\
  (_state s = 0%Z \/ _state s = 1%Z ->
   thrust s on
   = Build_Ship (pos s) (theta s) (phi s) (rot s) (speed s) (_state s) on
       (_turning s) (_t s) (_bezier s) /\
   turn s dir
   = Build_Ship (pos s) (theta s) (phi s) (rot s) (speed s) (_state s)
       (_trusting s) dir (_t s) (_bezier s)) /\
  ((Z.of_nat k < tmax (_bezier (fly_in WIDTH HEIGHT distance Quadratic s)))%Z ->
   thrust (frames B tmax k (fly_in WIDTH HEIGHT distance Quadratic s)) on
   = frames B tmax k (fly_in WIDTH HEIGHT distance Quadratic s) /\
   turn (frames B tmax k (fly_in WIDTH HEIGHT distance Quadratic s)) dir
   = frames B tmax k (fly_in WIDTH HEIGHT distance Quadratic s)) /\
  (1 <= k ->
   (tmax (_bezier (fly_in WIDTH HEIGHT distance Quadratic s)) <= Z.of_nat k)%Z ->
   _trusting (thrust (frames B tmax k (fly_in WIDTH HEIGHT distance Quadratic s)) on)
   = on /\
   _turning (turn (frames B tmax k (fly_in WIDTH HEIGHT distance Quadratic s)) dir)
   = dir).
Proof.
  assert (forall s' : Ship Bezier value,
            _state s' <> 0%Z -> _state s' <> 1%Z ->
            thrust s' on = s' /\ turn s' dir = s') as Hoff.
  { intros s' H0 H1. unfold thrust, turn, controls_off.
    apply Z.eqb_neq in H0, H1. by rewrite H0, H1. }
  assert (forall s' : Ship Bezier value,
            _state s' = 0%Z \/ _state s' = 1%Z -> controls_off s' = false) as Hon.
  { intros s' [H | H]; unfold controls_off; by rewrite H. }
  set (s0 := fly_in WIDTH HEIGHT distance Quadratic s).
  assert (_t s0 = 0%Z) as Ht0 by reflexivity.
  assert (_state s0 = 2%Z) as Hs0 by reflexivity.
  destruct (frames_state k s0) as (_ & _ & _ & _ & _ & Hs).
  rewrite Ht0, Z.add_0_l, Hs0 in Hs.
  split_and!.
  - apply Hoff.
  - intros H. unfold thrust, turn. by rewrite (Hon s H).
  - intros Hlt. apply Hoff; rewrite Hs; case_decide; lia.
  - intros Hk Hge. unfold thrust, turn. rewrite Hon; [done |].
    right. rewrite Hs. case_decide; [done | lia].
Qed.

End ShipFacts.

(** * The further properties on the scene *)

Lemma geometry_ignored_line_witness :
  parse_lines decimal_float scene (["# a comment" +:+ nl] ++ ship_obj)
  = parse_lines decimal_float scene ship_obj.
Proof.
  exact (proj2 (geometry_ignored_line decimal_float scene ("# a comment" +:+ nl)
                  [] ship_obj eq_refl)).
Defined.

Lemma library_ignored_line_witness :
  parsemat_lines decimal_float ∅ 0 (["newmtl red"; "illum 2"] ++ ["Ka 0.5"])
  = parsemat_lines decimal_float ∅ 0 (["newmtl red"] ++ ["Ka 0.5"]).
Proof.
  exact (proj2 (library_ignored_line decimal_float ∅ 0 "illum 2"
                  ["newmtl red"] ["Ka 0.5"] eq_refl)).
Defined.

Lemma vertex_defined_witness :
  exists st',
    parse_line decimal_float scene one_vertex "v 1 0 0" = Ok st' /\
    vertices (self st') = [None; Some (0, 0, 0); Some (1, 0, 0)]%float /\
    PyList.resolve (vertices (self st')) 2 = Ok 2 /\
    PyList.resolve (vertices (self st')) (-1) = Ok 2.
Proof.
  destruct (vertex_defined decimal_float scene one_vertex "v 1 0 0" "1" "0" "0"
              1 0 0 [(0, 0, 0)%float] eq_refl eq_refl eq_refl eq_refl eq_refl)
    as (st' & H & Hv & H2 & H1 & _).
  exists st'. by split_and!.
Defined.




Lemma relative_index_witness :
  face_point (self one_vertex) "-1//1" = Ok (1, 1) /\
  face_point (self one_vertex) "1//-3" = Raise IndexError.
Proof.
  destruct (relative_index (self one_vertex) "-1//1" "-1" "" "1" (-1) 1
              [(0, 0, 0)%float] [(0, 0, 1)%float]
              eq_refl eq_refl eq_refl eq_refl eq_refl) as [H _].
  destruct (relative_index (self one_vertex) "1//-3" "1" "" "-3" 1 (-3)
              [(0, 0, 0)%float] [(0, 0, 1)%float]
              eq_refl eq_refl eq_refl eq_refl eq_refl) as (_ & H' & _).
  split.
  - apply H; [right | left]; cbn; lia.
  - apply H'. right. right. left. cbn. lia.
Defined.

Lemma references_in_range_witness :
  points_in_range ship /\
  (forall v, glVertex3dv v ∈ calls (render reverse ship) -> v ∈ vertices ship) /\
  (forall v, glNormal3dv v ∈ calls (render reverse ship) -> v ∈ normals ship).
Proof.
  apply (references_in_range decimal_float scene reverse ship_obj ship).
  - intros d. apply reverse_Permutation.
  - vm_compute. reflexivity.
Defined.

Lemma registry_after_library_witness :
  (<["red":=red]> ∅ : gmap string _Material) !! "blue" = None /\
  is_Some ((<["red":=red]> ∅ : gmap string _Material) !! "red").
Proof.
  destruct (registry_after_library decimal_float ∅ (<["red":=red]> ∅) 0 1 ship_mtl)
    as (Hout & Hin & _); [vm_compute; reflexivity |].
  split.
  - rewrite Hout; [reflexivity |]. vm_compute. intros H.
    apply list_elem_of_singleton in H. discriminate.
  - apply Hin. vm_compute. by left.
Defined.

Lemma registered_materials_ok_witness :
  map_Forall (fun (_ : string) x => material_ok x)
    (<["red":=red]> ∅ : gmap string _Material).
Proof.
  apply (registered_materials_ok decimal_float ∅ (<["red":=red]> ∅) 0 1 ship_mtl).
  - apply map_Forall_empty.
  - vm_compute. reflexivity.
Defined.

Lemma colours_have_four_components_witness :
  material_ok red /\
  (glMaterialfv GL_FRONT GL_DIFFUSE (diffuse red) ∈ calls (render reverse ship) ->
   length (diffuse red) = 4).
Proof.
  destruct (colours_have_four_components decimal_float scene reverse ship_obj ship)
    as (_ & Hk & H).
  - intros d. apply reverse_Permutation.
  - vm_compute. reflexivity.
  - split; [| apply H]. apply Hk. cbn. apply elem_of_cons. right. by left.
Defined.


Lemma render_stream_well_formed_witness :
  glrun Outside (calls (render reverse ship)) = Some Outside.
Proof.
  apply (render_stream_well_formed decimal_float scene reverse ship_obj ship).
  - intros d. apply reverse_Permutation.
  - vm_compute. reflexivity.
Defined.

Lemma render_passes_the_points_witness :
  vertex_args (calls (render reverse ship))
  = [Some (0, 0, 0); Some (1, 0, 0); Some (1, 1, 0); Some (0, 1, 0);
     Some (0, 0, 0); Some (1, 0, 0); Some (0, 1, 0)]%float.
Proof.
  destruct (render_passes_the_points decimal_float scene reverse ship_obj ship)
    as (H & _).
  - intros d. apply reverse_Permutation.
  - vm_compute. reflexivity.
  - rewrite H. reflexivity.
Defined.

Lemma ObjModel_init_outcomes_witness :
  ObjModel_init decimal_float scene reverse "rocks.obj" 1 = ([], Raise IOError) /\
  ObjModel_init decimal_float scene reverse "ship.obj" 0
  = ([glGenLists 1], Raise RuntimeError) /\
  (ObjModel_init decimal_float scene reverse "ship.obj" 1).2 = Ok ship.
Proof.
  assert (forall d : list (matkey * polygons), reverse d ≡ₚ d) as Hperm
    by (intros d; apply reverse_Permutation).
  pose proof (ObjModel_init_outcomes decimal_float scene reverse "rocks.obj" 1 Hperm)
    as H1.
  pose proof (ObjModel_init_outcomes decimal_float scene reverse "ship.obj" 0 Hperm)
    as H2.
  pose proof (ObjModel_init_outcomes decimal_float scene reverse "ship.obj" 1 Hperm)
    as H3.
  assert (_parse_model decimal_float scene "ship.obj" = Ok ship) as Hs
    by (vm_compute; reflexivity).
  rewrite Hs in H2, H3.
  assert (_parse_model decimal_float scene "rocks.obj" = Raise IOError) as Hr
    by reflexivity.
  rewrite Hr in H1.
  split; [exact H1 |]. split.
  { destruct (decide (0%Z = 0%Z)); [exact H2 | done]. }
  destruct (decide (1%Z = 0%Z)); [done |]. rewrite H3. reflexivity.
Defined.

Lemma shared_vertices_move_together_witness :
  exists o',
    perturb_model unit (constant 1.25) asteroid tt = Ok (o', tt) /\
    polys o' = polys asteroid /\
    deref (vertices o') 1 = Some (1.25, 2.5, 5)%float.
Proof.
  destruct (shared_vertices_move_together decimal_float scene unit (constant 1.25)
              asteroid_obj asteroid tt ltac:(vm_compute; reflexivity))
    as (o' & Hp & Hpolys & _ & _ & Hv & _).
  exists o'. split; [exact Hp |]. split; [exact Hpolys |].
  destruct (Hv 0 (1, 2, 4)%float eq_refl) as (d & Hd & ->).
  cbn in Hd. by injection Hd as <-.
Defined.

Lemma asteroid_compiles_witness :
  exists o' g',
    (AsteroidModel_new decimal_float scene reverse unit (constant 1.25) tt 7).2
    = Ok (o', g').
Proof.
  destruct (asteroid_compiles decimal_float scene reverse unit (constant 1.25)
              asteroid_obj asteroid tt 7)
    as (o' & g' & _ & H & _).
  - intros d. apply reverse_Permutation.
  - reflexivity.
  - vm_compute. reflexivity.
  - discriminate.
  - exists o', g'. by rewrite H.
Defined.

Lemma ship_stays_in_band_witness :
  (pos (_update_normal 800 600 crossing)).1.1 = (-20)%float /\
  (pos (_update_normal 800 600 crossing)).1.2 = 300%float /\
  (pos (_update_normal 800 600 sinking)).1.2 = 620%float /\
  ((pos (_update_normal 800 600 sinking)).1.2 <=? 600 + WRAPDIST)%float = true.
Proof.
  destruct (ship_stays_in_band 800 600 still bool crossing eq_refl eq_refl)
    as (_ & _ & _ & Hx & _ & _ & _ & _ & Hy).
  destruct (ship_stays_in_band 800 600 still bool sinking eq_refl eq_refl)
    as (_ & Hband & _ & _ & _ & _ & _ & Hy' & _).
  split; [exact (Hx eq_refl) |]. split; [exact (Hy eq_refl eq_refl) |].
  split; [exact (Hy' eq_refl eq_refl) |].
  exact (proj2 (Hband eq_refl)).
Defined.

Lemma fly_in_flight_witness :
  _state (frames (fun b _ => b.1) snd 99 (fly_in 800 600 1000 still_curve crossing)) = 2%Z /\
  _state (frames (fun b _ => b.1) snd 100 (fly_in 800 600 1000 still_curve crossing)) = 1%Z.
Proof.
  split.
  - destruct (fly_in_flight 800 600 1000 still still_curve (fun b _ => b.1) snd bool crossing 99)
      as (_ & _ & H).
    destruct H as (_ & _ & _ & _ & H & _); [lia |]. apply H. cbn. lia.
  - destruct (fly_in_flight 800 600 1000 still still_curve (fun b _ => b.1) snd bool crossing 100)
      as (_ & _ & H).
    destruct H as (_ & _ & _ & _ & _ & H); [lia |]. apply H. cbn. lia.
Defined.

Lemma controls_gated_witness :
  thrust (fly_in 800 600 1000 still_curve crossing) true
  = fly_in 800 600 1000 still_curve crossing /\
  _trusting (thrust crossing true) = true.
Proof.
  split.
  - destruct (controls_gated 800 600 1000 still still_curve (fun b _ => b.1) snd bool
                crossing true true 0) as (_ & _ & H & _).
    apply H. cbn. lia.
  - destruct (controls_gated 800 600 1000 still still_curve (fun b _ => b.1) snd bool
                crossing true true 0) as (_ & H & _).
    destruct H as [-> _]; [by right | reflexivity].
Defined.
